(** * ROP_FBXExporter: a shallow embedding of the FBX export session

    The exporter object of [ROP_FBXExporter.C] is modelled as a record of
    its data members, threaded through a small state-and-crash monad.
    Houdini (the host scene graph), the Autodesk FBX SDK and the visitor
    classes of the ROP library are external to the file: what they answer
    is taken from records of oracles, and what the exporter asks of them
    that leaves no trace in its own members is appended to a call log. *)

From Stdlib Require Import Floats.PrimFloat.
From Stdlib Require Import String List ZArith Bool Arith Lia.
Import ListNotations.

#[local] Set Warnings "-inexact-float".
#[local] Open Scope string_scope.
#[local] Open Scope list_scope.

(** ** Host scene graph (OP / CH / TAKE libraries) *)

(** [fpreal] is a 64-bit float. *)
Definition fpreal := float.

(** An [OP_Node] is identified by its path in the operator tree, innermost
    name first; the director "/" is the empty path. *)
Definition OP_Node := list string.

Definition getParent (n : OP_Node) : option OP_Node :=
  match n with
  | [] => None
  | _ :: p => Some p
  end.

Definition getParentNetwork (n : OP_Node) : option OP_Node := getParent n.

Definition OP_Node_eqb (a b : OP_Node) : bool :=
  if list_eq_dec string_dec a b then true else false.

(** Pointer comparison, where either side may be NULL. *)
Definition ptr_eqb (a b : option OP_Node) : bool :=
  match a, b with
  | None, None => true
  | Some x, Some y => OP_Node_eqb x y
  | _, _ => false
  end.

Inductive OP_OrientationMode := Y_UP | Z_UP.

Record OP_Bundle := {
  bundle_getName : string;
  bundle_nodes : list (option OP_Node)
}.

(** What Houdini answers during one export.  [takeSet cur name] is the
    current take after [OP_Take::takeSet(name)] when [cur] was current;
    [CHgetFrameFromTime] includes the conversion of the frame to the
    integer that [FbxTime::SetFrame] takes; [substitute s find replacement]
    is the string [s] after [UT_String::substitute(find, replacement)]. *)
Record Houdini := {
  wasInterrupted : bool;
  findNode : string -> option OP_Node;
  getFullPath : OP_Node -> string;
  getIsContainedBy : OP_Node -> option OP_Node -> bool;
  getBundles : list (option OP_Bundle);
  multiMatch : string -> string -> bool;
  strip : string -> string -> string;
  substitute : string -> string -> string -> string;
  takeSet : string -> string -> string;
  getSamplesPerSec : fpreal;
  CHgetFrameFromTime : fpreal -> Z;
  getOrientationMode : OP_OrientationMode;
  getUnitLength : fpreal;
  expandString : string -> string;
  SYS_Version_full : string;
  SYSisEqual : fpreal -> fpreal -> bool
}.

(** ** FBX SDK objects *)

Module Fbx.

(** [FbxTime::EMode], the values the exporter uses. *)
Inductive EMode :=
| eDefaultMode
| eFrames120 | eFrames100 | eFrames60 | eFrames50 | eFrames48
| eFrames30 | eNTSCFullFrame | ePAL | eFrames24 | eFrames1000
| eFilmFullFrame | eCustom | eFrames96 | eFrames72 | eFrames59dot94.

Record FbxTime := { time_frame : Z; time_mode : EMode }.
Record FbxTimeSpan := { span_start : FbxTime; span_stop : FbxTime }.

(** [FbxAxisSystem]: up vector, front-vector parity and handedness. *)
Inductive EUpVector := eXAxis | eYAxis | eZAxis.
Inductive EFrontVector := eParityEven | eParityOdd | eParityOddNeg.
Inductive ECoordSystem := eRightHanded | eLeftHanded.

Record FbxAxisSystem := {
  UpVector : EUpVector;
  FrontVector : EFrontVector;
  CoordSystem : ECoordSystem
}.

Definition MayaZUp := {| UpVector := eZAxis; FrontVector := eParityOddNeg; CoordSystem := eRightHanded |}.
Definition MayaYUp := {| UpVector := eYAxis; FrontVector := eParityOdd; CoordSystem := eRightHanded |}.
Definition Max := {| UpVector := eZAxis; FrontVector := eParityOddNeg; CoordSystem := eRightHanded |}.
Definition Motionbuilder := {| UpVector := eYAxis; FrontVector := eParityOdd; CoordSystem := eRightHanded |}.
Definition OpenGL := {| UpVector := eYAxis; FrontVector := eParityOdd; CoordSystem := eRightHanded |}.
Definition DirectX := {| UpVector := eYAxis; FrontVector := eParityOdd; CoordSystem := eLeftHanded |}.
Definition Lightwave := {| UpVector := eYAxis; FrontVector := eParityOdd; CoordSystem := eLeftHanded |}.

Definition EUpVector_eqb (a b : EUpVector) : bool :=
  match a, b with
  | eXAxis, eXAxis | eYAxis, eYAxis | eZAxis, eZAxis => true
  | _, _ => false
  end.

Definition EFrontVector_eqb (a b : EFrontVector) : bool :=
  match a, b with
  | eParityEven, eParityEven | eParityOdd, eParityOdd
  | eParityOddNeg, eParityOddNeg => true
  | _, _ => false
  end.

Definition ECoordSystem_eqb (a b : ECoordSystem) : bool :=
  match a, b with
  | eRightHanded, eRightHanded | eLeftHanded, eLeftHanded => true
  | _, _ => false
  end.

(** [FbxAxisSystem::operator==]. *)
Definition FbxAxisSystem_eqb (a b : FbxAxisSystem) : bool :=
  EUpVector_eqb (UpVector a) (UpVector b)
  && EFrontVector_eqb (FrontVector a) (FrontVector b)
  && ECoordSystem_eqb (CoordSystem a) (CoordSystem b).

(** [FbxSystemUnit]: a scale factor in centimeters and a multiplier. *)
Record FbxSystemUnit := { ScaleFactor : fpreal; Multiplier : fpreal }.

Definition FbxSystemUnit_of (scale : fpreal) : FbxSystemUnit :=
  {| ScaleFactor := scale; Multiplier := 1%float |}.

Definition mm := FbxSystemUnit_of 0.1%float.
Definition cm := FbxSystemUnit_of 1%float.
Definition dm := FbxSystemUnit_of 10%float.
Definition m := FbxSystemUnit_of 100%float.
Definition km := FbxSystemUnit_of 100000%float.
Definition Inch := FbxSystemUnit_of 2.54%float.
Definition Yard := FbxSystemUnit_of 91.44%float.
Definition Mile := FbxSystemUnit_of 160934.4%float.

(** [FbxSystemUnit::operator==]. *)
Definition FbxSystemUnit_eqb (a b : FbxSystemUnit) : bool :=
  PrimFloat.eqb (ScaleFactor a) (ScaleFactor b)
  && PrimFloat.eqb (Multiplier a) (Multiplier b).

Record FbxGlobalSettings := {
  TimeMode : EMode;
  CustomFrameRate : fpreal;
  TimelineDefaultTimeSpan : option FbxTimeSpan;
  AxisSystem : FbxAxisSystem;
  OriginalUpAxis : option FbxAxisSystem;
  SystemUnit : FbxSystemUnit;
  OriginalSystemUnit : option FbxSystemUnit
}.

Record FbxAnimStack := {
  stack_name : string;
  stack_members : list string;
  LocalTimeSpan : option FbxTimeSpan;
  ReferenceTimeSpan : option FbxTimeSpan
}.

(** A node made by the exporter itself: an [FbxNull] attribute with
    its look, and the host node and time its transforms were taken
    from. *)
Inductive ELook := eNone | eCross.

Record FbxNode := {
  node_name : string;
  node_attribute : option (string * ELook);
  node_transforms : option (OP_Node * fpreal)
}.

(** What [getFBXRootNode] hands out: the scene's own root node, or a
    node the exporter created. *)
Inductive FbxNodePtr :=
| SceneRootNode
| CreatedNode (n : FbxNode).

Record FbxScene := {
  GlobalSettings : FbxGlobalSettings;
  SceneInfo : list (string * string);
  AmbientColor : option (fpreal * fpreal * fpreal);
  AnimLayers : list string;
  AnimStacks : list FbxAnimStack;
  RootChildren : list FbxNode
}.

Inductive FbxManager := TheManager.

End Fbx.
Import Fbx.

(** What the FBX SDK answers: whether [FbxManager::Create] succeeds, the
    settings of a fresh scene, the writer formats of the plugin registry
    (is-FBX flag and description), and the outcome of the writer's
    [Initialize] and [Export]. *)
Record FbxSdk := {
  FbxManager_Create : option FbxManager;
  fresh_TimeMode : EMode;
  fresh_CustomFrameRate : fpreal;
  fresh_AxisSystem : FbxAxisSystem;
  fresh_SystemUnit : FbxSystemUnit;
  currentDateTimeGMT : string;
  WriterFormats : list (bool * string);
  Exporter_Initialize : string -> Z -> bool;
  Exporter_Export : option FbxScene -> bool;
  Exporter_GetErrorString : string
}.

Definition FbxScene_Create (sdk : FbxSdk) : FbxScene :=
  {| GlobalSettings :=
       {| TimeMode := fresh_TimeMode sdk;
          CustomFrameRate := fresh_CustomFrameRate sdk;
          TimelineDefaultTimeSpan := None;
          AxisSystem := fresh_AxisSystem sdk;
          OriginalUpAxis := None;
          SystemUnit := fresh_SystemUnit sdk;
          OriginalSystemUnit := None |};
     SceneInfo := [];
     AmbientColor := None;
     AnimLayers := [];
     AnimStacks := [];
     RootChildren := [] |}.

(** ** Export options, node manager, error manager (ROP_FBXCommon) *)

Inductive ROP_FBXAxisSystemType :=
| ROP_FBXAxisSystem_YUp_RightHanded
| ROP_FBXAxisSystem_YUp_LeftHanded
| ROP_FBXAxisSystem_ZUp_RightHanded
| ROP_FBXAxisSystem_Current.

(** The unit codes the [switch] of [doExport] names; [UNIT_other] stands
    for any other [int], which no [case] takes. *)
Inductive ROP_FBXUnit :=
| UNIT_MM | UNIT_CM | UNIT_DM | UNIT_M | UNIT_KM
| UNIT_IN | UNIT_YA | UNIT_ML
| UNIT_other.

Record ROP_FBXExportClip := {
  clip_name : string;
  start_frame : Z;
  end_frame : Z
}.

Record ROP_FBXExportOptions := {
  isExportingBundles : bool;
  getBundlesString : string;
  getStartNodePath : string;
  getExportTakeName : string;
  getExportDeformsAsVC : bool;
  getExportClips : list ROP_FBXExportClip;
  getConvertAxisSystem : bool;
  getAxisSystem : ROP_FBXAxisSystemType;
  getConvertUnits : bool;
  getconvertUnitTo : ROP_FBXUnit;
  getVersion : string;
  getExportInAscii : bool;
  getEmbedMedia : bool
}.

(** [setStartNodePath(path, false)]. *)
Definition setStartNodePath (path : string) (o : ROP_FBXExportOptions) : ROP_FBXExportOptions :=
  {| isExportingBundles := isExportingBundles o;
     getBundlesString := getBundlesString o;
     getStartNodePath := path;
     getExportTakeName := getExportTakeName o;
     getExportDeformsAsVC := getExportDeformsAsVC o;
     getExportClips := getExportClips o;
     getConvertAxisSystem := getConvertAxisSystem o;
     getAxisSystem := getAxisSystem o;
     getConvertUnits := getConvertUnits o;
     getconvertUnitTo := getconvertUnitTo o;
     getVersion := getVersion o;
     getExportInAscii := getExportInAscii o;
     getEmbedMedia := getEmbedMedia o |}.

Definition setExportDeformsAsVC (b : bool) (o : ROP_FBXExportOptions) : ROP_FBXExportOptions :=
  {| isExportingBundles := isExportingBundles o;
     getBundlesString := getBundlesString o;
     getStartNodePath := getStartNodePath o;
     getExportTakeName := getExportTakeName o;
     getExportDeformsAsVC := b;
     getExportClips := getExportClips o;
     getConvertAxisSystem := getConvertAxisSystem o;
     getAxisSystem := getAxisSystem o;
     getConvertUnits := getConvertUnits o;
     getconvertUnitTo := getconvertUnitTo o;
     getVersion := getVersion o;
     getExportInAscii := getExportInAscii o;
     getEmbedMedia := getEmbedMedia o |}.

(** The node identity map and the list of bundled nodes. *)
Record ROP_FBXNodeManager := {
  bundled_nodes : list OP_Node;
  node_pairs : list (OP_Node * FbxNode)
}.

Definition new_ROP_FBXNodeManager : ROP_FBXNodeManager :=
  {| bundled_nodes := []; node_pairs := [] |}.

Definition addBundledNode (n : OP_Node) (nm : ROP_FBXNodeManager) : ROP_FBXNodeManager :=
  {| bundled_nodes := bundled_nodes nm ++ [n]; node_pairs := node_pairs nm |}.

Definition addNodePair (n : OP_Node) (f : FbxNode) (nm : ROP_FBXNodeManager) : ROP_FBXNodeManager :=
  {| bundled_nodes := bundled_nodes nm; node_pairs := node_pairs nm ++ [(n, f)] |}.

Inductive ROP_FBXActionManager := TheActionManager.
Inductive UT_Interrupt := TheInterrupt.

(** One entry of the error sink. *)
Record ROP_FBXError := {
  err_message : string;
  err_isCritical : bool
}.

(** What one run of the geometry visitor does as far as the exporter can
    tell: the [getFBXRootNode] calls it makes back into the exporter
    (asking node, create_subnet_root), whether it was cancelled, whether
    it holds a create-instances action, and the ambient colour it
    accumulated. *)
Record GeomVisit := {
  geom_root_requests : list (option OP_Node * bool);
  geom_getDidCancel : bool;
  geom_getCreateInstancesAction : bool;
  geom_getAccumAmbientColor : fpreal * fpreal * fpreal
}.

(** The rest of the ROP library, as the exporter uses it: the default
    options, the unique names of the node manager, and what the two
    visitors do on a start node (for the animation visitor, its
    [getFBXRootNode] calls and whether it was cancelled). *)
Record RopLib := {
  ROP_FBXExportOptions_reset : ROP_FBXExportOptions;
  makeNameUnique : string -> string;
  geom_visitScene : OP_Node -> GeomVisit;
  anim_root_requests : OP_Node -> list (option OP_Node * bool);
  anim_getDidCancel : OP_Node -> bool
}.

(** The three libraries, and [win32]: whether the file is compiled with
    [_WIN32] set, as it is for Windows. *)
Record Env := {
  hou : Houdini;
  sdk : FbxSdk;
  rop : RopLib;
  win32 : bool
}.

(** ** The call log *)

Inductive Call :=
| FBXwrapAllocators
| Call_takeSet (name : string)
| Call_SetGlobalTimeMode (mode : EMode) (rate : fpreal)
| Geom_visitScene (n : OP_Node)
| CreateInstances_performAction
| Anim_reset (layer : string)
| Anim_exportTRSAnimation (n : OP_Node) (layer : string) (target : FbxNode)
| Anim_visitScene (n : OP_Node)
| performPostActions
| Axis_ConvertScene (target : FbxAxisSystem)
| Unit_ConvertScene (target : FbxSystemUnit)
| FbxExporter_Create
| SetFileExportVersion (version : string)
| FbxExporter_Initialize (file : string) (format : Z)
| SetBoolProp_EXP_FBX_EMBEDDED (b : bool)
| FbxExporter_Export
| FbxExporter_Destroy
| FbxScene_Destroy
| FbxManager_Destroy
| delete_string (p : nat)
| delete_NodeManager
| delete_ActionManager.

(** ** The exporter object *)

Record Exporter := {
  mySDKManager : option FbxManager;
  myScene : option FbxScene;
  myNodeManager : option ROP_FBXNodeManager;
  myActionManager : option ROP_FBXActionManager;
  myDummyRootNullNode : option FbxNode;
  myBoss : option UT_Interrupt;
  myDidCancel : bool;
  myErrorManager : list ROP_FBXError;
  myExportOptions : ROP_FBXExportOptions;
  myStartTime : fpreal;
  myEndTime : fpreal;
  myOutputFile : string;
  myStringsToDeallocate : list nat;
  (* outside the object: Houdini's current take, and the call log *)
  currentTake : string;
  calls : list Call
}.

Definition set_mySDKManager (v : option FbxManager) (e : Exporter) : Exporter :=
  {| mySDKManager := v; myScene := myScene e; myNodeManager := myNodeManager e;
     myActionManager := myActionManager e; myDummyRootNullNode := myDummyRootNullNode e;
     myBoss := myBoss e; myDidCancel := myDidCancel e; myErrorManager := myErrorManager e;
     myExportOptions := myExportOptions e; myStartTime := myStartTime e;
     myEndTime := myEndTime e; myOutputFile := myOutputFile e;
     myStringsToDeallocate := myStringsToDeallocate e;
     currentTake := currentTake e; calls := calls e |}.

Definition set_myScene (v : option FbxScene) (e : Exporter) : Exporter :=
  {| mySDKManager := mySDKManager e; myScene := v; myNodeManager := myNodeManager e;
     myActionManager := myActionManager e; myDummyRootNullNode := myDummyRootNullNode e;
     myBoss := myBoss e; myDidCancel := myDidCancel e; myErrorManager := myErrorManager e;
     myExportOptions := myExportOptions e; myStartTime := myStartTime e;
     myEndTime := myEndTime e; myOutputFile := myOutputFile e;
     myStringsToDeallocate := myStringsToDeallocate e;
     currentTake := currentTake e; calls := calls e |}.

Definition set_myNodeManager (v : option ROP_FBXNodeManager) (e : Exporter) : Exporter :=
  {| mySDKManager := mySDKManager e; myScene := myScene e; myNodeManager := v;
     myActionManager := myActionManager e; myDummyRootNullNode := myDummyRootNullNode e;
     myBoss := myBoss e; myDidCancel := myDidCancel e; myErrorManager := myErrorManager e;
     myExportOptions := myExportOptions e; myStartTime := myStartTime e;
     myEndTime := myEndTime e; myOutputFile := myOutputFile e;
     myStringsToDeallocate := myStringsToDeallocate e;
     currentTake := currentTake e; calls := calls e |}.

Definition set_myActionManager (v : option ROP_FBXActionManager) (e : Exporter) : Exporter :=
  {| mySDKManager := mySDKManager e; myScene := myScene e; myNodeManager := myNodeManager e;
     myActionManager := v; myDummyRootNullNode := myDummyRootNullNode e;
     myBoss := myBoss e; myDidCancel := myDidCancel e; myErrorManager := myErrorManager e;
     myExportOptions := myExportOptions e; myStartTime := myStartTime e;
     myEndTime := myEndTime e; myOutputFile := myOutputFile e;
     myStringsToDeallocate := myStringsToDeallocate e;
     currentTake := currentTake e; calls := calls e |}.

Definition set_myDummyRootNullNode (v : option FbxNode) (e : Exporter) : Exporter :=
  {| mySDKManager := mySDKManager e; myScene := myScene e; myNodeManager := myNodeManager e;
     myActionManager := myActionManager e; myDummyRootNullNode := v;
     myBoss := myBoss e; myDidCancel := myDidCancel e; myErrorManager := myErrorManager e;
     myExportOptions := myExportOptions e; myStartTime := myStartTime e;
     myEndTime := myEndTime e; myOutputFile := myOutputFile e;
     myStringsToDeallocate := myStringsToDeallocate e;
     currentTake := currentTake e; calls := calls e |}.

Definition set_myBoss (v : option UT_Interrupt) (e : Exporter) : Exporter :=
  {| mySDKManager := mySDKManager e; myScene := myScene e; myNodeManager := myNodeManager e;
     myActionManager := myActionManager e; myDummyRootNullNode := myDummyRootNullNode e;
     myBoss := v; myDidCancel := myDidCancel e; myErrorManager := myErrorManager e;
     myExportOptions := myExportOptions e; myStartTime := myStartTime e;
     myEndTime := myEndTime e; myOutputFile := myOutputFile e;
     myStringsToDeallocate := myStringsToDeallocate e;
     currentTake := currentTake e; calls := calls e |}.

Definition set_myDidCancel (v : bool) (e : Exporter) : Exporter :=
  {| mySDKManager := mySDKManager e; myScene := myScene e; myNodeManager := myNodeManager e;
     myActionManager := myActionManager e; myDummyRootNullNode := myDummyRootNullNode e;
     myBoss := myBoss e; myDidCancel := v; myErrorManager := myErrorManager e;
     myExportOptions := myExportOptions e; myStartTime := myStartTime e;
     myEndTime := myEndTime e; myOutputFile := myOutputFile e;
     myStringsToDeallocate := myStringsToDeallocate e;
     currentTake := currentTake e; calls := calls e |}.

Definition set_myErrorManager (v : list ROP_FBXError) (e : Exporter) : Exporter :=
  {| mySDKManager := mySDKManager e; myScene := myScene e; myNodeManager := myNodeManager e;
     myActionManager := myActionManager e; myDummyRootNullNode := myDummyRootNullNode e;
     myBoss := myBoss e; myDidCancel := myDidCancel e; myErrorManager := v;
     myExportOptions := myExportOptions e; myStartTime := myStartTime e;
     myEndTime := myEndTime e; myOutputFile := myOutputFile e;
     myStringsToDeallocate := myStringsToDeallocate e;
     currentTake := currentTake e; calls := calls e |}.

Definition set_myExportOptions (v : ROP_FBXExportOptions) (e : Exporter) : Exporter :=
  {| mySDKManager := mySDKManager e; myScene := myScene e; myNodeManager := myNodeManager e;
     myActionManager := myActionManager e; myDummyRootNullNode := myDummyRootNullNode e;
     myBoss := myBoss e; myDidCancel := myDidCancel e; myErrorManager := myErrorManager e;
     myExportOptions := v; myStartTime := myStartTime e;
     myEndTime := myEndTime e; myOutputFile := myOutputFile e;
     myStringsToDeallocate := myStringsToDeallocate e;
     currentTake := currentTake e; calls := calls e |}.

Definition set_times (tstart tend : fpreal) (e : Exporter) : Exporter :=
  {| mySDKManager := mySDKManager e; myScene := myScene e; myNodeManager := myNodeManager e;
     myActionManager := myActionManager e; myDummyRootNullNode := myDummyRootNullNode e;
     myBoss := myBoss e; myDidCancel := myDidCancel e; myErrorManager := myErrorManager e;
     myExportOptions := myExportOptions e; myStartTime := tstart;
     myEndTime := tend; myOutputFile := myOutputFile e;
     myStringsToDeallocate := myStringsToDeallocate e;
     currentTake := currentTake e; calls := calls e |}.

Definition set_myOutputFile (v : string) (e : Exporter) : Exporter :=
  {| mySDKManager := mySDKManager e; myScene := myScene e; myNodeManager := myNodeManager e;
     myActionManager := myActionManager e; myDummyRootNullNode := myDummyRootNullNode e;
     myBoss := myBoss e; myDidCancel := myDidCancel e; myErrorManager := myErrorManager e;
     myExportOptions := myExportOptions e; myStartTime := myStartTime e;
     myEndTime := myEndTime e; myOutputFile := v;
     myStringsToDeallocate := myStringsToDeallocate e;
     currentTake := currentTake e; calls := calls e |}.

Definition set_myStringsToDeallocate (v : list nat) (e : Exporter) : Exporter :=
  {| mySDKManager := mySDKManager e; myScene := myScene e; myNodeManager := myNodeManager e;
     myActionManager := myActionManager e; myDummyRootNullNode := myDummyRootNullNode e;
     myBoss := myBoss e; myDidCancel := myDidCancel e; myErrorManager := myErrorManager e;
     myExportOptions := myExportOptions e; myStartTime := myStartTime e;
     myEndTime := myEndTime e; myOutputFile := myOutputFile e;
     myStringsToDeallocate := v;
     currentTake := currentTake e; calls := calls e |}.

Definition set_currentTake (v : string) (e : Exporter) : Exporter :=
  {| mySDKManager := mySDKManager e; myScene := myScene e; myNodeManager := myNodeManager e;
     myActionManager := myActionManager e; myDummyRootNullNode := myDummyRootNullNode e;
     myBoss := myBoss e; myDidCancel := myDidCancel e; myErrorManager := myErrorManager e;
     myExportOptions := myExportOptions e; myStartTime := myStartTime e;
     myEndTime := myEndTime e; myOutputFile := myOutputFile e;
     myStringsToDeallocate := myStringsToDeallocate e;
     currentTake := v; calls := calls e |}.

Definition set_calls (v : list Call) (e : Exporter) : Exporter :=
  {| mySDKManager := mySDKManager e; myScene := myScene e; myNodeManager := myNodeManager e;
     myActionManager := myActionManager e; myDummyRootNullNode := myDummyRootNullNode e;
     myBoss := myBoss e; myDidCancel := myDidCancel e; myErrorManager := myErrorManager e;
     myExportOptions := myExportOptions e; myStartTime := myStartTime e;
     myEndTime := myEndTime e; myOutputFile := myOutputFile e;
     myStringsToDeallocate := myStringsToDeallocate e;
     currentTake := currentTake e; calls := v |}.

(** Setters of the scene and of its global settings. *)
Definition set_GlobalSettings (g : FbxGlobalSettings) (sc : FbxScene) : FbxScene :=
  {| GlobalSettings := g; SceneInfo := SceneInfo sc; AmbientColor := AmbientColor sc;
     AnimLayers := AnimLayers sc; AnimStacks := AnimStacks sc; RootChildren := RootChildren sc |}.

Definition add_SceneInfo (key value : string) (sc : FbxScene) : FbxScene :=
  {| GlobalSettings := GlobalSettings sc; SceneInfo := SceneInfo sc ++ [(key, value)];
     AmbientColor := AmbientColor sc;
     AnimLayers := AnimLayers sc; AnimStacks := AnimStacks sc; RootChildren := RootChildren sc |}.

Definition SetAmbientColor (c : fpreal * fpreal * fpreal) (sc : FbxScene) : FbxScene :=
  {| GlobalSettings := GlobalSettings sc; SceneInfo := SceneInfo sc; AmbientColor := Some c;
     AnimLayers := AnimLayers sc; AnimStacks := AnimStacks sc; RootChildren := RootChildren sc |}.

Definition FbxAnimLayer_Create (name : string) (sc : FbxScene) : FbxScene :=
  {| GlobalSettings := GlobalSettings sc; SceneInfo := SceneInfo sc; AmbientColor := AmbientColor sc;
     AnimLayers := AnimLayers sc ++ [name]; AnimStacks := AnimStacks sc;
     RootChildren := RootChildren sc |}.

Definition add_AnimStack (st : FbxAnimStack) (sc : FbxScene) : FbxScene :=
  {| GlobalSettings := GlobalSettings sc; SceneInfo := SceneInfo sc; AmbientColor := AmbientColor sc;
     AnimLayers := AnimLayers sc; AnimStacks := AnimStacks sc ++ [st];
     RootChildren := RootChildren sc |}.

Definition AddChild (n : FbxNode) (sc : FbxScene) : FbxScene :=
  {| GlobalSettings := GlobalSettings sc; SceneInfo := SceneInfo sc; AmbientColor := AmbientColor sc;
     AnimLayers := AnimLayers sc; AnimStacks := AnimStacks sc;
     RootChildren := RootChildren sc ++ [n] |}.

Definition SetTimeMode (v : EMode) (g : FbxGlobalSettings) : FbxGlobalSettings :=
  {| TimeMode := v; CustomFrameRate := CustomFrameRate g;
     TimelineDefaultTimeSpan := TimelineDefaultTimeSpan g; AxisSystem := AxisSystem g;
     OriginalUpAxis := OriginalUpAxis g; SystemUnit := SystemUnit g;
     OriginalSystemUnit := OriginalSystemUnit g |}.

Definition SetCustomFrameRate (v : fpreal) (g : FbxGlobalSettings) : FbxGlobalSettings :=
  {| TimeMode := TimeMode g; CustomFrameRate := v;
     TimelineDefaultTimeSpan := TimelineDefaultTimeSpan g; AxisSystem := AxisSystem g;
     OriginalUpAxis := OriginalUpAxis g; SystemUnit := SystemUnit g;
     OriginalSystemUnit := OriginalSystemUnit g |}.

Definition SetTimelineDefaultTimeSpan (v : FbxTimeSpan) (g : FbxGlobalSettings) : FbxGlobalSettings :=
  {| TimeMode := TimeMode g; CustomFrameRate := CustomFrameRate g;
     TimelineDefaultTimeSpan := Some v; AxisSystem := AxisSystem g;
     OriginalUpAxis := OriginalUpAxis g; SystemUnit := SystemUnit g;
     OriginalSystemUnit := OriginalSystemUnit g |}.

Definition SetAxisSystem (v : FbxAxisSystem) (g : FbxGlobalSettings) : FbxGlobalSettings :=
  {| TimeMode := TimeMode g; CustomFrameRate := CustomFrameRate g;
     TimelineDefaultTimeSpan := TimelineDefaultTimeSpan g; AxisSystem := v;
     OriginalUpAxis := OriginalUpAxis g; SystemUnit := SystemUnit g;
     OriginalSystemUnit := OriginalSystemUnit g |}.

Definition SetOriginalUpAxis (v : FbxAxisSystem) (g : FbxGlobalSettings) : FbxGlobalSettings :=
  {| TimeMode := TimeMode g; CustomFrameRate := CustomFrameRate g;
     TimelineDefaultTimeSpan := TimelineDefaultTimeSpan g; AxisSystem := AxisSystem g;
     OriginalUpAxis := Some v; SystemUnit := SystemUnit g;
     OriginalSystemUnit := OriginalSystemUnit g |}.

Definition SetSystemUnit (v : FbxSystemUnit) (g : FbxGlobalSettings) : FbxGlobalSettings :=
  {| TimeMode := TimeMode g; CustomFrameRate := CustomFrameRate g;
     TimelineDefaultTimeSpan := TimelineDefaultTimeSpan g; AxisSystem := AxisSystem g;
     OriginalUpAxis := OriginalUpAxis g; SystemUnit := v;
     OriginalSystemUnit := OriginalSystemUnit g |}.

Definition SetOriginalSystemUnit (v : FbxSystemUnit) (g : FbxGlobalSettings) : FbxGlobalSettings :=
  {| TimeMode := TimeMode g; CustomFrameRate := CustomFrameRate g;
     TimelineDefaultTimeSpan := TimelineDefaultTimeSpan g; AxisSystem := AxisSystem g;
     OriginalUpAxis := OriginalUpAxis g; SystemUnit := SystemUnit g;
     OriginalSystemUnit := Some v |}.

(** ** The monad: exporter state, and a crash

    A computation takes the exporter and gives a result and the exporter
    after it, or [None] when the C++ dereferences a null pointer or lets
    an exception escape. *)

Definition M (A : Type) : Type := Exporter -> option (A * Exporter).

Definition ret {A : Type} (a : A) : M A := fun e => Some (a, e).

Definition bind {A B : Type} (c : M A) (k : A -> M B) : M B :=
  fun e => match c e with
           | Some (a, e') => k a e'
           | None => None
           end.

Definition crash {A : Type} : M A := fun _ => None.

Definition gets {A : Type} (f : Exporter -> A) : M A := fun e => Some (f e, e).

Definition modify (f : Exporter -> Exporter) : M unit := fun e => Some (tt, f e).

(** [p->...] on a member pointer: a crash when it is NULL. *)
Definition deref {A : Type} (p : Exporter -> option A) : M A :=
  fun e => match p e with
           | Some a => Some (a, e)
           | None => None
           end.

Definition lift {A : Type} (o : option A) : M A :=
  fun e => match o with
           | Some a => Some (a, e)
           | None => None
           end.

Declare Scope exporter_scope.
Delimit Scope exporter_scope with exporter.
Notation "x <- c ;; k" := (bind c (fun x => k))
  (at level 61, c at next level, right associativity) : exporter_scope.
Notation "c ;; k" := (bind c (fun _ => k))
  (at level 61, right associativity) : exporter_scope.
#[local] Open Scope exporter_scope.

Definition when (b : bool) (c : M unit) : M unit := if b then c else ret tt.

Definition call (c : Call) : M unit :=
  modify (fun e => set_calls (calls e ++ [c]) e).

Definition modify_scene (f : FbxScene -> FbxScene) : M unit :=
  sc <- deref myScene ;;
  modify (set_myScene (Some (f sc))).

Definition modify_settings (f : FbxGlobalSettings -> FbxGlobalSettings) : M unit :=
  modify_scene (fun sc => set_GlobalSettings (f (GlobalSettings sc)) sc).

Definition modify_node_manager (f : ROP_FBXNodeManager -> ROP_FBXNodeManager) : M unit :=
  nm <- deref myNodeManager ;;
  modify (set_myNodeManager (Some (f nm))).

(** [ROP_FBXErrorManager::addError] with up to three message parts. *)
Definition addError (part1 part2 part3 : string) (is_critical : bool) : M unit :=
  modify (fun e =>
    set_myErrorManager
      (myErrorManager e ++ [{| err_message := part1 ++ part2 ++ part3;
                               err_isCritical := is_critical |}]) e).

(** ** ROP_FBXExporter's member functions *)

(** The exporter as its constructor leaves it; the members the
    constructor does not set, and the world around it, are arguments. *)
Definition ROP_FBXExporter_new (opts : ROP_FBXExportOptions) (tstart tend : fpreal)
    (file take : string) : Exporter :=
  {| mySDKManager := None; myScene := None; myNodeManager := None;
     myActionManager := None; myDummyRootNullNode := None; myBoss := None;
     myDidCancel := false; myErrorManager := []; myExportOptions := opts;
     myStartTime := tstart; myEndTime := tend; myOutputFile := file;
     myStringsToDeallocate := []; currentTake := take; calls := [] |}.

Definition queueStringToDeallocate (string_ptr : nat) : M unit :=
  modify (fun e => set_myStringsToDeallocate (myStringsToDeallocate e ++ [string_ptr]) e).

Definition deallocateQueuedStrings : M unit :=
  strings <- gets myStringsToDeallocate ;;
  modify (fun e => set_calls (calls e ++ map delete_string strings) e) ;;
  modify (set_myStringsToDeallocate []).

Definition initializeExport (env : Env) (output_name : option string)
    (tstart tend : fpreal) (options : option ROP_FBXExportOptions) : M bool :=
  match output_name with
  | None => ret false
  | Some name =>
      deallocateQueuedStrings ;;
      modify (set_myErrorManager []) ;;
      modify (set_times tstart tend) ;;
      modify (set_myExportOptions
                match options with
                | Some o => o
                | None => ROP_FBXExportOptions_reset (rop env)
                end) ;;
      modify (set_myNodeManager (Some new_ROP_FBXNodeManager)) ;;
      modify (set_myActionManager (Some TheActionManager)) ;;
      call FBXwrapAllocators ;;
      modify (set_mySDKManager (FbxManager_Create (sdk env))) ;;
      mgr <- gets mySDKManager ;;
      match mgr with
      | None => ret false
      | Some _ =>
          modify (set_myScene (Some (FbxScene_Create (sdk env)))) ;;
          modify (set_myOutputFile name) ;;
          modify (set_myDidCancel false) ;;
          modify (set_myDummyRootNullNode None) ;;
          ret true
      end
  end.

Definition getExportingAnimation (env : Env) : M bool :=
  gets (fun e => negb (SYSisEqual (hou env) (myStartTime e) (myEndTime e))).

Definition getStartTime : M fpreal := gets myStartTime.

(** The accessors. *)

Definition getSDKManager : M (option FbxManager) := gets mySDKManager.
Definition getFBXScene : M (option FbxScene) := gets myScene.
Definition getErrorManager : M (list ROP_FBXError) := gets myErrorManager.
Definition getNodeManager : M (option ROP_FBXNodeManager) := gets myNodeManager.
Definition getActionManager : M (option ROP_FBXActionManager) := gets myActionManager.
Definition getExportOptions : M ROP_FBXExportOptions := gets myExportOptions.
Definition getOutputFileName : M string := gets myOutputFile.
Definition getEndTime : M fpreal := gets myEndTime.
Definition GetBoss : M (option UT_Interrupt) := gets myBoss.

(** [getFBXRootNode]: the scene root for the standard subnets, else the
    "world_root" null node, created on first demand. *)
Definition getFBXRootNode (env : Env) (asking_node : option OP_Node)
    (create_subnet_root : bool) : M FbxNodePtr :=
  _ <- deref myScene ;;
  opts <- gets myExportOptions ;;
  let export_path := getStartNodePath opts in
  if String.eqb export_path "/" then ret SceneRootNode else
  match findNode (hou env) export_path with
  | None => ret SceneRootNode
  | Some export_node =>
      if ptr_eqb asking_node (Some export_node) then ret SceneRootNode else
      match getParentNetwork export_node with
      | None => ret SceneRootNode
      | Some parent_net =>
          if String.eqb (getFullPath (hou env) parent_net) "/" then ret SceneRootNode else
          if negb create_subnet_root then ret SceneRootNode else
          dummy <- gets myDummyRootNullNode ;;
          match dummy with
          | Some d => ret (CreatedNode d)
          | None =>
              _ <- deref myNodeManager ;;
              let node_name := makeNameUnique (rop env) "world_root" in
              tstart <- getStartTime ;;
              let d := {| node_name := node_name;
                          node_attribute := Some (node_name, eNone);
                          node_transforms := Some (export_node, tstart) |} in
              modify (set_myDummyRootNullNode (Some d)) ;;
              modify_scene (AddChild d) ;;
              modify_node_manager (addNodePair export_node d) ;;
              ret (CreatedNode d)
          end
      end
  end.

(** *** doExport: the bundle scope *)

(** The [while] loop that looks for the parent network containing the
    node: it climbs [getParent] from [top_network], which is structural
    on the path.  Past the director the pointer is NULL, and the loop
    goes on to dereference it unless its test fails there. *)
Fixpoint climb_to_container (h : Houdini) (obj_net : option OP_Node)
    (bundle_node : OP_Node) (top_network : OP_Node) : option (option OP_Node) :=
  if negb (ptr_eqb (Some top_network) obj_net)
     && negb (getIsContainedBy h bundle_node (Some top_network))
  then
    match top_network with
    | _ :: parent => climb_to_container h obj_net bundle_node parent
    | [] =>
        if negb (ptr_eqb None obj_net) && negb (getIsContainedBy h bundle_node None)
        then None
        else Some None
    end
  else Some (Some top_network).

(** The body of the loop over the nodes of a bundle, after
    [addBundledNode]. *)
Definition update_top_network (h : Houdini) (obj_net : option OP_Node)
    (top_network : option OP_Node) (bundle_node : OP_Node) : option (option OP_Node) :=
  match top_network with
  | None =>
      match getParent bundle_node with
      | None => None
      | Some parent =>
          if negb (getIsContainedBy h parent obj_net) then Some None
          else Some (Some parent)
      end
  | Some top => climb_to_container h obj_net bundle_node top
  end.

Fixpoint process_bundle_nodes (h : Houdini) (obj_net : option OP_Node)
    (nodes : list (option OP_Node)) (top_network : option OP_Node) : M (option OP_Node) :=
  match nodes with
  | [] => ret top_network
  | None :: rest => process_bundle_nodes h obj_net rest top_network
  | Some bundle_node :: rest =>
      modify_node_manager (addBundledNode bundle_node) ;;
      top' <- lift (update_top_network h obj_net top_network bundle_node) ;;
      process_bundle_nodes h obj_net rest top'
  end.

Fixpoint process_bundles (h : Houdini) (obj_net : option OP_Node) (bundle_names : string)
    (bundles : list (option OP_Bundle)) (top_network : option OP_Node) : M (option OP_Node) :=
  match bundles with
  | [] => ret top_network
  | None :: rest => process_bundles h obj_net bundle_names rest top_network
  | Some bundle :: rest =>
      if negb (multiMatch h (bundle_getName bundle) bundle_names)
      then process_bundles h obj_net bundle_names rest top_network
      else
        top' <- process_bundle_nodes h obj_net (bundle_nodes bundle) top_network ;;
        process_bundles h obj_net bundle_names rest top'
  end.

(** The [if (isExportingBundles())] block; it gives the top exported
    network, whose full path becomes the start node path. *)
Definition export_bundles (env : Env) : M OP_Node :=
  opts <- gets myExportOptions ;;
  let bundle_names := strip (hou env) (getBundlesString opts) "@" in
  let obj_net := findNode (hou env) "/obj" in
  top <- process_bundles (hou env) obj_net bundle_names (getBundles (hou env)) None ;;
  top_network <- lift match top with
                      | None => obj_net
                      | Some t => Some t
                      end ;;
  modify (fun e => set_myExportOptions
                     (setStartNodePath (getFullPath (hou env) top_network) (myExportOptions e)) e) ;;
  ret top_network.

(** *** doExport: scene information and time mode *)

(** The string of one backslash. *)
Definition backslash : string := String (Ascii.ascii_of_nat 92) EmptyString.

(** The three [#if _WIN32] blocks are the three tests of [win32]. *)
Definition set_scene_info (env : Env) : M unit :=
  modify_scene (add_SceneInfo "Original|ApplicationVendor" "SideFX Software") ;;
  modify_scene (add_SceneInfo "Original|ApplicationName" "Houdini") ;;
  modify_scene (add_SceneInfo "Original|ApplicationVersion" (SYS_Version_full (hou env))) ;;
  outfile <- gets myOutputFile ;;
  (let outfile := if win32 env then substitute (hou env) outfile "/" backslash
                  else outfile in
   modify_scene (add_SceneInfo "Original|FileName" outfile)) ;;
  (let job := expandString (hou env) "$JOB" in
   when (negb (String.eqb job ""))
        (let job := if win32 env then substitute (hou env) job "/" backslash else job in
         modify_scene (add_SceneInfo "Original|ApplicationActiveProject" job))) ;;
  (let hipfile := expandString (hou env) "$HIPFILE" in
   when (negb (String.eqb hipfile ""))
        (let hipfile := if win32 env then substitute (hou env) hipfile "/" backslash
                        else hipfile in
         modify_scene (add_SceneInfo "Original|ApplicationNativeFile" hipfile))) ;;
  modify_scene (add_SceneInfo "LastSaved|ApplicationVendor" "SideFX Software") ;;
  modify_scene (add_SceneInfo "LastSaved|ApplicationName" "Houdini") ;;
  modify_scene (add_SceneInfo "LastSaved|ApplicationVersion" (SYS_Version_full (hou env))) ;;
  (let now := currentDateTimeGMT (sdk env) in
   modify_scene (add_SceneInfo "Original|DateTime_GMT" now) ;;
   modify_scene (add_SceneInfo "LastSaved|DateTime_GMT" now)).

(** The chain of [SYSisEqual] tests on the samples-per-second rate. *)
Definition time_mode_of (h : Houdini) (curr_fps : fpreal) : EMode :=
  if SYSisEqual h curr_fps 24.0%float then eFrames24
  else if SYSisEqual h curr_fps 120.0%float then eFrames120
  else if SYSisEqual h curr_fps 100.0%float then eFrames100
  else if SYSisEqual h curr_fps 60.0%float then eFrames60
  else if SYSisEqual h curr_fps 50.0%float then eFrames50
  else if SYSisEqual h curr_fps 48.0%float then eFrames48
  else if SYSisEqual h curr_fps 30.0%float then eFrames30
  else if SYSisEqual h curr_fps 29.97%float then eNTSCFullFrame
  else if SYSisEqual h curr_fps 25.0%float then ePAL
  else if SYSisEqual h curr_fps 1000.0%float then eFrames1000
  else if SYSisEqual h curr_fps 23.976%float then eFilmFullFrame
  else if SYSisEqual h curr_fps 96.0%float then eFrames96
  else if SYSisEqual h curr_fps 72.0%float then eFrames72
  else if SYSisEqual h curr_fps 59.94%float then eFrames59dot94
  else eCustom.

Definition SetFrame (frame : Z) (mode : EMode) : FbxTime :=
  {| time_frame := frame; time_mode := mode |}.

(** The [if (!exporting_single_frame)] block before the start node is
    looked up. *)
Definition set_time_mode (env : Env) : M unit :=
  let curr_fps := getSamplesPerSec (hou env) in
  let time_mode := time_mode_of (hou env) curr_fps in
  modify_settings (SetTimeMode time_mode) ;;
  modify_settings (SetCustomFrameRate curr_fps) ;;
  call (Call_SetGlobalTimeMode time_mode curr_fps) ;;
  tstart <- gets myStartTime ;;
  tend <- gets myEndTime ;;
  let fbx_start := SetFrame (CHgetFrameFromTime (hou env) tstart) time_mode in
  let fbx_stop := SetFrame (CHgetFrameFromTime (hou env) tend) time_mode in
  modify_settings (SetTimelineDefaultTimeSpan
                     {| span_start := fbx_start; span_stop := fbx_stop |}).

(** *** doExport: the two passes *)

Fixpoint run_root_requests (env : Env) (reqs : list (option OP_Node * bool)) : M unit :=
  match reqs with
  | [] => ret tt
  | (asking_node, create_subnet_root) :: rest =>
      _ <- getFBXRootNode env asking_node create_subnet_root ;;
      run_root_requests env rest
  end.

(** [geom_visitor.visitScene(geom_node)]. *)
Definition visit_geometry (env : Env) (geom_node : OP_Node) : M GeomVisit :=
  let v := geom_visitScene (rop env) geom_node in
  call (Geom_visitScene geom_node) ;;
  run_root_requests env (geom_root_requests v) ;;
  ret v.

Definition stack_of_clip (layer : string) (time_mode : EMode)
    (anim_clip : ROP_FBXExportClip) : FbxAnimStack :=
  let fbx_start := SetFrame (start_frame anim_clip) time_mode in
  let fbx_stop := SetFrame (end_frame anim_clip) time_mode in
  let time_span := {| span_start := fbx_start; span_stop := fbx_stop |} in
  {| stack_name := clip_name anim_clip;
     stack_members := [layer];
     LocalTimeSpan := Some time_span;
     ReferenceTimeSpan := Some time_span |}.

Definition stack_of_take (layer : string) (take_name : string) : FbxAnimStack :=
  {| stack_name := take_name;
     stack_members := [layer];
     LocalTimeSpan := None;
     ReferenceTimeSpan := None |}.

Fixpoint create_clip_stacks (layer : string) (time_mode : EMode)
    (clips : list ROP_FBXExportClip) : M unit :=
  match clips with
  | [] => ret tt
  | anim_clip :: rest =>
      modify_scene (add_AnimStack (stack_of_clip layer time_mode anim_clip)) ;;
      create_clip_stacks layer time_mode rest
  end.

(** The [if (!exporting_single_frame)] block of the animation pass. *)
Definition export_animation (env : Env) (geom_node : OP_Node) : M unit :=
  curr_hd_take <- gets currentTake ;;
  let anim_layer := "Base Layer" in
  modify_scene (FbxAnimLayer_Create anim_layer) ;;
  sc <- deref myScene ;;
  let time_mode := TimeMode (GlobalSettings sc) in
  opts <- gets myExportOptions ;;
  let num_clips := Z.of_nat (List.length (getExportClips opts)) in
  (if (0 <? num_clips)%Z
   then create_clip_stacks anim_layer time_mode (getExportClips opts)
   else modify_scene (add_AnimStack (stack_of_take anim_layer curr_hd_take))) ;;
  call (Anim_reset anim_layer) ;;
  dummy <- gets myDummyRootNullNode ;;
  match dummy with
  | Some d => call (Anim_exportTRSAnimation geom_node anim_layer d)
  | None => ret tt
  end ;;
  call (Anim_visitScene geom_node) ;;
  run_root_requests env (anim_root_requests (rop env) geom_node) ;;
  modify (set_myDidCancel (anim_getDidCancel (rop env) geom_node)).

(** *** doExport: axis and unit systems *)

Definition host_axis_system (h : Houdini) (scene_axis_system : FbxAxisSystem) : FbxAxisSystem :=
  match getOrientationMode h with
  | Y_UP => MayaYUp
  | Z_UP => MayaZUp
  end.

Definition target_axis_of (a : ROP_FBXAxisSystemType) (scene_axis_system : FbxAxisSystem)
    : FbxAxisSystem :=
  match a with
  | ROP_FBXAxisSystem_YUp_RightHanded => MayaYUp
  | ROP_FBXAxisSystem_YUp_LeftHanded => DirectX
  | ROP_FBXAxisSystem_ZUp_RightHanded => MayaZUp
  | ROP_FBXAxisSystem_Current => scene_axis_system
  end.

Definition is_Current (a : ROP_FBXAxisSystemType) : bool :=
  match a with
  | ROP_FBXAxisSystem_Current => true
  | _ => false
  end.

Definition setup_axis_system (env : Env) : M unit :=
  sc <- deref myScene ;;
  opts <- gets myExportOptions ;;
  let scene_axis_system := host_axis_system (hou env) (AxisSystem (GlobalSettings sc)) in
  if getConvertAxisSystem opts && negb (is_Current (getAxisSystem opts))
  then
    let target_axis := target_axis_of (getAxisSystem opts) scene_axis_system in
    when (negb (FbxAxisSystem_eqb target_axis scene_axis_system))
         (modify_settings (SetOriginalUpAxis scene_axis_system) ;;
          call (Axis_ConvertScene target_axis) ;;
          modify_settings (SetAxisSystem target_axis))
  else
    match getAxisSystem opts with
    | ROP_FBXAxisSystem_YUp_RightHanded => modify_settings (SetAxisSystem MayaYUp)
    | ROP_FBXAxisSystem_YUp_LeftHanded => modify_settings (SetAxisSystem DirectX)
    | ROP_FBXAxisSystem_ZUp_RightHanded => modify_settings (SetAxisSystem Max)
    | ROP_FBXAxisSystem_Current => modify_settings (SetAxisSystem scene_axis_system)
    end.

Definition unit_of (u : ROP_FBXUnit) : option FbxSystemUnit :=
  match u with
  | UNIT_MM => Some mm
  | UNIT_CM => Some cm
  | UNIT_DM => Some dm
  | UNIT_M => Some m
  | UNIT_KM => Some km
  | UNIT_IN => Some Inch
  | UNIT_YA => Some Yard
  | UNIT_ML => Some Mile
  | UNIT_other => None
  end.

Definition setup_unit_system (env : Env) : M unit :=
  opts <- gets myExportOptions ;;
  when (getConvertUnits opts)
    (let unit := getconvertUnitTo opts in
     let hou_units := FbxSystemUnit_of (getUnitLength (hou env) * 100)%float in
     modify_settings (SetSystemUnit hou_units) ;;
     modify_settings (SetOriginalSystemUnit hou_units) ;;
     match unit_of unit with
     | Some target => call (Unit_ConvertScene target)
     | None => ret tt
     end).

(** *** doExport *)

(** The geometry pass: the visitor, the cancel flag, the instances. *)
Definition geometry_pass (env : Env) (geom_node : OP_Node) : M GeomVisit :=
  v <- visit_geometry env geom_node ;;
  modify (set_myDidCancel (geom_getDidCancel v)) ;;
  when (geom_getCreateInstancesAction v) (call CreateInstances_performAction) ;;
  ret v.

(** The block under [if (!myDidCancel)]: ambient colour, animation
    pass, post-actions, axis and unit systems. *)
Definition finish_scene (env : Env) (exporting_single_frame : bool)
    (geom_node : OP_Node) (v : GeomVisit) : M unit :=
  modify_scene (SetAmbientColor (geom_getAccumAmbientColor v)) ;;
  when (negb exporting_single_frame) (export_animation env geom_node) ;;
  cancelled <- gets myDidCancel ;;
  when (negb cancelled)
       (_ <- deref myActionManager ;; call performPostActions) ;;
  setup_axis_system env ;;
  setup_unit_system env.

(** From [geom_visitor.visitScene(geom_node)] to the end of the
    function. *)
Definition export_scene (env : Env) (exporting_single_frame : bool)
    (geom_node : OP_Node) : M unit :=
  v <- geometry_pass env geom_node ;;
  cancelled <- gets myDidCancel ;;
  when (negb cancelled) (finish_scene env exporting_single_frame geom_node v).

(** From the scene information to the time mode: what [doExport] sets
    in the scene before it looks for the start node.  The result is
    [exporting_single_frame]. *)
Definition prepare_scene (env : Env) : M bool :=
  set_scene_info env ;;
  exporting_animation <- getExportingAnimation env ;;
  let exporting_single_frame := negb exporting_animation in
  when exporting_single_frame
       (modify (fun e => set_myExportOptions
                           (setExportDeformsAsVC false (myExportOptions e)) e)) ;;
  when (negb exporting_single_frame) (set_time_mode env) ;;
  ret exporting_single_frame.

(** What runs while the export take is set. *)
Definition export_in_take (env : Env) : M unit :=
  exporting_single_frame <- prepare_scene env ;;
  opts <- gets myExportOptions ;;
  match findNode (hou env) (getStartNodePath opts) with
  | None =>
      addError "Could not find the start node specified [ " (getStartNodePath opts) " ]" true
  | Some geom_node => export_scene env exporting_single_frame geom_node
  end.

Definition do_takeSet (env : Env) (name : string) : M unit :=
  call (Call_takeSet name) ;;
  modify (fun e => set_currentTake (takeSet (hou env) (currentTake e) name) e).

(** The export take is set; [init_take] is the take to restore, NULL
    when the current take is the one exported. *)
Definition set_export_take (env : Env) : M (option string) :=
  init_take <- gets currentTake ;;
  opts <- gets myExportOptions ;;
  if (String.length (getExportTakeName opts) =? 0)%nat
  then ret None
  else do_takeSet env (getExportTakeName opts) ;; ret (Some init_take).

Definition restore_take (env : Env) (init_take : option string) : M unit :=
  match init_take with
  | Some name => do_takeSet env name
  | None => ret tt
  end.

(** The [if (isExportingBundles())] statement. *)
Definition bundle_scope (env : Env) : M unit :=
  opts <- gets myExportOptions ;;
  when (isExportingBundles opts) (_ <- export_bundles env ;; ret tt).

(** [doExport].  The two scope-exit handlers (restore the take, clear
    [myBoss]) run after the body on each of its returns. *)
Definition doExport (env : Env) : M unit :=
  modify (set_myBoss (Some TheInterrupt)) ;;
  (if wasInterrupted (hou env) then ret tt
   else
     bundle_scope env ;;
     init_take <- set_export_take env ;;
     export_in_take env ;;
     restore_take env init_take) ;;
  modify (set_myBoss None).

(** *** finishExport *)

(** Splitting "name | version" at the bar.  [substr(sep_pos + 2)]
    throws when that position is past the end of the string. *)
Definition parse_version (sdk_full_version : string) : option (string * string) :=
  match index 0 "|" sdk_full_version with
  | Some (S p) =>
      let sep_pos := S p in
      if (String.length sdk_full_version <? sep_pos + 2)%nat then None
      else Some (substring 0 (sep_pos - 1) sdk_full_version,
                 substring (sep_pos + 2)
                           (String.length sdk_full_version - (sep_pos + 2))
                           sdk_full_version)
  | _ => Some ("", "")
  end.

Fixpoint find_writer_format (sdk_exporter_name : string) (formats : list (bool * string))
    (format_index : Z) : Z :=
  match formats with
  | [] => (-1)%Z
  | (is_fbx, format_desc) :: rest =>
      if is_fbx
         && (String.length sdk_exporter_name <=? String.length format_desc)%nat
         && String.eqb sdk_exporter_name
                       (substring 0 (String.length sdk_exporter_name) format_desc)
      then format_index
      else find_writer_format sdk_exporter_name rest (format_index + 1)%Z
  end.

(** The [if (!myDidCancel)] block; [None] is its [return false]. *)
Definition write_scene (env : Env) : M (option bool) :=
  call FbxExporter_Create ;;
  opts <- gets myExportOptions ;;
  parts <- lift (parse_version (getVersion opts)) ;;
  let sdk_version := snd parts in
  let sdk_exporter_name :=
    if (String.length (fst parts) <=? 0)%nat then "FBX" else fst parts in
  let sdk_exporter_name :=
    (sdk_exporter_name ++ (if getExportInAscii opts then " ascii" else " binary"))%string in
  _ <- deref mySDKManager ;;
  let out_file_format := find_writer_format sdk_exporter_name (WriterFormats (sdk env)) 0 in
  when (0 <? String.length sdk_version)%nat (call (SetFileExportVersion sdk_version)) ;;
  file <- gets myOutputFile ;;
  call (FbxExporter_Initialize file out_file_format) ;;
  if negb (Exporter_Initialize (sdk env) file out_file_format) then ret None
  else
    call (SetBoolProp_EXP_FBX_EMBEDDED (getEmbedMedia opts)) ;;
    call FbxExporter_Export ;;
    sc <- gets myScene ;;
    let bSuccess := Exporter_Export (sdk env) sc in
    when (negb bSuccess)
         (addError "FbxExporter::Initialize() failed. " "Error returned: "
                   (Exporter_GetErrorString (sdk env)) true) ;;
    call FbxExporter_Destroy ;;
    ret (Some bSuccess).

Definition is_some {A : Type} (o : option A) : bool :=
  match o with
  | Some _ => true
  | None => false
  end.

(** From [if (myScene)] to the end of [finishExport]. *)
Definition release_all : M unit :=
  sc <- gets myScene ;;
  when (is_some sc) (call FbxScene_Destroy) ;;
  modify (set_myScene None) ;;
  mgr <- gets mySDKManager ;;
  when (is_some mgr) (call FbxManager_Destroy) ;;
  modify (set_mySDKManager None) ;;
  deallocateQueuedStrings ;;
  nm <- gets myNodeManager ;;
  when (is_some nm) (call delete_NodeManager) ;;
  modify (set_myNodeManager None) ;;
  am <- gets myActionManager ;;
  when (is_some am) (call delete_ActionManager) ;;
  modify (set_myActionManager None).

Definition finishExport (env : Env) : M bool :=
  cancelled <- gets myDidCancel ;;
  written <- (if negb cancelled then write_scene env else ret (Some false)) ;;
  match written with
  | None => ret false
  | Some bSuccess => release_all ;; ret bSuccess
  end.

(** *** getVersions *)

(** [str_temp.substr(0, binary_pos - 1)]: the description up to the
    character before "binary".  [binary_pos] is an [int]: when "binary"
    is not found, or is found at the start, [binary_pos - 1] is negative
    and, as a [size_t] count, takes the whole description. *)
Definition format_name (format_desc : string) : string :=
  match index 0 "binary" format_desc with
  | Some (S p) => substring 0 p format_desc
  | _ => format_desc
  end.

(** The loop over the writable versions of one format. *)
Fixpoint push_versions (format_desc : string) (curr_format_versions : list string)
    (versions_out : list string) : list string :=
  match curr_format_versions with
  | [] => versions_out
  | version :: rest =>
      let str_temp := (format_name format_desc ++ " | " ++ version)%string in
      push_versions format_desc rest (versions_out ++ [str_temp])
  end.

(** The loop over the writer formats of the registry.
    [GetWritableVersions] answers NULL or the versions of a format.
    (The local [out_file_format] of the source is set and never read.) *)
Fixpoint collect_versions (GetWritableVersions : Z -> option (list string))
    (formats : list (bool * string)) (format_index : Z)
    (versions_out : list string) : list string :=
  match formats with
  | [] => versions_out
  | (is_fbx, format_desc) :: rest =>
      let next := collect_versions GetWritableVersions rest (format_index + 1)%Z in
      if negb is_fbx then next versions_out
      else if is_some (index 0 "encrypted" format_desc) then next versions_out
      else if is_some (index 0 "ascii" format_desc) then next versions_out
      else
        match GetWritableVersions format_index with
        | Some curr_format_versions =>
            next (push_versions format_desc curr_format_versions versions_out)
        | None => next versions_out
        end
  end.

(** [getVersions], a static member: it works on a manager of its own,
    and of the exporter's world only the call log is touched.  The
    result is [versions_out] as the call leaves it. *)
Definition getVersions (env : Env) (GetWritableVersions : Z -> option (list string))
    (versions_out : list string) : M (list string) :=
  let versions_out : list string := [] in
  call FBXwrapAllocators ;;
  match FbxManager_Create (sdk env) with
  | None => ret versions_out
  | Some _ =>
      let versions_out :=
        collect_versions GetWritableVersions (WriterFormats (sdk env)) 0 versions_out in
      call FbxManager_Destroy ;;
      ret versions_out
  end.

(** ** Reading the call log *)

Definition is_writer_call (c : Call) : bool :=
  match c with
  | FbxExporter_Create | SetFileExportVersion _ | FbxExporter_Initialize _ _
  | SetBoolProp_EXP_FBX_EMBEDDED _ | FbxExporter_Export | FbxExporter_Destroy => true
  | _ => false
  end.

Definition is_visit_call (c : Call) : bool :=
  match c with
  | Geom_visitScene _ | CreateInstances_performAction | Anim_reset _
  | Anim_exportTRSAnimation _ _ _ | Anim_visitScene _ | performPostActions => true
  | _ => false
  end.

Definition is_anim_call (c : Call) : bool :=
  match c with
  | Anim_reset _ | Anim_exportTRSAnimation _ _ _ | Anim_visitScene _ => true
  | _ => false
  end.

Definition is_conversion_call (c : Call) : bool :=
  match c with
  | Axis_ConvertScene _ | Unit_ConvertScene _ => true
  | _ => false
  end.

Definition is_axis_conversion (c : Call) : bool :=
  match c with
  | Axis_ConvertScene _ => true
  | _ => false
  end.

Definition is_unit_conversion (c : Call) : bool :=
  match c with
  | Unit_ConvertScene _ => true
  | _ => false
  end.

Definition is_scene_destroy (c : Call) : bool :=
  match c with
  | FbxScene_Destroy => true
  | _ => false
  end.

Definition is_manager_destroy (c : Call) : bool :=
  match c with
  | FbxManager_Destroy => true
  | _ => false
  end.

Definition count_calls (p : Call -> bool) (l : list Call) : nat :=
  List.length (filter p l).

(** The calls made between two states of the exporter: what the later
    log has after the earlier one. *)
Definition calls_since (before after : Exporter) : list Call :=
  skipn (List.length (calls before)) (calls after).

(** ** Containment in the operator tree *)

(** [t] is above [n] in the tree, at any depth: a proper tail of its
    path. *)
Fixpoint is_inside (n t : OP_Node) : bool :=
  match n with
  | [] => false
  | _ :: p => OP_Node_eqb p t || is_inside p t
  end.

Definition is_inside_or_self (n t : OP_Node) : bool :=
  OP_Node_eqb n t || is_inside n t.

(** ** The three-call sequence *)

(** Modelled from the spec: the caller of the exporter (the ROP node,
    not in this file) runs "exactly this three-call sequence":
    [initialize], then, when it returned true, [run] and [finish]. *)
Definition export_session (env : Env) (output_name : option string)
    (tstart tend : fpreal) (options : option ROP_FBXExportOptions) : M bool :=
  ok <- initializeExport env output_name tstart tend options ;;
  if ok then doExport env ;; finishExport env else ret false.

(** ** A sample scene

    [/obj/subnet1] holds [geoA] and [subnet2], which holds [geoB]; one
    bundle, "chars", lists [geoA] and [geoB]. *)
Module Sample.

Definition root : OP_Node := [].
Definition obj : OP_Node := ["obj"].
Definition subnet1 : OP_Node := ["subnet1"; "obj"].
Definition geoA : OP_Node := ["geoA"; "subnet1"; "obj"].
Definition subnet2 : OP_Node := ["subnet2"; "subnet1"; "obj"].
Definition geoB : OP_Node := ["geoB"; "subnet2"; "subnet1"; "obj"].

Definition shop : OP_Node := ["shop"].
Definition mat1 : OP_Node := ["mat1"; "shop"].

Definition nodes : list OP_Node :=
  [root; obj; subnet1; geoA; subnet2; geoB; shop; mat1].

Definition path_of (n : OP_Node) : string :=
  match n with
  | [] => "/"
  | _ => fold_left (fun acc name => (acc ++ "/" ++ name)%string) (rev n) ""
  end.

Definition find_in (ns : list OP_Node) (path : string) : option OP_Node :=
  find (fun n => String.eqb (path_of n) path) ns.

(** Containment at any depth, the node itself excluded. *)
Definition contained_by (n : OP_Node) (t : option OP_Node) : bool :=
  match t with
  | Some t => is_inside n t
  | None => false
  end.

(** Equality within a tolerance. *)
Definition isEqual (a b : fpreal) : bool :=
  PrimFloat.leb (PrimFloat.abs (a - b)) 0.00001%float.

Definition strip_chars (s chars : string) : string :=
  string_of_list_ascii
    (filter (fun c => negb (existsb (Ascii.eqb c) (list_ascii_of_string chars)))
            (list_ascii_of_string s)).

(** Every occurrence of [find] in [s] replaced, for a [find] of one
    character. *)
Definition substitute_char (s find replacement : string) : string :=
  match find with
  | String f EmptyString =>
      String.concat ""
        (map (fun c => if Ascii.eqb c f then replacement else String c EmptyString)
             (list_ascii_of_string s))
  | _ => s
  end.

(** The host, with the bundle "chars" holding the given nodes. *)
Definition houdini_with (chars : list OP_Node) : Houdini :=
  {| wasInterrupted := false;
     findNode := find_in nodes;
     getFullPath := path_of;
     getIsContainedBy := contained_by;
     getBundles := [Some {| bundle_getName := "chars";
                            bundle_nodes := map Some chars |}];
     multiMatch := String.eqb;
     strip := strip_chars;
     substitute := substitute_char;
     takeSet := fun _ name => name;
     getSamplesPerSec := 24%float;
     CHgetFrameFromTime := fun t => if PrimFloat.eqb t 0 then 1%Z else 49%Z;
     getOrientationMode := Y_UP;
     getUnitLength := 0.01%float;
     expandString := fun _ => "";
     SYS_Version_full := "20.0.0";
     SYSisEqual := isEqual |}.

Definition houdini : Houdini := houdini_with [geoA; geoB].

Definition fbxsdk : FbxSdk :=
  {| FbxManager_Create := Some TheManager;
     fresh_TimeMode := eDefaultMode;
     fresh_CustomFrameRate := (-1)%float;
     fresh_AxisSystem := MayaYUp;
     fresh_SystemUnit := cm;
     currentDateTimeGMT := "2022-01-01 00:00:00";
     WriterFormats := [(true, "FBX binary (*.fbx)"); (true, "FBX ascii (*.fbx)");
                       (false, "AutoCAD DXF (*.dxf)")];
     Exporter_Initialize := fun _ _ => true;
     Exporter_Export := fun _ => true;
     Exporter_GetErrorString := "" |}.

Definition options : ROP_FBXExportOptions :=
  {| isExportingBundles := false;
     getBundlesString := "";
     getStartNodePath := "/obj";
     getExportTakeName := "";
     getExportDeformsAsVC := false;
     getExportClips := [];
     getConvertAxisSystem := false;
     getAxisSystem := ROP_FBXAxisSystem_Current;
     getConvertUnits := false;
     getconvertUnitTo := UNIT_CM;
     getVersion := "FBX | FBX201800";
     getExportInAscii := false;
     getEmbedMedia := false |}.

Definition roplib : RopLib :=
  {| ROP_FBXExportOptions_reset := options;
     makeNameUnique := fun name => name;
     geom_visitScene := fun n =>
       {| geom_root_requests := [(Some n, true)];
          geom_getDidCancel := false;
          geom_getCreateInstancesAction := false;
          geom_getAccumAmbientColor := (0%float, 0%float, 0%float) |};
     anim_root_requests := fun n => [(Some n, true)];
     anim_getDidCancel := fun _ => false |}.

Definition env : Env := {| hou := houdini; sdk := fbxsdk; rop := roplib; win32 := false |}.

Definition env_with (chars : list OP_Node) : Env :=
  {| hou := houdini_with chars; sdk := fbxsdk; rop := roplib; win32 := false |}.

(** The options of a bundle export of "chars". *)
Definition bundle_options : ROP_FBXExportOptions :=
  {| isExportingBundles := true;
     getBundlesString := "@chars";
     getStartNodePath := "";
     getExportTakeName := "";
     getExportDeformsAsVC := false;
     getExportClips := [];
     getConvertAxisSystem := false;
     getAxisSystem := ROP_FBXAxisSystem_Current;
     getConvertUnits := false;
     getconvertUnitTo := UNIT_CM;
     getVersion := "FBX | FBX201800";
     getExportInAscii := false;
     getEmbedMedia := false |}.

(** A new exporter, and the exporter after [initializeExport] for one
    frame and for one second of animation. *)
Definition exporter : Exporter :=
  ROP_FBXExporter_new options 0%float 0%float "" "Main".

Definition session (e : Env) (tstart tend : fpreal) (o : ROP_FBXExportOptions) : Exporter :=
  match initializeExport e (Some "out.fbx") tstart tend (Some o) exporter with
  | Some (_, s) => s
  | None => exporter
  end.

End Sample.

(** * Vocabulary of the properties *)

(** The exporter between a successful [initializeExport] and
    [finishExport]: manager, scene, node manager and action manager are
    there. *)
Definition alive (e : Exporter) : Prop :=
  is_some (mySDKManager e) = true /\ is_some (myScene e) = true
  /\ is_some (myNodeManager e) = true /\ is_some (myActionManager e) = true.

Definition alive_obs (e : Exporter) : bool * bool * bool * bool :=
  (is_some (mySDKManager e), is_some (myScene e),
   is_some (myNodeManager e), is_some (myActionManager e)).

(** Observations of the scene the exporter holds. *)
Definition scene_obs {X : Type} (f : FbxScene -> X) (e : Exporter) : option X :=
  option_map f (myScene e).

(** ** Bundles *)

(** The nodes of the bundles whose name matches, in the order the two
    loops meet them. *)
Fixpoint present_nodes (nodes : list (option OP_Node)) : list OP_Node :=
  match nodes with
  | [] => []
  | Some n :: rest => n :: present_nodes rest
  | None :: rest => present_nodes rest
  end.

Fixpoint matched_nodes (h : Houdini) (bundle_names : string)
    (bundles : list (option OP_Bundle)) : list OP_Node :=
  match bundles with
  | [] => []
  | None :: rest => matched_nodes h bundle_names rest
  | Some bundle :: rest =>
      if negb (multiMatch h (bundle_getName bundle) bundle_names)
      then matched_nodes h bundle_names rest
      else present_nodes (bundle_nodes bundle) ++ matched_nodes h bundle_names rest
  end.

(** [top_network] after the loop body has run on each node in turn. *)
Fixpoint top_network_after (h : Houdini) (obj_net : option OP_Node)
    (nodes : list OP_Node) (top_network : option OP_Node) : option (option OP_Node) :=
  match nodes with
  | [] => Some top_network
  | bundle_node :: rest =>
      match update_top_network h obj_net top_network bundle_node with
      | Some top' => top_network_after h obj_net rest top'
      | None => None
      end
  end.

(** The top exported network of a bundle export, as a function of the
    host and the options alone. *)
Definition bundle_top_network (env : Env) (opts : ROP_FBXExportOptions) : option OP_Node :=
  let bundle_names := strip (hou env) (getBundlesString opts) "@" in
  let obj_net := findNode (hou env) "/obj" in
  match top_network_after (hou env) obj_net
          (matched_nodes (hou env) bundle_names (getBundles (hou env))) None with
  | Some (Some t) => Some t
  | Some None => obj_net
  | None => None
  end.

Definition add_bundled_nodes (nodes : list OP_Node) (nm : ROP_FBXNodeManager)
    : ROP_FBXNodeManager :=
  fold_left (fun nm n => addBundledNode n nm) nodes nm.

(** What is assumed of [OP_Node::getIsContainedBy], whose code is the
    host's: a node it reports as contained by a network is below that
    network in the tree, or is that network; and it reports every node
    below a network as contained by it. *)
Definition containment_sound (h : Houdini) : Prop :=
  forall n t, getIsContainedBy h n (Some t) = true -> is_inside_or_self n t = true.

Definition containment_complete (h : Houdini) : Prop :=
  forall n t, is_inside n t = true -> getIsContainedBy h n (Some t) = true.

(** A node inside the object network: it has a parent network, which
    the host reports as contained by [/obj]. *)
Definition inside_object_network (h : Houdini) (obj : OP_Node) (n : OP_Node) : Prop :=
  exists p, getParent n = Some p /\ getIsContainedBy h p (Some obj) = true.

(** The start network as the specification words it.  Walking parent
    links upward from [top] until a network contains all the nodes
    seen so far: *)
Definition contains_all (h : Houdini) (t : OP_Node) (seen : list OP_Node) : bool :=
  forallb (fun n => getIsContainedBy h n (Some t)) seen.

Fixpoint spec_walk_up (h : Houdini) (seen : list OP_Node) (top : OP_Node) : option OP_Node :=
  if contains_all h top seen then Some top
  else match top with
       | [] => None
       | _ :: parent => spec_walk_up h seen parent
       end.

(** for each matched node in turn, from the parent of the first node
    and then from the network reached so far: *)
Fixpoint spec_common_network (h : Houdini) (seen : list OP_Node) (cur : option OP_Node)
    (nodes : list OP_Node) : option OP_Node :=
  match nodes with
  | [] => cur
  | n :: rest =>
      let start := match seen with
                   | [] => getParent n
                   | _ => cur
                   end in
      spec_common_network h (seen ++ [n])
        match start with
        | Some t => spec_walk_up h (seen ++ [n]) t
        | None => None
        end rest
  end.

(** and the global object root when no node matched, or when there is
    no common network narrower than it. *)
Definition spec_start_network (h : Houdini) (obj : OP_Node) (nodes : list OP_Node) : OP_Node :=
  match spec_common_network h [] None nodes with
  | Some t => if getIsContainedBy h t (Some obj) then t else obj
  | None => obj
  end.

(** C6 as the specification states it: the top network of a bundle
    export is the start network in the words of the specification. *)
Definition bundle_network_claim (env : Env) (opts : ROP_FBXExportOptions) : Prop :=
  forall obj,
    findNode (hou env) "/obj" = Some obj ->
    bundle_top_network env opts
    = Some (spec_start_network (hou env) obj
              (matched_nodes (hou env) (strip (hou env) (getBundlesString opts) "@")
                 (getBundles (hou env)))).

(** The bundle block of [doExport] does not crash: bundles are not
    exported, or a top network is found. *)
Definition bundles_resolve (env : Env) (e : Exporter) : Prop :=
  isExportingBundles (myExportOptions e) = true ->
  bundle_top_network env (myExportOptions e) <> None.

(** The start node path [doExport] looks up: the one of the options,
    or the full path of the top network of the bundles. *)
Definition resolved_start_path (env : Env) (opts : ROP_FBXExportOptions) : option string :=
  if isExportingBundles opts
  then option_map (getFullPath (hou env)) (bundle_top_network env opts)
  else Some (getStartNodePath opts).

(** ** Frame rates *)

(** The table of frame rates in the order the specification lists them,
    each with the time mode [doExport] maps it to. *)
Definition frame_rate_table : list (fpreal * EMode) :=
  [ (24%float, eFrames24); (23.976%float, eFilmFullFrame); (25%float, ePAL);
    (29.97%float, eNTSCFullFrame); (30%float, eFrames30); (48%float, eFrames48);
    (50%float, eFrames50); (59.94%float, eFrames59dot94); (60%float, eFrames60);
    (72%float, eFrames72); (96%float, eFrames96); (100%float, eFrames100);
    (120%float, eFrames120); (1000%float, eFrames1000) ].

Definition matching_rates (h : Houdini) (fps : fpreal) : list (fpreal * EMode) :=
  filter (fun r => SYSisEqual h fps (fst r)) frame_rate_table.

(** First match in the table, else the custom mode. *)
Definition table_time_mode (h : Houdini) (fps : fpreal) : EMode :=
  match find (fun r => SYSisEqual h fps (fst r)) frame_rate_table with
  | Some r => snd r
  | None => eCustom
  end.

Definition time_obs (sc : FbxScene) : EMode * fpreal :=
  (TimeMode (GlobalSettings sc), CustomFrameRate (GlobalSettings sc)).

Definition times_obs (e : Exporter) : fpreal * fpreal := (myStartTime e, myEndTime e).

(** The same rates in the order [doExport] tests them. *)
Definition tested_frame_rates : list (fpreal * EMode) :=
  [ (24%float, eFrames24); (120%float, eFrames120); (100%float, eFrames100);
    (60%float, eFrames60); (50%float, eFrames50); (48%float, eFrames48);
    (30%float, eFrames30); (29.97%float, eNTSCFullFrame); (25%float, ePAL);
    (1000%float, eFrames1000); (23.976%float, eFilmFullFrame); (96%float, eFrames96);
    (72%float, eFrames72); (59.94%float, eFrames59dot94) ].

(** The mode of the first of these rates that the host finds equal to
    the rate, else the custom mode. *)
Definition tested_time_mode (h : Houdini) (fps : fpreal) : EMode :=
  match find (fun r => SYSisEqual h fps (fst r)) tested_frame_rates with
  | Some r => snd r
  | None => eCustom
  end.

(** The host's comparison holds of a rate and an entry of the table
    only when they are the same number. *)
Definition exact_on_table (h : Houdini) (fps : fpreal) : Prop :=
  forall r, In r frame_rate_table -> SYSisEqual h fps (fst r) = true -> fps = fst r.

(** C3 as the specification states it: the rate is looked up in the
    table by exact equality, the equality of two floats. *)
Definition exact_time_mode (fps : fpreal) : EMode :=
  match find (fun r => PrimFloat.eqb fps (fst r)) frame_rate_table with
  | Some r => snd r
  | None => eCustom
  end.

Definition time_mode_claim (env : Env) (e : Exporter) : Prop :=
  forall e',
    doExport env e = Some (tt, e') ->
    scene_obs time_obs e'
    = Some (exact_time_mode (getSamplesPerSec (hou env)), getSamplesPerSec (hou env)).

(** The sample host at another rate. *)
Definition houdini_at (fps : fpreal) : Houdini :=
  {| wasInterrupted := false;
     findNode := findNode Sample.houdini;
     getFullPath := getFullPath Sample.houdini;
     getIsContainedBy := getIsContainedBy Sample.houdini;
     getBundles := getBundles Sample.houdini;
     multiMatch := multiMatch Sample.houdini;
     strip := strip Sample.houdini;
     substitute := substitute Sample.houdini;
     takeSet := takeSet Sample.houdini;
     getSamplesPerSec := fps;
     CHgetFrameFromTime := CHgetFrameFromTime Sample.houdini;
     getOrientationMode := getOrientationMode Sample.houdini;
     getUnitLength := getUnitLength Sample.houdini;
     expandString := expandString Sample.houdini;
     SYS_Version_full := SYS_Version_full Sample.houdini;
     SYSisEqual := SYSisEqual Sample.houdini |}.

Definition env_at (fps : fpreal) : Env :=
  {| hou := houdini_at fps; sdk := Sample.fbxsdk; rop := Sample.roplib; win32 := false |}.

(** The sample host at a rate, with a comparison that holds within
    0.05. *)
Definition coarse_houdini (fps : fpreal) : Houdini :=
  {| wasInterrupted := false;
     findNode := findNode Sample.houdini;
     getFullPath := getFullPath Sample.houdini;
     getIsContainedBy := getIsContainedBy Sample.houdini;
     getBundles := getBundles Sample.houdini;
     multiMatch := multiMatch Sample.houdini;
     strip := strip Sample.houdini;
     substitute := substitute Sample.houdini;
     takeSet := takeSet Sample.houdini;
     getSamplesPerSec := fps;
     CHgetFrameFromTime := CHgetFrameFromTime Sample.houdini;
     getOrientationMode := getOrientationMode Sample.houdini;
     getUnitLength := getUnitLength Sample.houdini;
     expandString := expandString Sample.houdini;
     SYS_Version_full := SYS_Version_full Sample.houdini;
     SYSisEqual := fun a b => PrimFloat.leb (PrimFloat.abs (a - b)) 0.05%float |}.

Definition coarse_env (fps : fpreal) : Env :=
  {| hou := coarse_houdini fps; sdk := Sample.fbxsdk; rop := Sample.roplib;
     win32 := false |}.

(** ** The world_root node *)

(** The export node, when a [getFBXRootNode] call gets past every test
    that answers with the scene root: the call requires a subnet root. *)
Definition subnet_root_export_node (env : Env) (e : Exporter)
    (asking_node : option OP_Node) (create_subnet_root : bool) : option OP_Node :=
  let export_path := getStartNodePath (myExportOptions e) in
  if String.eqb export_path "/" then None else
  match findNode (hou env) export_path with
  | None => None
  | Some export_node =>
      if ptr_eqb asking_node (Some export_node) then None else
      match getParentNetwork export_node with
      | None => None
      | Some parent_net =>
          if String.eqb (getFullPath (hou env) parent_net) "/" then None
          else if create_subnet_root then Some export_node else None
      end
  end.

Definition world_root (env : Env) (export_node : OP_Node) (tstart : fpreal) : FbxNode :=
  let node_name := makeNameUnique (rop env) "world_root" in
  {| node_name := node_name;
     node_attribute := Some (node_name, eNone);
     node_transforms := Some (export_node, tstart) |}.

(** ** Observations of the animation data and of the conversions *)

Definition anim_obs (sc : FbxScene) : list string * list FbxAnimStack :=
  (AnimLayers sc, AnimStacks sc).

Definition original_axis_obs (sc : FbxScene) : option FbxAxisSystem :=
  OriginalUpAxis (GlobalSettings sc).

Definition unit_obs (sc : FbxScene) : FbxSystemUnit * option FbxSystemUnit :=
  (SystemUnit (GlobalSettings sc), OriginalSystemUnit (GlobalSettings sc)).

(** What the visitors and the conversions may change in the scene is
    behind the call log; this is the rest of its content. *)
Definition content_obs (sc : FbxScene)
    : option (fpreal * fpreal * fpreal) * list string * list FbxAnimStack * list FbxNode :=
  (AmbientColor sc, AnimLayers sc, AnimStacks sc, RootChildren sc).

(** The axis system [doExport] takes as the scene's, from the
    orientation mode of the host. *)
Definition baseline_axis (env : Env) : FbxAxisSystem :=
  host_axis_system (hou env) (fresh_AxisSystem (sdk env)).

(** The target axis system the options ask for is the scene's. *)
Definition axis_already_matches (env : Env) (a : ROP_FBXAxisSystemType) : Prop :=
  FbxAxisSystem_eqb (target_axis_of a (baseline_axis env)) (baseline_axis env) = true.

Definition single_frame (env : Env) (t : fpreal * fpreal) : Prop :=
  SYSisEqual (hou env) (fst t) (snd t) = true.

Definition axis_request_obs (e : Exporter) : ROP_FBXAxisSystemType :=
  getAxisSystem (myExportOptions e).

(** The calls that export something: the visitors and their actions,
    the conversions of the scene, and the writer. *)
Definition is_export_call (c : Call) : bool :=
  is_writer_call c || is_visit_call c || is_conversion_call c.

Definition start_path_obs (e : Exporter) : string :=
  getStartNodePath (myExportOptions e).

(** The error [doExport] records when the start node is not found. *)
Definition start_node_error (path : string) : ROP_FBXError :=
  {| err_message := "Could not find the start node specified [ " ++ path ++ " ]";
     err_isCritical := true |}.

(** C1 as the specification states it, for one run of the three-call
    sequence: when the resolved start node path does not exist, the run
    leaves exactly one error, a fatal one, in the error sink, and no
    call to the writer in the log. *)
Definition missing_start_node_claim (env : Env) (output_name : string)
    (tstart tend : fpreal) (options : ROP_FBXExportOptions) (e : Exporter) : Prop :=
  forall path b e',
    resolved_start_path env options = Some path ->
    findNode (hou env) path = None ->
    export_session env (Some output_name) tstart tend (Some options) e = Some (b, e') ->
    (exists err, myErrorManager e' = [err] /\ err_isCritical err = true)
    /\ filter is_writer_call (calls e') = filter is_writer_call (calls e).

(** ** Animation stacks *)

(** The take that is current while the scene is exported. *)
Definition export_take (env : Env) (e : Exporter) : string :=
  let name := getExportTakeName (myExportOptions e) in
  if (String.length name =? 0)%nat then currentTake e
  else takeSet (hou env) (currentTake e) name.

(** The stacks of the animation pass: one per clip of the options, or,
    without clips, one named after the take. *)
Definition stacks_for (layer : string) (mode : EMode) (take : string)
    (clips : list ROP_FBXExportClip) : list FbxAnimStack :=
  match clips with
  | [] => [stack_of_take layer take]
  | _ => map (stack_of_clip layer mode) clips
  end.

Definition has_time_spans (st : FbxAnimStack) : Prop :=
  LocalTimeSpan st <> None /\ ReferenceTimeSpan st <> None.

(** What the animation pass reads: the animation data of the scene and
    its time mode, the current take, the clips. *)
Definition anim_inputs (e : Exporter)
    : option (list string * list FbxAnimStack) * option EMode * string
      * list ROP_FBXExportClip :=
  (scene_obs anim_obs e, scene_obs (fun sc => TimeMode (GlobalSettings sc)) e,
   currentTake e, getExportClips (myExportOptions e)).

(** C7 as the specification states it, for a [doExport] on a fresh
    scene that reaches the animation pass: one layer, the stacks of the
    clips or the one of the take, and on every stack a local and a
    reference time span. *)
Definition animation_stacks_claim (env : Env) (e : Exporter) : Prop :=
  forall e' sc',
    doExport env e = Some (tt, e') ->
    myScene e' = Some sc' ->
    List.length (AnimLayers sc') = 1
    /\ AnimStacks sc'
       = stacks_for "Base Layer" (TimeMode (GlobalSettings sc')) (export_take env e)
           (getExportClips (myExportOptions e))
    /\ Forall has_time_spans (AnimStacks sc').

(** The sample options with two clips. *)
Definition clip_options : ROP_FBXExportOptions :=
  {| isExportingBundles := false; getBundlesString := "";
     getStartNodePath := "/obj"; getExportTakeName := "";
     getExportDeformsAsVC := false;
     getExportClips := [ {| clip_name := "walk"; start_frame := 1; end_frame := 24 |};
                         {| clip_name := "run"; start_frame := 25; end_frame := 48 |} ];
     getConvertAxisSystem := false; getAxisSystem := ROP_FBXAxisSystem_Current;
     getConvertUnits := false; getconvertUnitTo := UNIT_CM;
     getVersion := "FBX | FBX201800"; getExportInAscii := false;
     getEmbedMedia := false |}.

(** ** Units *)

Definition unit_calls (e : Exporter) : list Call :=
  filter is_unit_conversion (calls e).

(** The unit of the host: its unit length, in centimeters. *)
Definition hou_units (env : Env) : FbxSystemUnit :=
  FbxSystemUnit_of (getUnitLength (hou env) * 100)%float.

(** The call [setup_unit_system] makes for a unit code. *)
Definition unit_conversion_calls (u : ROP_FBXUnit) : list Call :=
  match unit_of u with
  | Some target => [Unit_ConvertScene target]
  | None => []
  end.

Definition unit_request_obs (e : Exporter) : bool * ROP_FBXUnit :=
  (getConvertUnits (myExportOptions e), getconvertUnitTo (myExportOptions e)).

(** C8 as the specification states it: when the options ask for a unit
    conversion and the unit of the scene (the one it was created with,
    and the one of the host, which [doExport] gives it) already is the
    target unit, the scene is not rescaled. *)
Definition unit_short_circuit_claim (env : Env) (e : Exporter) : Prop :=
  forall e' sc target,
    myScene e = Some sc ->
    doExport env e = Some (tt, e') ->
    getConvertUnits (myExportOptions e) = true ->
    unit_of (getconvertUnitTo (myExportOptions e)) = Some target ->
    FbxSystemUnit_eqb (SystemUnit (GlobalSettings sc)) target = true ->
    FbxSystemUnit_eqb (hou_units env) target = true ->
    unit_calls e' = unit_calls e.

(** The sample options asking for centimeters. *)
Definition cm_options : ROP_FBXExportOptions :=
  {| isExportingBundles := false; getBundlesString := "";
     getStartNodePath := "/obj"; getExportTakeName := "";
     getExportDeformsAsVC := false; getExportClips := [];
     getConvertAxisSystem := false; getAxisSystem := ROP_FBXAxisSystem_Current;
     getConvertUnits := true; getconvertUnitTo := UNIT_CM;
     getVersion := "FBX | FBX201800"; getExportInAscii := false;
     getEmbedMedia := false |}.

(** * Frames

    A frame says what a computation leaves as it was: a reflexive and
    transitive relation between the exporter before and after, with a
    condition on the exporter before that the relation carries along. *)
Record Frame := {
  pre : Exporter -> Prop;
  rel : Exporter -> Exporter -> Prop;
  rel_refl : forall e, rel e e;
  rel_trans : forall e1 e2 e3, rel e1 e2 -> rel e2 e3 -> rel e1 e3;
  pre_stable : forall e e', rel e e' -> pre e -> pre e'
}.

(** [given f Q]: the observation [f] has the same value after as
    before, and that value satisfies [Q]. *)
Definition given {X : Type} (f : Exporter -> X) (Q : X -> Prop) : Frame.
Proof.
  refine {| pre := fun e => Q (f e); rel := fun e e' => f e' = f e |}.
  - reflexivity.
  - intros e1 e2 e3 H12 H23. rewrite H23. exact H12.
  - intros e e' H HQ. rewrite H. exact HQ.
Defined.

Definition keeps {X : Type} (f : Exporter -> X) : Frame := given f (fun _ => True).

(** [avoids p]: the log has grown, by calls none of which satisfies [p]. *)
Definition avoids (p : Call -> bool) : Frame.
Proof.
  refine {| pre := fun _ => True;
            rel := fun e e' =>
              exists l, calls e' = calls e ++ l /\ forallb (fun c => negb (p c)) l = true |}.
  - intros e. exists []. split; [symmetry; apply app_nil_r | reflexivity].
  - intros e1 e2 e3 (l1 & E1 & F1) (l2 & E2 & F2). exists (l1 ++ l2). split.
    + rewrite E2, E1. symmetry. apply app_assoc.
    + rewrite forallb_app, F1, F2. reflexivity.
  - intros; exact I.
Defined.

(** [log_grows]: the log has grown. *)
Definition log_grows : Frame.
Proof.
  refine {| pre := fun _ => True;
            rel := fun e e' => exists l, calls e' = calls e ++ l |}.
  - intros e. exists []. symmetry. apply app_nil_r.
  - intros e1 e2 e3 (l1 & E1) (l2 & E2). exists (l1 ++ l2).
    rewrite E2, E1. symmetry. apply app_assoc.
  - intros; exact I.
Defined.

(** The conjunction of two frames. *)
Definition both (F G : Frame) : Frame.
Proof.
  refine {| pre := fun e => pre F e /\ pre G e;
            rel := fun e e' => rel F e e' /\ rel G e e' |}.
  - intros e. split; apply rel_refl.
  - intros e1 e2 e3 [H1 H2] [H3 H4]. split; eapply rel_trans; eassumption.
  - intros e e' [H1 H2] [H3 H4]. split; eapply pre_stable; eassumption.
Defined.

(** What [doExport] leaves alone when it exports nothing. *)
Definition nothing_exported : Frame :=
  both (avoids is_export_call)
       (both (keeps (scene_obs content_obs)) (keeps myDidCancel)).

(** What [finishExport] has released when it returns: the scene and
    the manager are destroyed, each by one call, and every queued
    string is deleted and the queue empty. *)
Definition released (before after : Exporter) : Prop :=
  myScene after = None
  /\ mySDKManager after = None
  /\ myStringsToDeallocate after = []
  /\ count_calls is_scene_destroy (calls_since before after) = 1
  /\ count_calls is_manager_destroy (calls_since before after) = 1
  /\ incl (map delete_string (myStringsToDeallocate before)) (calls_since before after).

(** The sample SDK with a writer that cannot be initialized, and the
    sample session after [doExport] with one string queued. *)
Definition failing_sdk : FbxSdk :=
  {| FbxManager_Create := Some TheManager;
     fresh_TimeMode := eDefaultMode;
     fresh_CustomFrameRate := (-1)%float;
     fresh_AxisSystem := MayaYUp;
     fresh_SystemUnit := cm;
     currentDateTimeGMT := "2022-01-01 00:00:00";
     WriterFormats := WriterFormats Sample.fbxsdk;
     Exporter_Initialize := fun _ _ => false;
     Exporter_Export := fun _ => true;
     Exporter_GetErrorString := "" |}.

Definition failing_env : Env :=
  {| hou := Sample.houdini; sdk := failing_sdk; rop := Sample.roplib; win32 := false |}.

Definition exported (env : Env) : Exporter :=
  match (doExport env ;; queueStringToDeallocate 7)
          (Sample.session env 0%float 0%float Sample.options) with
  | Some (_, e) => e
  | None => Sample.exporter
  end.

Definition respects {A : Type} (F : Frame) (c : M A) : Prop :=
  forall e a e', pre F e -> c e = Some (a, e') -> rel F e e'.

(** [total c]: on a live exporter [c] returns, and leaves it live. *)
Definition total {A : Type} (c : M A) : Prop :=
  forall e, alive e -> exists a e', c e = Some (a, e') /\ alive e'.

(** * Vocabulary of the further properties *)

(** A caller that queues several strings, one call each. *)
Fixpoint queue_strings (ps : list nat) : M unit :=
  match ps with
  | [] => ret tt
  | string_ptr :: rest => queueStringToDeallocate string_ptr ;; queue_strings rest
  end.

(** ** What finishExport asks of the writer *)

(** The name of the writer format [finishExport] looks for, and the
    index it finds for it in the plugin registry. *)
Definition writer_name (opts : ROP_FBXExportOptions) : option string :=
  match parse_version (getVersion opts) with
  | Some parts =>
      Some ((if (String.length (fst parts) <=? 0)%nat then "FBX" else fst parts)
            ++ (if getExportInAscii opts then " ascii" else " binary"))%string
  | None => None
  end.

Definition writer_format (env : Env) (opts : ROP_FBXExportOptions) : option Z :=
  option_map (fun name => find_writer_format name (WriterFormats (sdk env)) 0)
             (writer_name opts).

(** The version [finishExport] sets on the writer, if any. *)
Definition writer_version_calls (opts : ROP_FBXExportOptions) : list Call :=
  match parse_version (getVersion opts) with
  | Some parts =>
      if (0 <? String.length (snd parts))%nat then [SetFileExportVersion (snd parts)] else []
  | None => []
  end.

(** The error [finishExport] records when the writer's [Export] fails. *)
Definition export_failed_error (env : Env) : ROP_FBXError :=
  {| err_message := "FbxExporter::Initialize() failed. " ++ "Error returned: "
                    ++ Exporter_GetErrorString (sdk env);
     err_isCritical := true |}.

(** The exporter as the end of [finishExport], from [if (myScene)] on,
    leaves it. *)
Definition release_calls (e : Exporter) : list Call :=
  (if is_some (myScene e) then [FbxScene_Destroy] else [])
  ++ (if is_some (mySDKManager e) then [FbxManager_Destroy] else [])
  ++ map delete_string (myStringsToDeallocate e)
  ++ (if is_some (myNodeManager e) then [delete_NodeManager] else [])
  ++ (if is_some (myActionManager e) then [delete_ActionManager] else []).

Definition after_release (e : Exporter) : Exporter :=
  set_myActionManager None
    (set_myNodeManager None
       (set_myStringsToDeallocate []
          (set_mySDKManager None
             (set_myScene None (set_calls (calls e ++ release_calls e) e))))).

(** ** Version strings *)

(** A writer format [getVersions] lists the versions of: an FBX
    writer, neither encrypted nor ascii. *)
Definition listed_format (f : bool * string) : bool :=
  fst f && negb (is_some (index 0 "encrypted" (snd f)))
  && negb (is_some (index 0 "ascii" (snd f))).

(** A writer format [finishExport] accepts for a name: an FBX writer
    whose description starts with the name. *)
Definition writer_matches (sdk_exporter_name : string) (f : bool * string) : bool :=
  fst f && prefix sdk_exporter_name (snd f).

(** The sample registry: the versions of the binary FBX writer. *)
Definition sample_versions (format_index : Z) : option (list string) :=
  if (format_index =? 0)%Z then Some ["FBX202000"; "FBX201800"] else None.

(** One entry of the list, and what one format adds to it. *)
Definition version_entry (format_desc version : string) : string :=
  (format_name format_desc ++ " | " ++ version)%string.

Definition format_entries (GetWritableVersions : Z -> option (list string))
    (format_index : Z) (f : bool * string) : list string :=
  if listed_format f
  then match GetWritableVersions format_index with
       | Some versions => map (version_entry (snd f)) versions
       | None => []
       end
  else [].

(** ** Further observations of an export *)

Definition is_take_call (c : Call) : bool :=
  match c with
  | Call_takeSet _ => true
  | _ => false
  end.

Definition take_calls (e : Exporter) : list Call := filter is_take_call (calls e).

Definition is_time_mode_call (c : Call) : bool :=
  match c with
  | Call_SetGlobalTimeMode _ _ => true
  | _ => false
  end.

(** The time settings of the scene. *)
Definition time_settings_obs (sc : FbxScene) : EMode * fpreal * option FbxTimeSpan :=
  (TimeMode (GlobalSettings sc), CustomFrameRate (GlobalSettings sc),
   TimelineDefaultTimeSpan (GlobalSettings sc)).

(** The calls of the geometry pass and of the post-actions. *)
Definition is_action_call (c : Call) : bool :=
  match c with
  | Geom_visitScene _ | CreateInstances_performAction | performPostActions => true
  | _ => false
  end.

Definition action_calls (e : Exporter) : list Call := filter is_action_call (calls e).

(** The sample host with an export interrupted before it starts. *)
Definition interrupted_houdini : Houdini :=
  {| wasInterrupted := true;
     findNode := findNode Sample.houdini;
     getFullPath := getFullPath Sample.houdini;
     getIsContainedBy := getIsContainedBy Sample.houdini;
     getBundles := getBundles Sample.houdini;
     multiMatch := multiMatch Sample.houdini;
     strip := strip Sample.houdini;
     substitute := substitute Sample.houdini;
     takeSet := takeSet Sample.houdini;
     getSamplesPerSec := getSamplesPerSec Sample.houdini;
     CHgetFrameFromTime := CHgetFrameFromTime Sample.houdini;
     getOrientationMode := getOrientationMode Sample.houdini;
     getUnitLength := getUnitLength Sample.houdini;
     expandString := expandString Sample.houdini;
     SYS_Version_full := SYS_Version_full Sample.houdini;
     SYSisEqual := SYSisEqual Sample.houdini |}.

Definition interrupted_env : Env :=
  {| hou := interrupted_houdini; sdk := Sample.fbxsdk; rop := Sample.roplib; win32 := false |}.

(** The options [doExport] never writes: all but the start node path
    and the deforms-as-vertex-caches flag. *)
Definition options_but_two (o : ROP_FBXExportOptions) :=
  (isExportingBundles o, getBundlesString o, getExportTakeName o, getExportClips o,
   getConvertAxisSystem o, getAxisSystem o, getConvertUnits o, getconvertUnitTo o,
   getVersion o, getExportInAscii o, getEmbedMedia o).

(** What [export_in_take] does once the scene is prepared: the start
    node is looked up, and the scene exported from it. *)
Definition export_from_start (env : Env) (exporting_single_frame : bool) : M unit :=
  opts <- gets myExportOptions ;;
  match findNode (hou env) (getStartNodePath opts) with
  | None =>
      addError "Could not find the start node specified [ " (getStartNodePath opts) " ]" true
  | Some geom_node => export_scene env exporting_single_frame geom_node
  end.

Definition time_mode_calls (e : Exporter) : list Call :=
  filter is_time_mode_call (calls e).

(** The time span of the timeline of an animated export. *)
Definition timeline_span (env : Env) (tstart tend : fpreal) : FbxTimeSpan :=
  let time_mode := time_mode_of (hou env) (getSamplesPerSec (hou env)) in
  {| span_start := SetFrame (CHgetFrameFromTime (hou env) tstart) time_mode;
     span_stop := SetFrame (CHgetFrameFromTime (hou env) tend) time_mode |}.

(** Whether one of the two passes of an export from [n] is cancelled. *)
Definition export_cancelled (env : Env) (exporting_single_frame : bool) (n : OP_Node) : bool :=
  geom_getDidCancel (geom_visitScene (rop env) n)
  || (negb exporting_single_frame && anim_getDidCancel (rop env) n).

Definition ambient_obs (e : Exporter) : option (option (fpreal * fpreal * fpreal)) :=
  scene_obs AmbientColor e.

(** The sample library with a geometry visitor that is cancelled. *)
Definition cancelling_roplib : RopLib :=
  {| ROP_FBXExportOptions_reset := Sample.options;
     makeNameUnique := fun name => name;
     geom_visitScene := fun n =>
       {| geom_root_requests := [(Some n, true)];
          geom_getDidCancel := true;
          geom_getCreateInstancesAction := true;
          geom_getAccumAmbientColor := (0%float, 0%float, 0%float) |};
     anim_root_requests := fun n => [(Some n, true)];
     anim_getDidCancel := fun _ => false |}.

Definition cancelling_env : Env :=
  {| hou := Sample.houdini; sdk := Sample.fbxsdk; rop := cancelling_roplib; win32 := false |}.

(** ** The axis system of the scene *)

Definition axis_obs (sc : FbxScene) : FbxAxisSystem * option FbxAxisSystem :=
  (AxisSystem (GlobalSettings sc), OriginalUpAxis (GlobalSettings sc)).

Definition axis_calls (e : Exporter) : list Call := filter is_axis_conversion (calls e).

Definition axis_options_obs (e : Exporter) : bool * ROP_FBXAxisSystemType :=
  (getConvertAxisSystem (myExportOptions e), getAxisSystem (myExportOptions e)).

(** The axis system the scene is given when it is not converted. *)
Definition axis_label (env : Env) (a : ROP_FBXAxisSystemType) : FbxAxisSystem :=
  match a with
  | ROP_FBXAxisSystem_YUp_RightHanded => MayaYUp
  | ROP_FBXAxisSystem_YUp_LeftHanded => DirectX
  | ROP_FBXAxisSystem_ZUp_RightHanded => Max
  | ROP_FBXAxisSystem_Current => baseline_axis env
  end.

(** The sample options asking for a conversion to Z-up. *)
Definition zup_options : ROP_FBXExportOptions :=
  {| isExportingBundles := false; getBundlesString := "";
     getStartNodePath := "/obj"; getExportTakeName := "";
     getExportDeformsAsVC := false; getExportClips := [];
     getConvertAxisSystem := true; getAxisSystem := ROP_FBXAxisSystem_ZUp_RightHanded;
     getConvertUnits := false; getconvertUnitTo := UNIT_CM;
     getVersion := "FBX | FBX201800"; getExportInAscii := false;
     getEmbedMedia := false |}.

(** The same, as a label only. *)
Definition zup_label_options : ROP_FBXExportOptions :=
  {| isExportingBundles := false; getBundlesString := "";
     getStartNodePath := "/obj"; getExportTakeName := "";
     getExportDeformsAsVC := false; getExportClips := [];
     getConvertAxisSystem := false; getAxisSystem := ROP_FBXAxisSystem_ZUp_RightHanded;
     getConvertUnits := false; getconvertUnitTo := UNIT_CM;
     getVersion := "FBX | FBX201800"; getExportInAscii := false;
     getEmbedMedia := false |}.

(** ** Bundles, scene information *)

(** The sample host without an object network and without bundles. *)
Definition bare_houdini : Houdini :=
  {| wasInterrupted := false;
     findNode := fun _ => None;
     getFullPath := getFullPath Sample.houdini;
     getIsContainedBy := getIsContainedBy Sample.houdini;
     getBundles := [];
     multiMatch := multiMatch Sample.houdini;
     strip := strip Sample.houdini;
     substitute := substitute Sample.houdini;
     takeSet := takeSet Sample.houdini;
     getSamplesPerSec := getSamplesPerSec Sample.houdini;
     CHgetFrameFromTime := CHgetFrameFromTime Sample.houdini;
     getOrientationMode := getOrientationMode Sample.houdini;
     getUnitLength := getUnitLength Sample.houdini;
     expandString := expandString Sample.houdini;
     SYS_Version_full := SYS_Version_full Sample.houdini;
     SYSisEqual := SYSisEqual Sample.houdini |}.

Definition bare_env : Env :=
  {| hou := bare_houdini; sdk := Sample.fbxsdk; rop := Sample.roplib; win32 := false |}.

(** The sample host with a project, compiled for Windows. *)
Definition windows_houdini : Houdini :=
  {| wasInterrupted := false;
     findNode := findNode Sample.houdini;
     getFullPath := getFullPath Sample.houdini;
     getIsContainedBy := getIsContainedBy Sample.houdini;
     getBundles := getBundles Sample.houdini;
     multiMatch := multiMatch Sample.houdini;
     strip := strip Sample.houdini;
     substitute := substitute Sample.houdini;
     takeSet := takeSet Sample.houdini;
     getSamplesPerSec := getSamplesPerSec Sample.houdini;
     CHgetFrameFromTime := CHgetFrameFromTime Sample.houdini;
     getOrientationMode := getOrientationMode Sample.houdini;
     getUnitLength := getUnitLength Sample.houdini;
     expandString := fun name => if String.eqb name "$JOB" then "C:/proj" else "";
     SYS_Version_full := SYS_Version_full Sample.houdini;
     SYSisEqual := SYSisEqual Sample.houdini |}.

Definition windows_env : Env :=
  {| hou := windows_houdini; sdk := Sample.fbxsdk; rop := Sample.roplib; win32 := true |}.

(** A path as [doExport] writes it to the scene information, and the
    entries it adds there, for an output file. *)
Definition native_path (env : Env) (path : string) : string :=
  if win32 env then substitute (hou env) path "/" backslash else path.

Definition scene_info_entries (env : Env) (outfile : string) : list (string * string) :=
  let version := SYS_Version_full (hou env) in
  let job := expandString (hou env) "$JOB" in
  let hipfile := expandString (hou env) "$HIPFILE" in
  let now := currentDateTimeGMT (sdk env) in
  [("Original|ApplicationVendor", "SideFX Software");
   ("Original|ApplicationName", "Houdini");
   ("Original|ApplicationVersion", version);
   ("Original|FileName", native_path env outfile)]
  ++ (if String.eqb job "" then []
      else [("Original|ApplicationActiveProject", native_path env job)])
  ++ (if String.eqb hipfile "" then []
      else [("Original|ApplicationNativeFile", native_path env hipfile)])
  ++ [("LastSaved|ApplicationVendor", "SideFX Software");
      ("LastSaved|ApplicationName", "Houdini");
      ("LastSaved|ApplicationVersion", version);
      ("Original|DateTime_GMT", now);
      ("LastSaved|DateTime_GMT", now)].

(** [errors_grow]: the error sink has only grown. *)
Definition errors_grow : Frame.
Proof.
  refine {| pre := fun _ => True;
            rel := fun e e' => exists l, myErrorManager e' = myErrorManager e ++ l |}.
  - intros e. exists []. symmetry. apply app_nil_r.
  - intros e1 e2 e3 (l1 & E1) (l2 & E2). exists (l1 ++ l2).
    rewrite E2, E1. symmetry. apply app_assoc.
  - intros; exact I.
Defined.

(** ** The animation pass *)

Definition anim_calls (e : Exporter) : list Call := filter is_anim_call (calls e).

(** The sample library with an animation visitor that is cancelled. *)
Definition anim_cancelling_roplib : RopLib :=
  {| ROP_FBXExportOptions_reset := Sample.options;
     makeNameUnique := fun name => name;
     geom_visitScene := geom_visitScene Sample.roplib;
     anim_root_requests := fun n => [(Some n, true)];
     anim_getDidCancel := fun _ => true |}.

Definition anim_cancelling_env : Env :=
  {| hou := Sample.houdini; sdk := Sample.fbxsdk; rop := anim_cancelling_roplib; win32 := false |}.

(** * Reasoning about exporter computations *)

Lemma bind_Some {A B : Type} (c : M A) (k : A -> M B) (e e' : Exporter) (b : B) :
  bind c k e = Some (b, e') <->
  exists a e1, c e = Some (a, e1) /\ k a e1 = Some (b, e').
Proof.
  unfold bind. split.
  - destruct (c e) as [[a e1]|] eqn:E; [|discriminate].
    intros H. exists a, e1. split; [reflexivity | exact H].
  - intros (a & e1 & -> & H). exact H.
Qed.

Section Respects.

Variable F : Frame.

Lemma respects_ret {A : Type} (a : A) : respects F (ret a).
Proof. intros e a' e' _ H. injection H as _ <-. apply rel_refl. Qed.

Lemma respects_crash {A : Type} : respects F (@crash A).
Proof. intros e a e' _ H. discriminate. Qed.

Lemma respects_gets {A : Type} (f : Exporter -> A) : respects F (gets f).
Proof. intros e a e' _ H. injection H as _ <-. apply rel_refl. Qed.

Lemma respects_deref {A : Type} (p : Exporter -> option A) : respects F (deref p).
Proof.
  intros e a e' _. unfold deref. destruct (p e); [|discriminate].
  intros H. injection H as _ <-. apply rel_refl.
Qed.

Lemma respects_lift {A : Type} (o : option A) : respects F (lift o).
Proof.
  intros e a e' _. unfold lift. destruct o; [|discriminate].
  intros H. injection H as _ <-. apply rel_refl.
Qed.

Lemma respects_modify (g : Exporter -> Exporter) :
  (forall e, pre F e -> rel F e (g e)) -> respects F (modify g).
Proof. intros Hg e a e' Hpre H. injection H as _ <-. apply Hg, Hpre. Qed.

Lemma respects_bind {A B : Type} (c : M A) (k : A -> M B) :
  respects F c -> (forall a, respects F (k a)) -> respects F (bind c k).
Proof.
  intros Hc Hk e b e' Hpre H. apply bind_Some in H. destruct H as (a & e1 & H1 & H2).
  assert (H01 : rel F e e1) by (eapply Hc; eassumption).
  eapply rel_trans; [exact H01|]. eapply Hk; [|exact H2].
  eapply pre_stable; eassumption.
Qed.

(** The same, when something is known of the value [c] returns. *)
Lemma respects_bind_val {A B : Type} (V : A -> Prop) (c : M A) (k : A -> M B) :
  respects F c ->
  (forall e a e', pre F e -> c e = Some (a, e') -> V a) ->
  (forall a, V a -> respects F (k a)) ->
  respects F (bind c k).
Proof.
  intros Hc HV Hk e b e' Hpre H. apply bind_Some in H. destruct H as (a & e1 & H1 & H2).
  assert (H01 : rel F e e1) by (eapply Hc; eassumption).
  eapply rel_trans; [exact H01|]. eapply Hk; [eapply HV; eassumption| |exact H2].
  eapply pre_stable; eassumption.
Qed.

(** A value read from the exporter may be used knowing what the
    frame assumes of the exporter it was read from. *)
Lemma respects_gets_bind {A B : Type} (f : Exporter -> A) (k : A -> M B) :
  (forall e0, pre F e0 -> respects F (k (f e0))) -> respects F (bind (gets f) k).
Proof. intros Hk e b e' Hpre H. unfold bind, gets in H. eapply Hk; eassumption. Qed.

Lemma respects_when (b : bool) (c : M unit) : respects F c -> respects F (when b c).
Proof. intros Hc. destruct b; [exact Hc | apply respects_ret]. Qed.

(** Changing the scene in place: the change may be judged knowing
    which scene the exporter holds. *)
Lemma respects_modify_scene (g : FbxScene -> FbxScene) :
  (forall e sc, pre F e -> myScene e = Some sc ->
     rel F e (set_myScene (Some (g sc)) e)) ->
  respects F (modify_scene g).
Proof.
  intros Hg e a e' Hpre H. unfold modify_scene in H. apply bind_Some in H.
  destruct H as (sc & e1 & H1 & H2). unfold deref in H1.
  destruct (myScene e) eqn:E; [|discriminate].
  injection H1 as <- <-. injection H2 as _ <-. apply Hg; [exact Hpre | exact E].
Qed.

Lemma respects_modify_settings (g : FbxGlobalSettings -> FbxGlobalSettings) :
  (forall e sc, pre F e -> myScene e = Some sc ->
     rel F e (set_myScene (Some (set_GlobalSettings (g (GlobalSettings sc)) sc)) e)) ->
  respects F (modify_settings g).
Proof. intros Hg. unfold modify_settings. apply respects_modify_scene. exact Hg. Qed.

(** The loops. *)
Lemma respects_modify_node_manager (g : ROP_FBXNodeManager -> ROP_FBXNodeManager) :
  (forall e nm, pre F e -> myNodeManager e = Some nm ->
     rel F e (set_myNodeManager (Some (g nm)) e)) ->
  respects F (modify_node_manager g).
Proof.
  intros Hg e a e' Hpre H. unfold modify_node_manager in H. apply bind_Some in H.
  destruct H as (nm & e1 & H1 & H2). unfold deref in H1.
  destruct (myNodeManager e) eqn:E; [|discriminate].
  injection H1 as <- <-. injection H2 as _ <-. apply Hg; [exact Hpre | exact E].
Qed.

Lemma respects_process_bundle_nodes (h : Houdini) (obj_net : option OP_Node)
    (nodes : list (option OP_Node)) :
  (forall n, respects F (modify_node_manager (addBundledNode n))) ->
  forall top, respects F (process_bundle_nodes h obj_net nodes top).
Proof.
  intros Hadd. induction nodes as [|[n|] rest IH]; intros top; cbn [process_bundle_nodes].
  - apply respects_ret.
  - apply respects_bind; [apply Hadd | intros _].
    apply respects_bind; [apply respects_lift | intros top']. apply IH.
  - apply IH.
Qed.

Lemma respects_process_bundles (h : Houdini) (obj_net : option OP_Node)
    (bundle_names : string) (bundles : list (option OP_Bundle)) :
  (forall n, respects F (modify_node_manager (addBundledNode n))) ->
  forall top, respects F (process_bundles h obj_net bundle_names bundles top).
Proof.
  intros Hadd. induction bundles as [|[b|] rest IH]; intros top; cbn [process_bundles].
  - apply respects_ret.
  - destruct (negb (multiMatch h (bundle_getName b) bundle_names)); [apply IH|].
    apply respects_bind; [|intros top'; apply IH].
    apply respects_process_bundle_nodes. exact Hadd.
  - apply IH.
Qed.

Lemma respects_run_root_requests (env : Env) (reqs : list (option OP_Node * bool)) :
  (forall a c, respects F (getFBXRootNode env a c)) ->
  respects F (run_root_requests env reqs).
Proof.
  intros Hroot. induction reqs as [|[a c] rest IH]; cbn [run_root_requests].
  - apply respects_ret.
  - apply respects_bind; [apply Hroot | intros _; exact IH].
Qed.

Lemma respects_create_clip_stacks (layer : string) (mode : EMode)
    (clips : list ROP_FBXExportClip) :
  (forall st, respects F (modify_scene (add_AnimStack st))) ->
  respects F (create_clip_stacks layer mode clips).
Proof.
  intros Hadd. induction clips as [|c rest IH]; cbn [create_clip_stacks].
  - apply respects_ret.
  - apply respects_bind; [apply Hadd | intros _; exact IH].
Qed.

End Respects.

Lemma forallb_delete_strings (p : Call -> bool) (strings : list nat) :
  (forall n, p (delete_string n) = false) ->
  forallb (fun c => negb (p c)) (map delete_string strings) = true.
Proof.
  intros Hp. induction strings as [|n rest IH]; cbn; [reflexivity|].
  rewrite Hp, IH. reflexivity.
Qed.

(** Closing a frame condition on one primitive step: the state is taken
    apart, and what is left computes. *)
Ltac frame_solve :=
  intros;
  repeat match goal with
         | e : Exporter |- _ => destruct e
         end;
  cbn in *; subst; cbn;
  repeat match goal with
         | |- _ /\ _ => split
         end;
  first
    [ reflexivity
    | exact I
    | (eexists; split; [reflexivity | reflexivity])
    | (exists []; split; [symmetry; apply app_nil_r | reflexivity])
    | (eexists; split;
       [reflexivity | apply forallb_delete_strings; intros; reflexivity])
    | (eexists; reflexivity)
    | (exists []; symmetry; apply app_nil_r)
    | (unfold unit_calls; cbn; rewrite ?filter_app; cbn; rewrite ?app_nil_r; reflexivity) ].

(** What a frame assumes, taken apart and used to rewrite the goal. *)
Ltac use_pre H :=
  cbn in H;
  repeat match goal with
         | H' : _ /\ _ |- _ => destruct H'
         end;
  repeat match goal with
         | H' : ?x = true |- context [?x] => rewrite H'
         | H' : ?x = false |- context [?x] => rewrite H'
         end.

(** One step through the syntax of a computation. *)
Ltac respects_step :=
  lazymatch goal with
  | H : respects ?F ?c |- respects ?F ?c => exact H
  | |- respects _ (ret _) => apply respects_ret
  | |- respects _ crash => apply respects_crash
  | |- respects _ (gets _) => apply respects_gets
  | |- respects _ (deref _) => apply respects_deref
  | |- respects _ (lift _) => apply respects_lift
  | |- respects _ getStartTime => apply respects_gets
  | |- respects ?F (when ?b ?c) =>
      first [ change (respects F (ret tt)); apply respects_ret
            | change (respects F c)
            | apply respects_when ]
  | |- respects _ (bind (gets _) _) =>
      let e0 := fresh "e0" in
      let Hpre := fresh "Hpre" in
      apply respects_gets_bind; intros e0 Hpre; use_pre Hpre; cbn beta
  | |- respects _ (bind (getExportingAnimation _) _) => unfold getExportingAnimation
  | |- respects _ (bind _ _) => apply respects_bind; [ | intro ]
  | |- respects _ (modify_settings _) => apply respects_modify_settings; frame_solve
  | |- respects _ (modify_scene _) => apply respects_modify_scene; frame_solve
  | |- respects _ (modify_node_manager _) => apply respects_modify_node_manager; frame_solve
  | |- respects _ (modify _) => apply respects_modify; frame_solve
  | |- respects _ (call _) => apply respects_modify; frame_solve
  | |- respects _ (addError _ _ _ _) => apply respects_modify; frame_solve
  | |- respects _ (process_bundles _ _ _ _ _) => apply respects_process_bundles; intros
  | |- respects _ (run_root_requests _ _) => apply respects_run_root_requests; intros
  | |- respects _ (create_clip_stacks _ _ _) => apply respects_create_clip_stacks; intros
  | |- respects _ (if ?b then _ else _) => destruct b
  | |- respects _ (match ?x with _ => _ end) => destruct x
  | |- respects _ (let _ := _ in _) => cbv zeta
  | |- respects _ (?c _ _ _ _) => unfold c
  | |- respects _ (?c _ _ _) => unfold c
  | |- respects _ (?c _ _) => unfold c
  | |- respects _ (?c _) => unfold c
  | |- respects _ ?c => unfold c
  end.

Ltac respects_auto := repeat respects_step.

(** ** What no part of [doExport] does *)

Lemma doExport_avoids_writer (env : Env) : respects (avoids is_writer_call) (doExport env).
Proof. respects_auto. Qed.

Lemma doExport_keeps_alive (env : Env) : respects (keeps alive_obs) (doExport env).
Proof. respects_auto. Qed.

(** ** The bundle block as a function *)

Lemma set_myNodeManager_same (e : Exporter) (nm : ROP_FBXNodeManager) :
  myNodeManager e = Some nm -> set_myNodeManager (Some nm) e = e.
Proof. destruct e; cbn. intros ->. reflexivity. Qed.

Lemma top_network_after_app (h : Houdini) (obj_net : option OP_Node) (l1 l2 : list OP_Node) :
  forall top,
    top_network_after h obj_net (l1 ++ l2) top =
    match top_network_after h obj_net l1 top with
    | Some top' => top_network_after h obj_net l2 top'
    | None => None
    end.
Proof.
  induction l1 as [|n l1 IH]; intros top; cbn; [reflexivity|].
  destruct (update_top_network h obj_net top n); [apply IH | reflexivity].
Qed.

Lemma process_bundle_nodes_eq (h : Houdini) (obj_net : option OP_Node)
    (nodes : list (option OP_Node)) :
  forall top e nm,
    myNodeManager e = Some nm ->
    process_bundle_nodes h obj_net nodes top e =
    match top_network_after h obj_net (present_nodes nodes) top with
    | Some top' =>
        Some (top', set_myNodeManager (Some (add_bundled_nodes (present_nodes nodes) nm)) e)
    | None => None
    end.
Proof.
  induction nodes as [|[n|] rest IH]; intros top e nm Hnm; cbn.
  - unfold ret. rewrite set_myNodeManager_same by exact Hnm. reflexivity.
  - unfold bind at 1. unfold modify_node_manager, bind, deref. rewrite Hnm. cbn.
    destruct (update_top_network h obj_net top n) as [top'|]; cbn; [|reflexivity].
    rewrite (IH top' _ (addBundledNode n nm)) by reflexivity.
    destruct (top_network_after h obj_net (present_nodes rest) top'); reflexivity.
  - apply IH. exact Hnm.
Qed.

Lemma process_bundles_eq (h : Houdini) (obj_net : option OP_Node) (bundle_names : string)
    (bundles : list (option OP_Bundle)) :
  forall top e nm,
    myNodeManager e = Some nm ->
    process_bundles h obj_net bundle_names bundles top e =
    match top_network_after h obj_net (matched_nodes h bundle_names bundles) top with
    | Some top' =>
        Some (top', set_myNodeManager
                      (Some (add_bundled_nodes (matched_nodes h bundle_names bundles) nm)) e)
    | None => None
    end.
Proof.
  induction bundles as [|[b|] rest IH]; intros top e nm Hnm; cbn.
  - unfold ret. rewrite set_myNodeManager_same by exact Hnm. reflexivity.
  - destruct (negb (multiMatch h (bundle_getName b) bundle_names)); [apply IH; exact Hnm|].
    unfold bind. rewrite (process_bundle_nodes_eq _ _ _ _ _ nm) by exact Hnm.
    rewrite top_network_after_app.
    destruct (top_network_after h obj_net (present_nodes (bundle_nodes b)) top) as [top'|];
      [|reflexivity].
    rewrite (IH top' _ (add_bundled_nodes (present_nodes (bundle_nodes b)) nm)) by reflexivity.
    unfold add_bundled_nodes. rewrite fold_left_app.
    destruct (top_network_after h obj_net (matched_nodes h bundle_names rest) top');
      reflexivity.
  - apply IH. exact Hnm.
Qed.

Lemma export_bundles_eq (env : Env) (e : Exporter) (nm : ROP_FBXNodeManager) :
  myNodeManager e = Some nm ->
  export_bundles env e =
  match bundle_top_network env (myExportOptions e) with
  | Some top_network =>
      Some (top_network,
            set_myExportOptions
              (setStartNodePath (getFullPath (hou env) top_network) (myExportOptions e))
              (set_myNodeManager
                 (Some (add_bundled_nodes
                          (matched_nodes (hou env)
                             (strip (hou env) (getBundlesString (myExportOptions e)) "@")
                             (getBundles (hou env))) nm)) e))
  | None => None
  end.
Proof.
  intros Hnm. unfold export_bundles, bundle_top_network.
  unfold bind at 1. unfold gets. cbv zeta. unfold bind at 1.
  rewrite (process_bundles_eq _ _ _ _ _ _ nm) by exact Hnm.
  destruct (top_network_after _ _ _ None) as [[t|]|]; cbn; try reflexivity.
  destruct (findNode (hou env) "/obj"); reflexivity.
Qed.

(** ** Computations that return *)

Lemma total_ret {A : Type} (a : A) : total (ret a).
Proof. intros e He. exists a, e. split; [reflexivity | exact He]. Qed.

Lemma total_gets {A : Type} (f : Exporter -> A) : total (gets f).
Proof. intros e He. exists (f e), e. split; [reflexivity | exact He]. Qed.

Lemma total_modify (g : Exporter -> Exporter) :
  (forall e, alive e -> alive (g e)) -> total (modify g).
Proof. intros Hg e He. exists tt, (g e). split; [reflexivity | apply Hg, He]. Qed.

Lemma total_bind {A B : Type} (c : M A) (k : A -> M B) :
  total c -> (forall a, total (k a)) -> total (bind c k).
Proof.
  intros Hc Hk e He. destruct (Hc e He) as (a & e1 & H1 & He1).
  destruct (Hk a e1 He1) as (b & e2 & H2 & He2).
  exists b, e2. split; [|exact He2]. unfold bind. rewrite H1. exact H2.
Qed.

Lemma total_when (b : bool) (c : M unit) : total c -> total (when b c).
Proof. intros Hc. destruct b; [exact Hc | apply total_ret]. Qed.

Lemma total_deref {A : Type} (p : Exporter -> option A) :
  (forall e, alive e -> is_some (p e) = true) -> total (deref p).
Proof.
  intros Hp e He. specialize (Hp e He). unfold deref.
  destruct (p e) as [a|]; [|discriminate]. exists a, e. split; [reflexivity | exact He].
Qed.

Lemma total_run_root_requests (env : Env) (reqs : list (option OP_Node * bool)) :
  (forall a c, total (getFBXRootNode env a c)) -> total (run_root_requests env reqs).
Proof.
  intros Hroot. induction reqs as [|[a c] rest IH]; cbn [run_root_requests].
  - apply total_ret.
  - apply total_bind; [apply Hroot | intros _; exact IH].
Qed.

Lemma total_create_clip_stacks (layer : string) (mode : EMode)
    (clips : list ROP_FBXExportClip) :
  (forall st, total (modify_scene (add_AnimStack st))) ->
  total (create_clip_stacks layer mode clips).
Proof.
  intros Hadd. induction clips as [|c rest IH]; cbn [create_clip_stacks].
  - apply total_ret.
  - apply total_bind; [apply Hadd | intros _; exact IH].
Qed.

Ltac alive_solve :=
  intros;
  repeat match goal with
         | e : Exporter |- _ => destruct e
         | H : alive _ |- _ => destruct H as (? & ? & ? & ?)
         end;
  cbn in *; first [ assumption | repeat split; assumption ].

Ltac total_step :=
  lazymatch goal with
  | |- total (ret _) => apply total_ret
  | |- total (gets _) => apply total_gets
  | |- total getStartTime => apply total_gets
  | |- total (deref _) => apply total_deref; alive_solve
  | |- total (when _ _) => apply total_when
  | |- total (bind _ _) => apply total_bind; [ | intro ]
  | |- total (modify _) => apply total_modify; alive_solve
  | |- total (run_root_requests _ _) => apply total_run_root_requests; intros
  | |- total (create_clip_stacks _ _ _) => apply total_create_clip_stacks; intros
  | |- total (if ?b then _ else _) => destruct b
  | |- total (match ?x with _ => _ end) => destruct x
  | |- total (let _ := _ in _) => cbv zeta
  | |- total (?c _ _ _ _) => unfold c
  | |- total (?c _ _ _) => unfold c
  | |- total (?c _ _) => unfold c
  | |- total (?c _) => unfold c
  | |- total ?c => unfold c
  end.

Ltac total_auto := repeat total_step.

Lemma prepare_scene_total (env : Env) : total (prepare_scene env).
Proof. total_auto. Qed.

Lemma export_scene_total (env : Env) (single : bool) (n : OP_Node) :
  total (export_scene env single n).
Proof. total_auto. Qed.

Lemma export_in_take_total (env : Env) : total (export_in_take env).
Proof. total_auto. Qed.

Lemma set_export_take_total (env : Env) : total (set_export_take env).
Proof. total_auto. Qed.

Lemma restore_take_total (env : Env) (init_take : option string) :
  total (restore_take env init_take).
Proof. total_auto. Qed.

Lemma export_bundles_returns (env : Env) (e : Exporter) :
  alive e ->
  bundle_top_network env (myExportOptions e) <> None ->
  exists top e', export_bundles env e = Some (top, e') /\ alive e'
                 /\ bundle_top_network env (myExportOptions e) = Some top.
Proof.
  intros He Htop. destruct (bundle_top_network env (myExportOptions e)) as [top|] eqn:E;
    [|congruence].
  destruct (myNodeManager e) as [nm|] eqn:Hnm; [|destruct He as (_ & _ & H & _);
    rewrite Hnm in H; discriminate].
  rewrite (export_bundles_eq env e nm Hnm), E.
  eexists _, _. split; [reflexivity|]. split; [|reflexivity].
  destruct e; destruct He as (? & ? & ? & ?); cbn in *. repeat split; assumption.
Qed.

Lemma bundle_scope_returns (env : Env) (e : Exporter) :
  alive e -> bundles_resolve env e ->
  exists e', bundle_scope env e = Some (tt, e') /\ alive e'.
Proof.
  intros He Hb. unfold bundle_scope, bind at 1. cbn [gets].
  destruct (isExportingBundles (myExportOptions e)) eqn:Eb; cbn [when].
  - destruct (export_bundles_returns env e He) as (top & e1 & H1 & He1 & _); [apply Hb, Eb|].
    exists e1. split; [|exact He1]. unfold bind. rewrite H1. reflexivity.
  - exists e. split; [reflexivity | exact He].
Qed.

(** Taking [doExport] apart when it was not interrupted at its start. *)
Lemma doExport_inv (env : Env) (e e' : Exporter) :
  wasInterrupted (hou env) = false ->
  doExport env e = Some (tt, e') ->
  exists e1 init_take e2 e3 e4,
    bundle_scope env (set_myBoss (Some TheInterrupt) e) = Some (tt, e1)
    /\ set_export_take env e1 = Some (init_take, e2)
    /\ export_in_take env e2 = Some (tt, e3)
    /\ restore_take env init_take e3 = Some (tt, e4)
    /\ e' = set_myBoss None e4.
Proof.
  intros Hint H. unfold doExport in H. rewrite Hint in H.
  apply bind_Some in H. destruct H as ([] & e0 & H0 & H). injection H0 as <-.
  apply bind_Some in H. destruct H as ([] & e4 & H & Hend). injection Hend as <-.
  apply bind_Some in H. destruct H as ([] & e1 & H1 & H).
  apply bind_Some in H. destruct H as (init_take & e2 & H2 & H).
  apply bind_Some in H. destruct H as ([] & e3 & H3 & H4).
  exists e1, init_take, e2, e3, e4. repeat split; assumption.
Qed.

(** [doExport] returns on a live exporter whose bundles resolve. *)
Lemma doExport_returns (env : Env) (e : Exporter) :
  alive e -> bundles_resolve env e ->
  exists e', doExport env e = Some (tt, e') /\ alive e'.
Proof.
  intros He Hb. unfold doExport.
  assert (Hboss : alive (set_myBoss (Some TheInterrupt) e)) by alive_solve.
  assert (Hend : total (modify (set_myBoss None))) by total_auto.
  unfold bind at 1. cbn [modify].
  destruct (wasInterrupted (hou env)).
  - destruct (Hend _ Hboss) as ([] & e' & H & He'). exists e'. split; [|exact He'].
    unfold bind, ret. exact H.
  - destruct (bundle_scope_returns env (set_myBoss (Some TheInterrupt) e) Hboss)
      as (e1 & H1 & He1); [exact Hb|].
    destruct (set_export_take_total env e1 He1) as (init_take & e2 & H2 & He2).
    destruct (export_in_take_total env e2 He2) as ([] & e3 & H3 & He3).
    destruct (restore_take_total env init_take e3 He3) as ([] & e4 & H4 & He4).
    destruct (Hend e4 He4) as ([] & e5 & H5 & He5).
    exists e5. split; [|exact He5].
    unfold bind in *. rewrite H1, H2, H3, H4. exact H5.
Qed.

(** * initializeExport *)

(** C9.  A call of [initializeExport] with a null output-file name
    returns false and leaves the exporter, and the world around it, as
    they were: no SDK manager and no scene is created, the error sink is
    not reset, and the stored options and time range are not touched. *)
Theorem initializeExport_null_output_name (env : Env) (tstart tend : fpreal)
    (options : option ROP_FBXExportOptions) (e : Exporter) :
  exists e',
    initializeExport env None tstart tend options e = Some (false, e')
    /\ mySDKManager e' = mySDKManager e
    /\ myScene e' = myScene e
    /\ myErrorManager e' = myErrorManager e
    /\ myExportOptions e' = myExportOptions e
    /\ myStartTime e' = myStartTime e
    /\ myEndTime e' = myEndTime e
    /\ calls e' = calls e
    /\ e' = e.
Proof. exists e. repeat split; reflexivity. Qed.

(** A successful [initializeExport] leaves a live exporter with a fresh
    scene, an empty error sink and no dummy root. *)
Lemma initializeExport_ok (env : Env) (name : string) (tstart tend : fpreal)
    (options : option ROP_FBXExportOptions) (e e' : Exporter) :
  initializeExport env (Some name) tstart tend options e = Some (true, e') ->
  alive e'
  /\ myScene e' = Some (FbxScene_Create (sdk env))
  /\ myErrorManager e' = []
  /\ myDidCancel e' = false
  /\ myDummyRootNullNode e' = None
  /\ myStringsToDeallocate e' = []
  /\ myStartTime e' = tstart /\ myEndTime e' = tend.
Proof.
  unfold initializeExport, deallocateQueuedStrings, call, bind, modify, gets, ret.
  cbn. destruct (FbxManager_Create (sdk env)); [|discriminate].
  intros H. injection H as <-. cbn. unfold alive. cbn. repeat split; reflexivity.
Qed.

(** * getFBXRootNode *)

Lemma getFBXRootNode_scene_root (env : Env) (e : Exporter) (asking : option OP_Node)
    (create : bool) :
  is_some (myScene e) = true ->
  subnet_root_export_node env e asking create = None ->
  getFBXRootNode env asking create e = Some (SceneRootNode, e).
Proof.
  unfold getFBXRootNode, subnet_root_export_node, bind, deref, gets, ret.
  destruct (myScene e); [intros _|discriminate].
  destruct (String.eqb _ "/"); [reflexivity|].
  destruct (findNode _ _) as [export_node|]; [|reflexivity].
  destruct (ptr_eqb _ _); [reflexivity|].
  destruct (getParentNetwork export_node) as [parent_net|]; [|reflexivity].
  destruct (String.eqb _ "/"); [reflexivity|].
  destruct create; [discriminate | reflexivity].
Qed.

Lemma getFBXRootNode_existing (env : Env) (e : Exporter) (asking : option OP_Node)
    (create : bool) (export_node : OP_Node) (d : FbxNode) :
  is_some (myScene e) = true ->
  myDummyRootNullNode e = Some d ->
  subnet_root_export_node env e asking create = Some export_node ->
  getFBXRootNode env asking create e = Some (CreatedNode d, e).
Proof.
  unfold getFBXRootNode, subnet_root_export_node, bind, deref, gets, ret.
  destruct (myScene e); [intros _|discriminate]. intros Hd.
  destruct (String.eqb _ "/"); [discriminate|].
  destruct (findNode _ _) as [n|]; [|discriminate].
  destruct (ptr_eqb _ _); [discriminate|].
  destruct (getParentNetwork n) as [parent_net|]; [|discriminate].
  destruct (String.eqb _ "/"); [discriminate|].
  destruct create; [|discriminate]. intros _. cbn. rewrite Hd. reflexivity.
Qed.

Lemma getFBXRootNode_first (env : Env) (e : Exporter) (asking : option OP_Node)
    (create : bool) (export_node : OP_Node) (sc : FbxScene) (nm : ROP_FBXNodeManager) :
  myScene e = Some sc -> myNodeManager e = Some nm ->
  myDummyRootNullNode e = None ->
  subnet_root_export_node env e asking create = Some export_node ->
  let d := world_root env export_node (myStartTime e) in
  getFBXRootNode env asking create e =
  Some (CreatedNode d,
        set_myNodeManager (Some (addNodePair export_node d nm))
          (set_myScene (Some (AddChild d sc))
             (set_myDummyRootNullNode (Some d) e))).
Proof.
  intros Hsc Hnm Hd. unfold getFBXRootNode, subnet_root_export_node.
  unfold bind at 1. unfold deref. rewrite Hsc. unfold bind at 1. cbn [gets].
  cbv zeta.
  destruct (String.eqb _ "/"); [discriminate|].
  destruct (findNode _ _) as [n|]; [|discriminate].
  destruct (ptr_eqb _ _); [discriminate|].
  destruct (getParentNetwork n) as [parent_net|]; [|discriminate].
  destruct (String.eqb _ "/"); [discriminate|].
  destruct create; [|discriminate]. intros H. injection H as <-.
  unfold modify_scene, modify_node_manager, getStartTime, bind, deref, gets, modify, ret.
  cbn. rewrite Hd, Hnm. cbn. rewrite Hsc. cbn. rewrite Hnm. reflexivity.
Qed.

(** Once the dummy root is there, no call of [getFBXRootNode] changes
    the exporter. *)
Lemma getFBXRootNode_after (env : Env) (e : Exporter) (asking : option OP_Node)
    (create : bool) (d : FbxNode) :
  is_some (myScene e) = true ->
  myDummyRootNullNode e = Some d ->
  exists r, getFBXRootNode env asking create e = Some (r, e)
            /\ (subnet_root_export_node env e asking create <> None -> r = CreatedNode d).
Proof.
  intros Hsc Hd.
  destruct (subnet_root_export_node env e asking create) as [n|] eqn:E.
  - exists (CreatedNode d). split; [|reflexivity].
    eapply getFBXRootNode_existing; eassumption.
  - exists SceneRootNode. split; [|congruence].
    apply getFBXRootNode_scene_root; assumption.
Qed.

Lemma run_root_requests_after (env : Env) (reqs : list (option OP_Node * bool))
    (e : Exporter) (d : FbxNode) :
  is_some (myScene e) = true ->
  myDummyRootNullNode e = Some d ->
  run_root_requests env reqs e = Some (tt, e).
Proof.
  intros Hsc Hd. induction reqs as [|[a c] rest IH]; cbn; [reflexivity|].
  destruct (getFBXRootNode_after env e a c d Hsc Hd) as (r & H & _).
  unfold bind. rewrite H. exact IH.
Qed.

Lemma subnet_root_export_node_same (env : Env) (e : Exporter)
    (a a' : option OP_Node) (c c' : bool) (n n' : OP_Node) :
  subnet_root_export_node env e a c = Some n ->
  subnet_root_export_node env e a' c' = Some n' ->
  n = n'.
Proof.
  unfold subnet_root_export_node.
  destruct (String.eqb _ "/"); [discriminate|].
  destruct (findNode _ _) as [export_node|]; [|discriminate].
  destruct (ptr_eqb a _); [discriminate|]. destruct (ptr_eqb a' _); [discriminate|].
  destruct (getParentNetwork export_node) as [parent_net|]; [|discriminate].
  destruct (String.eqb _ "/"); [discriminate|].
  destruct c; [|discriminate]. destruct c'; [|discriminate]. congruence.
Qed.

(** A sequence of calls on an exporter without dummy root leaves it as
    it was, or as the first call that requires a subnet root makes
    it. *)
Lemma run_root_requests_at_most_once (env : Env) (reqs : list (option OP_Node * bool))
    (e e' : Exporter) (sc : FbxScene) (nm : ROP_FBXNodeManager) :
  myScene e = Some sc -> myNodeManager e = Some nm ->
  myDummyRootNullNode e = None ->
  run_root_requests env reqs e = Some (tt, e') ->
  e' = e
  \/ exists export_node a c,
       subnet_root_export_node env e a c = Some export_node
       /\ getFBXRootNode env a c e
          = Some (CreatedNode (world_root env export_node (myStartTime e)), e').
Proof.
  intros Hsc Hnm Hd. induction reqs as [|[a c] rest IH]; cbn; intros H.
  - injection H as <-. left. reflexivity.
  - apply bind_Some in H. destruct H as (r & e1 & H1 & H).
    destruct (subnet_root_export_node env e a c) as [n|] eqn:E.
    + pose proof (getFBXRootNode_first env e a c n sc nm Hsc Hnm Hd E) as Hfirst.
      cbv zeta in Hfirst. rewrite Hfirst in H1. injection H1 as <- <-.
      rewrite (run_root_requests_after env rest _ (world_root env n (myStartTime e)))
        in H by reflexivity.
      injection H as <-. right. exists n, a, c. split; [exact E | exact Hfirst].
    + rewrite getFBXRootNode_scene_root in H1; [|rewrite Hsc; reflexivity | exact E].
      injection H1 as <- <-. apply IH. exact H.
Qed.

(** C10.  Within one export session the "world_root" null node is
    created at most once.  While there is none, a call that does not
    require a subnet root answers with the scene root and changes
    nothing.  The first call that requires one creates the node, keeps
    it as the dummy root, attaches it under the scene root and registers
    the pair (export node, dummy node) in the node manager.  From then
    on no call, and no sequence of calls, changes the exporter, and
    every call that requires a subnet root answers with that same node.
    So any sequence of calls in the session leaves the exporter as it
    was or as that first call makes it, with one node created. *)
Theorem world_root_created_once (env : Env) (e : Exporter) (asking : option OP_Node)
    (create : bool) (export_node : OP_Node) (sc : FbxScene) (nm : ROP_FBXNodeManager) :
  myScene e = Some sc ->
  myNodeManager e = Some nm ->
  myDummyRootNullNode e = None ->
  subnet_root_export_node env e asking create = Some export_node ->
  let d := world_root env export_node (myStartTime e) in
  (forall asking0 create0,
      subnet_root_export_node env e asking0 create0 = None ->
      getFBXRootNode env asking0 create0 e = Some (SceneRootNode, e))
  /\ exists e1,
      getFBXRootNode env asking create e = Some (CreatedNode d, e1)
      /\ myDummyRootNullNode e1 = Some d
      /\ scene_obs RootChildren e1 = Some (RootChildren sc ++ [d])
      /\ option_map node_pairs (myNodeManager e1) = Some (node_pairs nm ++ [(export_node, d)])
      /\ (forall asking' create',
             exists r, getFBXRootNode env asking' create' e1 = Some (r, e1)
                       /\ (subnet_root_export_node env e1 asking' create' <> None ->
                           r = CreatedNode d))
      /\ (forall reqs, run_root_requests env reqs e1 = Some (tt, e1))
      /\ (forall reqs e', run_root_requests env reqs e = Some (tt, e') ->
                          e' = e \/ e' = e1).
Proof.
  intros Hsc Hnm Hd Hreq d. split.
  - intros asking0 create0 H0. apply getFBXRootNode_scene_root; [|exact H0].
    rewrite Hsc. reflexivity.
  - pose proof (getFBXRootNode_first env e asking create export_node sc nm Hsc Hnm Hd Hreq)
      as Hfirst. cbv zeta in Hfirst.
    eexists. split; [exact Hfirst|].
    repeat split.
    + intros asking' create'. apply getFBXRootNode_after; reflexivity.
    + intros reqs. eapply run_root_requests_after; reflexivity.
    + intros reqs e' H.
      destruct (run_root_requests_at_most_once env reqs e e' sc nm Hsc Hnm Hd H)
        as [->|(n & a & c & Hn & Hcall)]; [left; reflexivity|].
      right. rewrite (subnet_root_export_node_same env e a asking c create n export_node Hn Hreq)
        in Hcall.
      pose proof (getFBXRootNode_first env e a c export_node sc nm Hsc Hnm Hd) as Hother.
      cbv zeta in Hother. rewrite Hother in Hcall.
      * injection Hcall as <-. reflexivity.
      * rewrite <- (subnet_root_export_node_same env e a asking c create n export_node Hn Hreq).
        exact Hn.
Qed.

(** The session of the sample scene that exports [/obj/subnet1/subnet2];
    [geoB] asks for the root with [create_subnet_root]. *)
Lemma world_root_created_once_witness :
  let e := Sample.session Sample.env 0%float 0%float
             (setStartNodePath "/obj/subnet1/subnet2" Sample.options) in
  exists e1,
    getFBXRootNode Sample.env (Some Sample.geoB) true e
    = Some (CreatedNode (world_root Sample.env Sample.subnet2 0%float), e1)
    /\ forall reqs, run_root_requests Sample.env reqs e1 = Some (tt, e1).
Proof.
  intros e.
  destruct (world_root_created_once Sample.env e (Some Sample.geoB) true Sample.subnet2
              (FbxScene_Create Sample.fbxsdk) new_ROP_FBXNodeManager
              eq_refl eq_refl eq_refl eq_refl)
    as (_ & e1 & H1 & _ & _ & _ & _ & H2 & _).
  exists e1. split; [exact H1 | exact H2].
Defined.

(** * doExport: a single frame *)

Lemma set_scene_info_keeps_times (env : Env) :
  respects (keeps times_obs) (set_scene_info env).
Proof. respects_auto. Qed.

(** [prepare_scene] returns [exporting_single_frame]: what [SYSisEqual]
    says of the start and end times. *)
Lemma prepare_scene_result (env : Env) (e e' : Exporter) (single : bool) :
  prepare_scene env e = Some (single, e') ->
  single = SYSisEqual (hou env) (myStartTime e) (myEndTime e).
Proof.
  unfold prepare_scene. intros H.
  apply bind_Some in H. destruct H as ([] & e1 & H1 & H).
  apply (set_scene_info_keeps_times env e tt e1 I) in H1. cbn in H1.
  unfold times_obs in H1. injection H1 as Hs He.
  unfold getExportingAnimation in H. unfold bind at 1 in H. cbn [gets] in H.
  cbv zeta in H. rewrite Hs, He in H.
  apply bind_Some in H. destruct H as ([] & e2 & _ & H).
  apply bind_Some in H. destruct H as ([] & e3 & _ & H).
  injection H as <- _. apply negb_involutive.
Qed.

Lemma export_in_take_single_frame (env : Env) :
  respects (both (given times_obs (single_frame env))
                 (both (keeps (scene_obs anim_obs)) (avoids is_anim_call)))
           (export_in_take env).
Proof.
  unfold export_in_take, single_frame.
  apply respects_bind_val with (V := fun single => single = true).
  - respects_auto.
  - intros e single e' (Hpre & _) H. apply prepare_scene_result in H.
    rewrite H. exact Hpre.
  - intros single ->. respects_auto.
Qed.

Lemma doExport_single_frame (env : Env) :
  respects (both (given times_obs (single_frame env))
                 (both (keeps (scene_obs anim_obs)) (avoids is_anim_call)))
           (doExport env).
Proof. pose proof (export_in_take_single_frame env). respects_auto. Qed.

(** C4.  When the start time equals the end time, as the exporter's own
    test [SYSisEqual] sees it, [doExport] returns with the animation
    layers and the animation stacks of the scene as they were (none, in
    a fresh scene), and the animation visitor, which bakes the curves,
    was not run: no call to it is in the log. *)
Theorem single_frame_no_animation (env : Env) (e : Exporter) :
  alive e -> bundles_resolve env e ->
  SYSisEqual (hou env) (myStartTime e) (myEndTime e) = true ->
  exists e',
    doExport env e = Some (tt, e')
    /\ scene_obs AnimLayers e' = scene_obs AnimLayers e
    /\ scene_obs AnimStacks e' = scene_obs AnimStacks e
    /\ exists l, calls e' = calls e ++ l
                 /\ forallb (fun c => negb (is_anim_call c)) l = true.
Proof.
  intros He Hb Heq. destruct (doExport_returns env e He Hb) as (e' & H & _).
  exists e'. split; [exact H|].
  destruct (doExport_single_frame env e tt e') as (_ & Hanim & Hcalls).
  - cbn. unfold single_frame. cbn. auto.
  - exact H.
  - cbn in Hanim. unfold scene_obs, anim_obs in *.
    destruct (myScene e'), (myScene e); cbn in *; try discriminate.
    + injection Hanim as -> ->. auto.
    + auto.
Qed.

(** One frame of the sample scene: no layer, no stack. *)
Lemma single_frame_no_animation_witness :
  let e := Sample.session Sample.env 0%float 0%float Sample.options in
  exists e',
    doExport Sample.env e = Some (tt, e')
    /\ scene_obs AnimLayers e' = Some []
    /\ scene_obs AnimStacks e' = Some [].
Proof.
  intros e.
  destruct (single_frame_no_animation Sample.env e) as (e' & H & Hl & Hs & _).
  - unfold alive. cbn. auto.
  - intros Hb. discriminate Hb.
  - vm_compute. reflexivity.
  - exists e'. split; [exact H|]. split; [rewrite Hl | rewrite Hs]; reflexivity.
Defined.

(** * doExport: the axis system *)

Lemma setup_axis_system_matching (env : Env) :
  respects (both (given axis_request_obs (axis_already_matches env))
                 (both (keeps (scene_obs original_axis_obs)) (avoids is_axis_conversion)))
           (setup_axis_system env).
Proof.
  unfold setup_axis_system.
  apply respects_bind; [apply respects_deref | intros sc].
  apply respects_gets_bind. intros e0 (Hm & _). cbv zeta.
  unfold axis_request_obs, axis_already_matches, baseline_axis in Hm. cbn in Hm.
  change (host_axis_system (hou env) (AxisSystem (GlobalSettings sc)))
    with (host_axis_system (hou env) (fresh_AxisSystem (sdk env))).
  destruct (getConvertAxisSystem (myExportOptions e0)
            && negb (is_Current (getAxisSystem (myExportOptions e0)))).
  - rewrite Hm. apply respects_ret.
  - respects_auto.
Qed.

Lemma doExport_axis_matching (env : Env) :
  respects (both (given axis_request_obs (axis_already_matches env))
                 (both (keeps (scene_obs original_axis_obs)) (avoids is_axis_conversion)))
           (doExport env).
Proof. pose proof (setup_axis_system_matching env). respects_auto. Qed.

(** C5.  When the axis system the options ask for is the one
    [doExport] takes as the scene's (from the orientation mode of the
    host), the export applies no axis conversion to the scene (no
    [ConvertScene] of an axis system is in the log) and the original up
    axis of the scene is as it was: unset, in a fresh scene. *)
Theorem axis_conversion_idempotent (env : Env) (e : Exporter) :
  alive e -> bundles_resolve env e ->
  FbxAxisSystem_eqb
    (target_axis_of (getAxisSystem (myExportOptions e)) (baseline_axis env))
    (baseline_axis env) = true ->
  exists e',
    doExport env e = Some (tt, e')
    /\ scene_obs original_axis_obs e' = scene_obs original_axis_obs e
    /\ exists l, calls e' = calls e ++ l
                 /\ forallb (fun c => negb (is_axis_conversion c)) l = true.
Proof.
  intros He Hb Hm. destruct (doExport_returns env e He Hb) as (e' & H & _).
  exists e'. split; [exact H|].
  destruct (doExport_axis_matching env e tt e') as (_ & Haxis & Hcalls).
  - cbn. auto.
  - exact H.
  - split; [exact Haxis | exact Hcalls].
Qed.

(** The sample host is Y-up; the options ask for Y-up right-handed,
    with conversion. *)
Lemma axis_conversion_idempotent_witness :
  let opts := {| isExportingBundles := false; getBundlesString := "";
                 getStartNodePath := "/obj"; getExportTakeName := "";
                 getExportDeformsAsVC := false; getExportClips := [];
                 getConvertAxisSystem := true;
                 getAxisSystem := ROP_FBXAxisSystem_YUp_RightHanded;
                 getConvertUnits := false; getconvertUnitTo := UNIT_CM;
                 getVersion := ""; getExportInAscii := false;
                 getEmbedMedia := false |} in
  let e := Sample.session Sample.env 0%float 1%float opts in
  exists e',
    doExport Sample.env e = Some (tt, e')
    /\ scene_obs original_axis_obs e' = Some None.
Proof.
  intros opts e.
  destruct (axis_conversion_idempotent Sample.env e) as (e' & H & Ha & _).
  - unfold alive. cbn. auto.
  - intros Hb. discriminate Hb.
  - reflexivity.
  - exists e'. split; [exact H|]. rewrite Ha. reflexivity.
Defined.

(** * doExport: the time mode *)

Lemma find_unique {A : Type} (p : A -> bool) (l : list A) (x : A) :
  List.length (filter p l) <= 1 -> In x l -> p x = true -> find p l = Some x.
Proof.
  induction l as [|a l IH]; cbn; intros Hlen Hin Hp; [contradiction|].
  destruct (p a) eqn:Ea.
  - destruct Hin as [->|Hin]; [reflexivity|].
    cbn in Hlen. assert (Hx : In x (filter p l)) by (apply filter_In; auto).
    destruct (filter p l); [contradiction | cbn in Hlen; lia].
  - destruct Hin as [->|Hin]; [congruence|]. apply IH; assumption.
Qed.

Lemma find_no_match {A : Type} (p : A -> bool) (l : list A) :
  filter p l = [] -> find p l = None.
Proof.
  induction l as [|a l IH]; cbn; [reflexivity|].
  destruct (p a); [discriminate | exact IH].
Qed.

(** The chain of tests of [doExport] picks the first match of the
    table, whenever the rate matches at most one of its entries. *)
Lemma time_mode_of_table (h : Houdini) (fps : fpreal) :
  List.length (matching_rates h fps) <= 1 ->
  time_mode_of h fps = table_time_mode h fps.
Proof.
  intros Hlen. unfold table_time_mode, time_mode_of.
  repeat match goal with
         | |- (if ?b then ?m else _) = _ =>
             let E := fresh "E" in
             destruct b eqn:E;
             [ match type of E with
               | SYSisEqual _ _ ?r = true =>
                   rewrite (find_unique _ frame_rate_table (r, m) Hlen);
                   [ reflexivity | cbn; tauto | exact E ]
               end
             | ]
         end.
  cbn [frame_rate_table find fst snd].
  repeat match goal with
         | H : ?x = false |- context [?x] => rewrite H
         end.
  reflexivity.
Qed.

Lemma set_time_mode_sets (env : Env) (e e' : Exporter) :
  set_time_mode env e = Some (tt, e') ->
  scene_obs time_obs e' =
  Some (time_mode_of (hou env) (getSamplesPerSec (hou env)), getSamplesPerSec (hou env)).
Proof.
  unfold set_time_mode, modify_settings, modify_scene, call, bind, deref, gets, modify.
  destruct (myScene e) as [sc|]; [|discriminate]. cbn.
  intros H. injection H as <-. reflexivity.
Qed.

Lemma prepare_scene_animated (env : Env) (e e' : Exporter) (single : bool) :
  SYSisEqual (hou env) (myStartTime e) (myEndTime e) = false ->
  prepare_scene env e = Some (single, e') ->
  scene_obs time_obs e' =
  Some (time_mode_of (hou env) (getSamplesPerSec (hou env)), getSamplesPerSec (hou env)).
Proof.
  intros Hanim H. unfold prepare_scene in H.
  apply bind_Some in H. destruct H as ([] & e1 & H1 & H).
  apply (set_scene_info_keeps_times env e tt e1 I) in H1. cbn in H1.
  unfold times_obs in H1. injection H1 as Hs He.
  unfold getExportingAnimation in H. unfold bind at 1 in H. cbn [gets] in H.
  cbv zeta in H. rewrite Hs, He, Hanim in H. cbn [negb when] in H.
  apply bind_Some in H. destruct H as ([] & e2 & H2 & H). injection H2 as <-.
  apply bind_Some in H. destruct H as ([] & e3 & H3 & H). injection H as _ <-.
  eapply set_time_mode_sets. exact H3.
Qed.

Lemma export_in_take_time_mode (env : Env) (e e' : Exporter) :
  SYSisEqual (hou env) (myStartTime e) (myEndTime e) = false ->
  export_in_take env e = Some (tt, e') ->
  scene_obs time_obs e' =
  Some (time_mode_of (hou env) (getSamplesPerSec (hou env)), getSamplesPerSec (hou env)).
Proof.
  intros Hanim H. unfold export_in_take in H.
  apply bind_Some in H. destruct H as (single & e1 & H1 & H).
  apply (prepare_scene_animated env e e1 single Hanim) in H1. rewrite <- H1.
  assert (R : respects (keeps (scene_obs time_obs))
                (opts <- gets myExportOptions ;;
                 match findNode (hou env) (getStartNodePath opts) with
                 | None =>
                     addError "Could not find the start node specified [ "
                              (getStartNodePath opts) " ]" true
                 | Some geom_node => export_scene env single geom_node
                 end)) by respects_auto.
  exact (R e1 tt e' I H).
Qed.

Lemma bundle_scope_keeps_times (env : Env) : respects (keeps times_obs) (bundle_scope env).
Proof. respects_auto. Qed.

Lemma set_export_take_keeps_times (env : Env) :
  respects (keeps times_obs) (set_export_take env).
Proof. respects_auto. Qed.

Lemma restore_take_keeps_scene (env : Env) (init_take : option string) :
  respects (keeps myScene) (restore_take env init_take).
Proof. respects_auto. Qed.

(** The chain of tests of [doExport] is the search of the table in the
    order of the tests. *)
Lemma time_mode_of_tested (h : Houdini) (fps : fpreal) :
  time_mode_of h fps = tested_time_mode h fps.
Proof.
  unfold tested_time_mode, tested_frame_rates, time_mode_of. cbn [find fst snd].
  repeat match goal with
         | |- context [if ?b then _ else _] => destruct b; [reflexivity|]
         end.
  reflexivity.
Qed.

(** The rates of the table are fourteen different numbers, so that a
    comparison that holds of equal numbers only holds of one entry at
    most. *)
Lemma float_differ (a b : float) : PrimFloat.eqb a b <> PrimFloat.eqb a a -> a <> b.
Proof. intros H E. apply H. rewrite E. reflexivity. Qed.

Lemma frame_rates_differ : NoDup (map fst frame_rate_table).
Proof.
  cbn. repeat constructor; cbn; intros H;
    repeat match goal with
           | H : _ \/ _ |- _ => destruct H as [H|H]
           | H : False |- _ => destruct H
           | H : ?a = ?b |- _ => revert H; apply not_eq_sym, float_differ; vm_compute; discriminate
           end.
Qed.

Lemma filter_once {A B : Type} (p : A -> bool) (key : A -> B) (x : B) (l : list A) :
  NoDup (map key l) ->
  (forall r, In r l -> p r = true -> key r = x) ->
  List.length (filter p l) <= 1.
Proof.
  induction l as [|a l IH]; cbn; intros Hnd Hkey; [lia|].
  inversion Hnd as [|? ? Hnotin Hnd']; subst.
  destruct (p a) eqn:Ea.
  - assert (Hnone : filter p l = []).
    { destruct (filter p l) as [|r rest] eqn:Ef; [reflexivity|]. exfalso.
      assert (Hr : In r (filter p l)) by (rewrite Ef; left; reflexivity).
      apply filter_In in Hr. destruct Hr as (Hin & Hp).
      apply Hnotin. rewrite (Hkey a (or_introl eq_refl) Ea).
      rewrite <- (Hkey r (or_intror Hin) Hp). apply in_map. exact Hin. }
    rewrite Hnone. cbn. lia.
  - apply IH; [exact Hnd'|]. intros r Hin. apply Hkey. right. exact Hin.
Qed.

Lemma exact_rates_match_once (h : Houdini) (fps : fpreal) :
  exact_on_table h fps -> List.length (matching_rates h fps) <= 1.
Proof.
  intros Hexact. unfold matching_rates.
  apply (filter_once _ fst fps); [exact frame_rates_differ|].
  intros r Hin Hp. symmetry. apply Hexact; assumption.
Qed.

(** C3, amended.  In an animated export the samples-per-second rate of
    the host is compared with the frame rates of the table by the
    host's [SYSisEqual], in the order of the tests of [doExport] (24,
    120, 100, 60, 50, 48, 30, 29.97, 25, 1000, 23.976, 96, 72, 59.94):
    the time mode of the scene is the mode of the first rate that
    [SYSisEqual] finds equal, and the custom mode when it finds none;
    the custom frame rate of the scene is the rate itself, in every
    case.  The order does not matter, and the mode is the one of the
    first match in the table of the specification, when [SYSisEqual]
    holds of one entry at most, as it does when it holds of equal
    numbers only. *)
Theorem time_mode_from_frame_rate_table (env : Env) (e : Exporter) :
  alive e -> bundles_resolve env e ->
  wasInterrupted (hou env) = false ->
  SYSisEqual (hou env) (myStartTime e) (myEndTime e) = false ->
  let fps := getSamplesPerSec (hou env) in
  exists e' mode,
    doExport env e = Some (tt, e')
    /\ scene_obs (fun sc => TimeMode (GlobalSettings sc)) e' = Some mode
    /\ scene_obs (fun sc => CustomFrameRate (GlobalSettings sc)) e' = Some fps
    /\ mode = tested_time_mode (hou env) fps
    /\ (matching_rates (hou env) fps = [] -> mode = eCustom)
    /\ (List.length (matching_rates (hou env) fps) <= 1 ->
        mode = table_time_mode (hou env) fps)
    /\ (exact_on_table (hou env) fps -> mode = table_time_mode (hou env) fps).
Proof.
  intros He Hb Hint Hanim fps.
  destruct (doExport_returns env e He Hb) as (e' & H & _).
  exists e', (time_mode_of (hou env) fps). split; [exact H|].
  assert (Hobs : scene_obs time_obs e' = Some (time_mode_of (hou env) fps, fps)).
  { destruct (doExport_inv env e e' Hint H)
      as (e1 & init_take & e2 & e3 & e4 & H1 & H2 & H3 & H4 & ->).
    apply (bundle_scope_keeps_times env _ tt e1 I) in H1.
    apply (set_export_take_keeps_times env e1 init_take e2 I) in H2.
    cbn in H1, H2. unfold times_obs in H1, H2. cbn in H1.
    injection H1 as Hs1 He1. injection H2 as Hs2 He2.
    assert (Hanim2 : SYSisEqual (hou env) (myStartTime e2) (myEndTime e2) = false)
      by (rewrite Hs2, He2, Hs1, He1; exact Hanim).
    apply (export_in_take_time_mode env e2 e3 Hanim2) in H3.
    apply (restore_take_keeps_scene env init_take e3 tt e4 I) in H4. cbn in H4.
    unfold scene_obs in *. cbn [myScene set_myBoss]. rewrite H4. exact H3. }
  unfold scene_obs, time_obs in *.
  destruct (myScene e') as [sc|]; [|discriminate].
  cbn [option_map] in *. injection Hobs as Hmode Hrate. rewrite Hmode, Hrate.
  split; [reflexivity|]. split; [reflexivity|]. split; [apply time_mode_of_tested|].
  split; [|split].
  - intros Hnone. rewrite time_mode_of_table by (rewrite Hnone; cbn; lia).
    unfold table_time_mode. rewrite find_no_match by exact Hnone. reflexivity.
  - intros Hlen. apply time_mode_of_table. exact Hlen.
  - intros Hexact. apply time_mode_of_table, exact_rates_match_once. exact Hexact.
Qed.

(** The sample host, whose [SYSisEqual] holds within 0.00001, at
    24.000001 samples per second: one second of animation is exported
    in the mode of 24 frames per second, with 24.000001 as custom
    rate. *)
Lemma time_mode_from_frame_rate_table_witness :
  let env := env_at 24.000001%float in
  let e := Sample.session env 0%float 1%float Sample.options in
  exists e',
    doExport env e = Some (tt, e')
    /\ scene_obs (fun sc => TimeMode (GlobalSettings sc)) e' = Some eFrames24
    /\ scene_obs (fun sc => CustomFrameRate (GlobalSettings sc)) e' = Some 24.000001%float.
Proof.
  intros env e.
  destruct (time_mode_from_frame_rate_table env e) as (e' & mode & H & Hm & Hr & Hmode & _).
  - unfold alive. cbn. auto.
  - intros Hb. discriminate Hb.
  - reflexivity.
  - vm_compute. reflexivity.
  - exists e'. split; [exact H|]. split; [|exact Hr].
    rewrite Hm, Hmode. vm_compute. reflexivity.
Defined.

(** Against C3 as stated: the same export.  24.000001 is equal to no
    rate of the table, and exact equality gives the custom mode;
    [doExport] sets the mode of 24 frames per second. *)
Lemma time_mode_claim_fails :
  let env := env_at 24.000001%float in
  ~ time_mode_claim env (Sample.session env 0%float 1%float Sample.options).
Proof.
  intros env Hclaim.
  specialize (Hclaim (match doExport env (Sample.session env 0%float 1%float Sample.options) with
                      | Some (_, e') => e'
                      | None => Sample.exporter
                      end)).
  assert (H : exact_time_mode (getSamplesPerSec (hou env)) = eCustom) by (vm_compute; reflexivity).
  rewrite H in Hclaim.
  specialize (Hclaim ltac:(vm_compute; reflexivity)).
  vm_compute in Hclaim. discriminate Hclaim.
Qed.

(** With a comparison that holds within 0.05, 29.98 is found equal to
    30 and to 29.97: [doExport] tests 30 first, the table of the
    specification has 29.97 first. *)
Lemma first_tested_rate_wins :
  let h := coarse_houdini 29.98%float in
  time_mode_of h 29.98%float = eFrames30
  /\ tested_time_mode h 29.98%float = eFrames30
  /\ table_time_mode h 29.98%float = eNTSCFullFrame.
Proof. vm_compute. auto. Qed.

(** * doExport: a start node that does not exist *)

Lemma bundle_scope_resolves (env : Env) (e e1 : Exporter) :
  is_some (myNodeManager e) = true ->
  bundle_scope env e = Some (tt, e1) ->
  resolved_start_path env (myExportOptions e) = Some (start_path_obs e1).
Proof.
  intros Hnm. destruct (myNodeManager e) as [nm|] eqn:E; [|discriminate].
  unfold bundle_scope, resolved_start_path, start_path_obs, bind. cbn [gets].
  destruct (isExportingBundles (myExportOptions e)); cbn [when].
  - rewrite (export_bundles_eq env e nm E).
    destruct (bundle_top_network env (myExportOptions e)); [|discriminate].
    cbn. intros H. injection H as <-. reflexivity.
  - intros H. injection H as <-. reflexivity.
Qed.

Lemma bundle_scope_nothing_exported (env : Env) :
  respects (both nothing_exported (keeps myErrorManager)) (bundle_scope env).
Proof. unfold nothing_exported. respects_auto. Qed.

Lemma set_export_take_nothing_exported (env : Env) :
  respects (both nothing_exported (both (keeps myErrorManager) (keeps start_path_obs)))
           (set_export_take env).
Proof. unfold nothing_exported. respects_auto. Qed.

Lemma restore_take_nothing_exported (env : Env) (init_take : option string) :
  respects (both nothing_exported (keeps myErrorManager)) (restore_take env init_take).
Proof. unfold nothing_exported. respects_auto. Qed.

Lemma prepare_scene_nothing_exported (env : Env) :
  respects (both nothing_exported (both (keeps myErrorManager) (keeps start_path_obs)))
           (prepare_scene env).
Proof. unfold nothing_exported. respects_auto. Qed.

Lemma export_in_take_missing (env : Env) (e e' : Exporter) :
  findNode (hou env) (start_path_obs e) = None ->
  export_in_take env e = Some (tt, e') ->
  rel nothing_exported e e'
  /\ myErrorManager e' = myErrorManager e ++ [start_node_error (start_path_obs e)].
Proof.
  intros Hmiss H. unfold export_in_take in H.
  apply bind_Some in H. destruct H as (single & e1 & H1 & H).
  apply (prepare_scene_nothing_exported env e single e1) in H1; [|cbn; auto].
  destruct H1 as (Hnothing & Herr & Hpath). cbn in Herr, Hpath.
  unfold bind at 1 in H. cbn [gets] in H. fold (start_path_obs e1) in H.
  rewrite Hpath, Hmiss in H. injection H as <-.
  split.
  - eapply (rel_trans nothing_exported); [exact Hnothing|].
    unfold nothing_exported. clear. frame_solve.
  - cbn. rewrite Herr. reflexivity.
Qed.

(** From a run [H : c e = Some (a, e')] to what the frame [F] says of
    it. *)
Ltac frame_of F H :=
  match type of H with
  | ?c ?e = Some (?a, ?e') =>
      let R := fresh "R" in
      assert (R : respects F c) by (cbv beta; respects_auto);
      apply (R e a e') in H; [ | try (cbn; auto) ]; clear R
  end.

(** [finishExport], step by step: what its writer block and its
    releases do to the exporter. *)
Lemma write_scene_eq (env : Env) (e : Exporter) (fmt : Z) :
  is_some (mySDKManager e) = true ->
  writer_format env (myExportOptions e) = Some fmt ->
  let file := myOutputFile e in
  let opts := myExportOptions e in
  let start := calls e ++ [FbxExporter_Create] ++ writer_version_calls opts
               ++ [FbxExporter_Initialize file fmt] in
  write_scene env e =
  if negb (Exporter_Initialize (sdk env) file fmt)
  then Some (None, set_calls start e)
  else
    let bSuccess := Exporter_Export (sdk env) (myScene e) in
    Some (Some bSuccess,
          set_calls (start ++ [SetBoolProp_EXP_FBX_EMBEDDED (getEmbedMedia opts);
                               FbxExporter_Export; FbxExporter_Destroy])
            (set_myErrorManager
               (myErrorManager e ++ if bSuccess then [] else [export_failed_error env]) e)).
Proof.
  intros Hmgr Hfmt. unfold writer_format, writer_name in Hfmt.
  unfold write_scene, writer_version_calls.
  destruct (parse_version (getVersion (myExportOptions e))) as [parts|] eqn:Hp;
    [|discriminate].
  cbn in Hfmt. injection Hfmt as Hfmt.
  destruct e as [mgr sc nm am dummy boss cancel errs opts ts te file strs take log].
  cbn in *. destruct mgr as [mgr|]; [|discriminate].
  unfold bind, call, modify, gets, lift, deref, when, ret, addError. cbn. rewrite Hp. cbn.
  rewrite Hfmt.
  destruct (String.length (snd parts)); cbn;
    destruct (Exporter_Initialize (sdk env) file fmt); cbn;
    try (rewrite <- ?app_assoc; reflexivity);
    destruct (Exporter_Export (sdk env) sc); cbn;
    rewrite <- ?app_assoc; cbn; rewrite ?app_nil_r; reflexivity.
Qed.

Lemma release_all_eq (e : Exporter) : release_all e = Some (tt, after_release e).
Proof.
  unfold after_release, release_calls.
  unfold release_all, deallocateQueuedStrings, call, bind, gets, modify, when, ret.
  cbn.
  destruct (is_some (myScene e)); cbn;
    destruct (is_some (mySDKManager e)); cbn;
    destruct (is_some (myNodeManager e)); cbn;
    destruct (is_some (myActionManager e)); cbn;
    rewrite <- ?app_assoc; cbn; rewrite ?app_nil_r; reflexivity.
Qed.

(** C1, amended.  When [doExport], not interrupted before it starts,
    does not find the start node (the one of the options, or the top
    network of the bundles), it records exactly one error, a fatal one,
    and returns without having exported anything: it calls no visitor,
    no conversion and no writer, and the scene holds the nodes, the
    animation data and the ambient colour it held before.  It does not
    set the cancel flag, and a [finishExport] that follows is not held
    back: when the export was not cancelled before and the version
    string of the options can be split, [finishExport] returns, having
    created the writer, given it the file version when there is one and
    called [Initialize] on the output file.  When [Initialize] succeeds
    it goes on to set the embed flag, to call [Export] and to destroy
    the writer, releases what the exporter holds and returns what
    [Export] returned; when [Initialize] fails it makes no further call
    and returns false. *)
Theorem missing_start_node_aborts (env : Env) (e : Exporter) (path : string) :
  alive e ->
  wasInterrupted (hou env) = false ->
  resolved_start_path env (myExportOptions e) = Some path ->
  findNode (hou env) path = None ->
  exists e',
    doExport env e = Some (tt, e')
    /\ myErrorManager e' = myErrorManager e ++ [start_node_error path]
    /\ (exists l, calls e' = calls e ++ l
                  /\ forallb (fun c => negb (is_export_call c)) l = true)
    /\ scene_obs content_obs e' = scene_obs content_obs e
    /\ myDidCancel e' = myDidCancel e
    /\ (myDidCancel e = false ->
        forall fmt, writer_format env (myExportOptions e) = Some fmt ->
          let file := myOutputFile e in
          let initialized := Exporter_Initialize (sdk env) file fmt in
          exists e2,
            finishExport env e'
            = Some (initialized && Exporter_Export (sdk env) (myScene e'), e2)
            /\ calls e2
               = calls e' ++ [FbxExporter_Create]
                 ++ writer_version_calls (myExportOptions e)
                 ++ [FbxExporter_Initialize file fmt]
                 ++ (if initialized
                     then [SetBoolProp_EXP_FBX_EMBEDDED (getEmbedMedia (myExportOptions e));
                           FbxExporter_Export; FbxExporter_Destroy]
                          ++ release_calls e'
                     else [])).
Proof.
  intros He Hint Hpath Hmiss.
  assert (Hb : bundles_resolve env e).
  { intros Hbundles. unfold resolved_start_path in Hpath. rewrite Hbundles in Hpath.
    destruct (bundle_top_network env (myExportOptions e)); [congruence | discriminate]. }
  destruct (doExport_returns env e He Hb) as (e' & H & He').
  exists e'. split; [exact H|].
  pose proof H as Hkept.
  frame_of (keeps (fun e => (getVersion (myExportOptions e),
                             getExportInAscii (myExportOptions e),
                             getEmbedMedia (myExportOptions e), myOutputFile e))) Hkept.
  cbn in Hkept. injection Hkept as Hversion Hascii Hembed Hfile.
  destruct (doExport_inv env e e' Hint H)
    as (e1 & init_take & e2 & e3 & e4 & H1 & H2 & H3 & H4 & ->).
  pose proof (bundle_scope_resolves env (set_myBoss (Some TheInterrupt) e) e1
                (proj1 (proj2 (proj2 He))) H1) as Hp1.
  cbn [myExportOptions set_myBoss] in Hp1. rewrite Hpath in Hp1. injection Hp1 as Hp1.
  apply (bundle_scope_nothing_exported env _ tt e1) in H1; [|cbn; auto].
  apply (set_export_take_nothing_exported env e1 init_take e2) in H2; [|cbn; auto].
  destruct H2 as (N2 & Herr2 & Hp2). cbn in Herr2, Hp2.
  apply (export_in_take_missing env e2 e3) in H3; [|rewrite Hp2, <- Hp1; exact Hmiss].
  destruct H3 as (N3 & Herr3).
  apply (restore_take_nothing_exported env init_take e3 tt e4) in H4; [|cbn; auto].
  destruct H1 as (N1 & Herr1). destruct H4 as (N4 & Herr4). cbn in Herr1, Herr4.
  assert (N : rel nothing_exported e (set_myBoss None e4)).
  { eapply (rel_trans nothing_exported); [|eapply (rel_trans nothing_exported); [exact N1|]].
    - unfold nothing_exported. clear. frame_solve.
    - eapply (rel_trans nothing_exported); [exact N2|].
      eapply (rel_trans nothing_exported); [exact N3|].
      eapply (rel_trans nothing_exported); [exact N4|].
      unfold nothing_exported. clear. frame_solve. }
  destruct N as (Ncalls & Ncontent & Ncancel). cbn in Ncontent, Ncancel.
  split; [|split; [exact Ncalls | split; [exact Ncontent | split; [exact Ncancel|]]]].
  - cbn. rewrite Herr4, Herr3, Herr2, Herr1, Hp2, <- Hp1. reflexivity.
  - intros Hc fmt Hfmt file initialized.
    set (e5 := set_myBoss None e4) in *.
    assert (Hfmt' : writer_format env (myExportOptions e5) = Some fmt).
    { unfold writer_format, writer_name in *. rewrite Hversion, Hascii. exact Hfmt. }
    assert (Hversions : writer_version_calls (myExportOptions e5)
                        = writer_version_calls (myExportOptions e)).
    { unfold writer_version_calls. rewrite Hversion. reflexivity. }
    unfold finishExport. unfold bind at 1. cbn [gets].
    assert (Hc5 : myDidCancel e5 = false) by (unfold e5; cbn; congruence).
    rewrite Hc5. cbn [negb].
    unfold bind at 1. rewrite (write_scene_eq env e5 fmt (proj1 He') Hfmt'). cbv zeta.
    rewrite Hversions, Hfile. fold file. fold initialized.
    rewrite Hembed.
    destruct initialized; cbn [negb andb].
    + unfold bind. rewrite release_all_eq. eexists. split; [reflexivity|].
      unfold after_release. cbn. rewrite <- !app_assoc. cbn. rewrite <- ?app_assoc.
      reflexivity.
    + eexists. split; [reflexivity|]. cbn. rewrite <- ?app_assoc, ?app_nil_r.
      reflexivity.
Qed.

(** The sample session asked to export [/nonexistent]: the error is
    recorded, and the file is written all the same. *)
Lemma missing_start_node_aborts_witness :
  let e := Sample.session Sample.env 0%float 1%float
             (setStartNodePath "/nonexistent" Sample.options) in
  exists e' e2,
    doExport Sample.env e = Some (tt, e')
    /\ myErrorManager e' = [start_node_error "/nonexistent"]
    /\ myDidCancel e' = false
    /\ finishExport Sample.env e' = Some (true, e2)
    /\ exists l,
         calls e2
         = calls e' ++ [FbxExporter_Create; SetFileExportVersion "FBX201800";
                        FbxExporter_Initialize "out.fbx" 0;
                        SetBoolProp_EXP_FBX_EMBEDDED false;
                        FbxExporter_Export; FbxExporter_Destroy] ++ l.
Proof.
  intros e.
  destruct (missing_start_node_aborts Sample.env e "/nonexistent")
    as (e' & H & Herr & _ & _ & Hc & Hfinish).
  - unfold alive. cbn. auto.
  - reflexivity.
  - reflexivity.
  - reflexivity.
  - destruct (Hfinish eq_refl 0%Z eq_refl) as (e2 & Hf & Hcalls).
    exists e', e2. split; [exact H|]. split; [exact Herr|]. split; [exact Hc|].
    split; [exact Hf|]. exists (release_calls e'). exact Hcalls.
Defined.

(** Against C1 as stated: the sample scene asked to export
    [/nonexistent].  The three calls leave the one fatal error in the
    sink, and the writer was created, initialized and asked to write the
    scene all the same. *)
Lemma missing_start_node_claim_fails :
  ~ missing_start_node_claim Sample.env "out.fbx" 0%float 1%float
      (setStartNodePath "/nonexistent" Sample.options) Sample.exporter.
Proof.
  intros Hclaim.
  destruct (Hclaim "/nonexistent" true
              (match export_session Sample.env (Some "out.fbx") 0%float 1%float
                       (Some (setStartNodePath "/nonexistent" Sample.options))
                       Sample.exporter with
               | Some (_, e') => e'
               | None => Sample.exporter
               end)) as (_ & Hwriter).
  - reflexivity.
  - reflexivity.
  - vm_compute. reflexivity.
  - vm_compute in Hwriter. discriminate Hwriter.
Qed.

(** * finishExport: releasing the scene and the manager *)

Lemma calls_since_app (e e' : Exporter) (l : list Call) :
  calls e' = calls e ++ l -> calls_since e e' = l.
Proof.
  intros H. unfold calls_since. rewrite H.
  rewrite skipn_app, skipn_all, Nat.sub_diag. reflexivity.
Qed.

(** [release_all] on a live exporter. *)
Lemma release_all_releases (e e' : Exporter) :
  alive e ->
  release_all e = Some (tt, e') ->
  myScene e' = None /\ mySDKManager e' = None /\ myStringsToDeallocate e' = []
  /\ calls e' = calls e ++ [FbxScene_Destroy; FbxManager_Destroy]
                 ++ map delete_string (myStringsToDeallocate e)
                 ++ [delete_NodeManager; delete_ActionManager]
  /\ myDidCancel e' = myDidCancel e
  /\ myErrorManager e' = myErrorManager e.
Proof.
  intros (Hm & Hs & Hn & Ha). destruct e; cbn in *.
  destruct mySDKManager0, myScene0, myNodeManager0, myActionManager0; try discriminate.
  unfold release_all, deallocateQueuedStrings, call, bind, gets, modify, ret. cbn.
  intros H. injection H as <-. cbn. repeat split.
  rewrite <- !app_assoc. reflexivity.
Qed.

Lemma count_calls_app (p : Call -> bool) (l1 l2 : list Call) :
  count_calls p (l1 ++ l2) = count_calls p l1 + count_calls p l2.
Proof. unfold count_calls. rewrite filter_app, length_app. reflexivity. Qed.

Lemma count_calls_none (p : Call -> bool) (l : list Call) :
  forallb (fun c => negb (p c)) l = true -> count_calls p l = 0.
Proof.
  unfold count_calls. induction l as [|c l IH]; cbn; [reflexivity|].
  destruct (p c); cbn; [discriminate | exact IH].
Qed.

Lemma write_scene_frame (env : Env) :
  respects (both (both (avoids is_scene_destroy) (avoids is_manager_destroy))
                 (both (keeps alive_obs) (keeps myStringsToDeallocate)))
           (write_scene env).
Proof. respects_auto. Qed.

(** Every return of [finishExport] but the one on a failed
    [Initialize]: when the export was cancelled, and when the writer
    was initialized, whatever [Export] answered, a live exporter is
    released. *)
Lemma finishExport_releases (env : Env) (e e' : Exporter) (b : bool) :
  alive e ->
  finishExport env e = Some (b, e') ->
  (myDidCancel e = true
   \/ forall e1, write_scene env e <> Some (None, e1)) ->
  released e e'.
Proof.
  intros He H Hpath. unfold finishExport in H. unfold bind at 1 in H. cbn [gets] in H.
  apply bind_Some in H. destruct H as (written & e1 & H1 & H).
  assert (Hw : exists bSuccess l,
             written = Some bSuccess /\ alive e1
             /\ myStringsToDeallocate e1 = myStringsToDeallocate e
             /\ calls e1 = calls e ++ l
             /\ count_calls is_scene_destroy l = 0
             /\ count_calls is_manager_destroy l = 0).
  { destruct (myDidCancel e) eqn:Ec; cbn [negb] in H1.
    - injection H1 as <- <-. exists false, []. rewrite app_nil_r. auto 10.
    - destruct Hpath as [Hc|Hinit]; [discriminate|].
      destruct written as [bSuccess|]; [|exfalso; eapply Hinit; exact H1].
      apply (write_scene_frame env e (Some bSuccess) e1) in H1; [|cbn; auto].
      destruct H1 as (((l & El & Hl) & (l' & El' & Hl')) & Halive & Hstr).
      cbn in Halive, Hstr. rewrite El in El'. apply app_inv_head in El'. subst l'.
      assert (He1 : alive e1).
      { unfold alive_obs in Halive. destruct He as (? & ? & ? & ?).
        injection Halive as E1 E2 E3 E4. unfold alive. rewrite E1, E2, E3, E4. auto. }
      exists bSuccess, l. split; [reflexivity|]. split; [exact He1|].
      repeat split; try assumption; apply count_calls_none; assumption. }
  destruct Hw as (bSuccess & l & -> & He1 & Hstr & Hcalls & Hsc & Hmg).
  apply bind_Some in H. destruct H as ([] & e2 & H2 & H). injection H as _ <-.
  destruct (release_all_releases e1 e2 He1 H2) as (Rs & Rm & Rq & Rcalls & _).
  unfold released. rewrite Hcalls, Hstr in Rcalls. rewrite <- app_assoc in Rcalls.
  rewrite (calls_since_app e e2 _ Rcalls).
  repeat split; try assumption.
  - rewrite !count_calls_app, Hsc. cbn.
    rewrite (count_calls_none is_scene_destroy (map _ _))
      by (apply forallb_delete_strings; reflexivity). reflexivity.
  - rewrite !count_calls_app, Hmg. cbn.
    rewrite (count_calls_none is_manager_destroy (map _ _))
      by (apply forallb_delete_strings; reflexivity). reflexivity.
  - intros c Hc. apply in_or_app. right. apply in_or_app. right.
    apply in_or_app. left. exact Hc.
Qed.

(** The return on a failed [Initialize]: [finishExport] answers false
    with the scene, the manager and the queued strings as they were. *)
Lemma finishExport_initialize_failure (env : Env) (e e' : Exporter) (b : bool) (e1 : Exporter) :
  myDidCancel e = false ->
  write_scene env e = Some (None, e1) ->
  finishExport env e = Some (b, e') ->
  b = false
  /\ alive_obs e' = alive_obs e
  /\ myStringsToDeallocate e' = myStringsToDeallocate e
  /\ count_calls is_scene_destroy (calls_since e e') = 0
  /\ count_calls is_manager_destroy (calls_since e e') = 0.
Proof.
  intros Hc Hw H. unfold finishExport in H. unfold bind at 1 in H. cbn [gets] in H.
  rewrite Hc in H. cbn [negb] in H. unfold bind in H. rewrite Hw in H.
  injection H as <- <-.
  apply (write_scene_frame env e None e1) in Hw; [|cbn; auto].
  destruct Hw as (((l & El & Hl) & (l' & El' & Hl')) & Halive & Hstr).
  cbn in Halive, Hstr. rewrite El in El'. apply app_inv_head in El'. subst l'.
  rewrite (calls_since_app e e1 l El).
  repeat split; try assumption; apply count_calls_none; assumption.
Qed.

(** C2, at the input where the code fails it.  The sample session was
    exported and holds one queued string; the writer cannot be
    initialized.  [finishExport] answers false, and the scene and the
    manager are still there, not destroyed, and the string is still
    queued: the exporter is not released. *)
Theorem finishExport_leaks_on_initialize_failure :
  exists e',
    finishExport failing_env (exported failing_env) = Some (false, e')
    /\ is_some (myScene e') = true
    /\ is_some (mySDKManager e') = true
    /\ myStringsToDeallocate e' = [7]
    /\ count_calls is_scene_destroy (calls_since (exported failing_env) e') = 0
    /\ count_calls is_manager_destroy (calls_since (exported failing_env) e') = 0
    /\ ~ released (exported failing_env) e'.
Proof.
  eexists. split; [vm_compute; reflexivity|].
  repeat split; try (vm_compute; reflexivity).
  intros (H & _). vm_compute in H. discriminate H.
Qed.

(** With a writer that can be initialized the same session is
    released. *)
Lemma finishExport_releases_sample :
  exists e',
    finishExport Sample.env (exported Sample.env) = Some (true, e')
    /\ released (exported Sample.env) e'.
Proof.
  eexists. split; [vm_compute; reflexivity|].
  eapply (finishExport_releases Sample.env).
  - unfold alive. vm_compute. auto.
  - vm_compute. reflexivity.
  - right. intros e1 H. vm_compute in H. discriminate H.
Qed.

(** * doExport: the animation pass *)

Lemma create_clip_stacks_obs (layer : string) (mode : EMode) (clips : list ROP_FBXExportClip) :
  forall e e' sc,
    myScene e = Some sc ->
    create_clip_stacks layer mode clips e = Some (tt, e') ->
    scene_obs anim_obs e'
    = Some (AnimLayers sc, AnimStacks sc ++ map (stack_of_clip layer mode) clips).
Proof.
  induction clips as [|c rest IH]; intros e e' sc Hsc H; cbn in H.
  - injection H as <-. unfold scene_obs. rewrite Hsc. cbn. rewrite app_nil_r. reflexivity.
  - apply bind_Some in H. destruct H as ([] & e1 & H1 & H).
    unfold modify_scene, bind, deref in H1. rewrite Hsc in H1. injection H1 as <-.
    rewrite (IH (set_myScene (Some (add_AnimStack (stack_of_clip layer mode c) sc)) e) e'
               (add_AnimStack (stack_of_clip layer mode c) sc) eq_refl H).
    cbn. rewrite <- app_assoc. reflexivity.
Qed.

Lemma export_animation_stacks (env : Env) (n : OP_Node) (e e' : Exporter) (sc : FbxScene) :
  myScene e = Some sc ->
  export_animation env n e = Some (tt, e') ->
  scene_obs anim_obs e'
  = Some (AnimLayers sc ++ ["Base Layer"],
          AnimStacks sc ++ stacks_for "Base Layer" (TimeMode (GlobalSettings sc))
                             (currentTake e) (getExportClips (myExportOptions e))).
Proof.
  intros Hsc H. unfold export_animation in H.
  unfold bind at 1 in H. cbn [gets] in H. cbv zeta in H.
  apply bind_Some in H. destruct H as ([] & e1 & H1 & H).
  unfold modify_scene, bind, deref in H1. rewrite Hsc in H1. injection H1 as <-.
  unfold bind at 1 in H. unfold deref in H. cbn [myScene set_myScene] in H.
  unfold bind at 1 in H. cbn [gets myExportOptions set_myScene] in H.
  apply bind_Some in H. destruct H as ([] & e2 & H2 & H).
  frame_of (keeps (scene_obs anim_obs)) H. cbn in H. rewrite H. clear H.
  destruct (getExportClips (myExportOptions e)) as [|c rest] eqn:Eclips.
  - cbn in H2. unfold modify_scene, bind, deref in H2. cbn in H2.
    injection H2 as <-. reflexivity.
  - change (0 <? Z.of_nat (List.length (c :: rest)))%Z with true in H2. cbv iota in H2.
    rewrite (create_clip_stacks_obs _ _ _
               (set_myScene (Some (FbxAnimLayer_Create "Base Layer" sc)) e) e2
               (FbxAnimLayer_Create "Base Layer" sc) eq_refl H2).
    reflexivity.
Qed.

(** ** Taking the passes apart *)

Lemma geometry_pass_result (env : Env) (n : OP_Node) (e e1 : Exporter) (v : GeomVisit) :
  geometry_pass env n e = Some (v, e1) ->
  v = geom_visitScene (rop env) n /\ myDidCancel e1 = geom_getDidCancel v.
Proof.
  unfold geometry_pass, visit_geometry. cbv zeta. intros H.
  apply bind_Some in H. destruct H as (v0 & e0 & H0 & H).
  apply bind_Some in H0. destruct H0 as ([] & ea & _ & H0).
  apply bind_Some in H0. destruct H0 as ([] & eb & _ & H0). injection H0 as <- _.
  apply bind_Some in H. destruct H as ([] & ec & Hc & H). injection Hc as <-.
  apply bind_Some in H. destruct H as ([] & ed & Hd & H). injection H as <- <-.
  split; [reflexivity|].
  frame_of (keeps myDidCancel) Hd. cbn in Hd. exact Hd.
Qed.

Lemma export_scene_reached (env : Env) (single : bool) (n : OP_Node) (e e' : Exporter) :
  geom_getDidCancel (geom_visitScene (rop env) n) = false ->
  export_scene env single n e = Some (tt, e') ->
  exists e1,
    geometry_pass env n e = Some (geom_visitScene (rop env) n, e1)
    /\ finish_scene env single n (geom_visitScene (rop env) n) e1 = Some (tt, e').
Proof.
  intros Hc H. unfold export_scene in H.
  apply bind_Some in H. destruct H as (v & e1 & H1 & H).
  destruct (geometry_pass_result env n e e1 v H1) as (-> & Hd).
  unfold bind at 1 in H. cbn [gets] in H. rewrite Hd, Hc in H. cbn [negb when] in H.
  exists e1. split; assumption.
Qed.

Lemma finish_scene_inv (env : Env) (single : bool) (n : OP_Node) (v : GeomVisit)
    (e e' : Exporter) :
  finish_scene env single n v e = Some (tt, e') ->
  exists e1 e2 e3 e4,
    modify_scene (SetAmbientColor (geom_getAccumAmbientColor v)) e = Some (tt, e1)
    /\ when (negb single) (export_animation env n) e1 = Some (tt, e2)
    /\ (cancelled <- gets myDidCancel ;;
        when (negb cancelled) (_ <- deref myActionManager ;; call performPostActions)) e2
       = Some (tt, e3)
    /\ setup_axis_system env e3 = Some (tt, e4)
    /\ setup_unit_system env e4 = Some (tt, e').
Proof.
  intros H. unfold finish_scene in H.
  apply bind_Some in H. destruct H as ([] & e1 & H1 & H).
  apply bind_Some in H. destruct H as ([] & e2 & H2 & H).
  unfold bind at 1 in H. cbn [gets] in H.
  apply bind_Some in H. destruct H as ([] & e3 & H3 & H).
  apply bind_Some in H. destruct H as ([] & e4 & H4 & H5).
  exists e1, e2, e3, e4. repeat split; assumption.
Qed.

Lemma export_in_take_inv (env : Env) (e e' : Exporter) (n : OP_Node) (single : bool) (e1 : Exporter) :
  prepare_scene env e = Some (single, e1) ->
  findNode (hou env) (start_path_obs e1) = Some n ->
  export_in_take env e = Some (tt, e') ->
  export_scene env single n e1 = Some (tt, e').
Proof.
  intros Hp Hn H. unfold export_in_take, bind in H. rewrite Hp in H.
  cbn [gets] in H. fold (start_path_obs e1) in H. rewrite Hn in H. exact H.
Qed.

Lemma set_export_take_current (env : Env) (e e' : Exporter) (init_take : option string) :
  set_export_take env e = Some (init_take, e') ->
  currentTake e' = export_take env e.
Proof.
  unfold set_export_take, export_take, do_takeSet, call, bind, gets, modify, ret. cbn.
  destruct (String.length (getExportTakeName (myExportOptions e)) =? 0)%nat;
    intros H; injection H as _ <-; reflexivity.
Qed.

(** The animation data after a [doExport] that reaches the animation
    pass. *)
Lemma doExport_animation (env : Env) (e e' : Exporter) (path : string) (n : OP_Node)
    (sc : FbxScene) :
  alive e ->
  myScene e = Some sc ->
  wasInterrupted (hou env) = false ->
  SYSisEqual (hou env) (myStartTime e) (myEndTime e) = false ->
  resolved_start_path env (myExportOptions e) = Some path ->
  findNode (hou env) path = Some n ->
  geom_getDidCancel (geom_visitScene (rop env) n) = false ->
  doExport env e = Some (tt, e') ->
  scene_obs anim_obs e'
  = Some (AnimLayers sc ++ ["Base Layer"],
          AnimStacks sc
          ++ stacks_for "Base Layer"
               (time_mode_of (hou env) (getSamplesPerSec (hou env)))
               (export_take env e) (getExportClips (myExportOptions e))).
Proof.
  intros He Hsc Hint Hanim Hpath Hfind Hgeom H.
  destruct (doExport_inv env e e' Hint H)
    as (e1 & init_take & e2 & e3 & e4 & H1 & H2 & H3 & H4 & ->).
  pose proof (bundle_scope_resolves env (set_myBoss (Some TheInterrupt) e) e1
                (proj1 (proj2 (proj2 He))) H1) as Hp1.
  cbn [myExportOptions set_myBoss] in Hp1. rewrite Hpath in Hp1. injection Hp1 as Hp1.
  frame_of (keeps (fun e => (times_obs e, scene_obs anim_obs e, currentTake e,
                             getExportClips (myExportOptions e),
                             getExportTakeName (myExportOptions e)))) H1.
  cbn in H1. injection H1 as Hts1 Hte1 Hs1 Hk1 Hc1 Hn1.
  pose proof (set_export_take_current env e1 e2 init_take H2) as Htake.
  frame_of (keeps (fun e => (times_obs e, scene_obs anim_obs e,
                             getExportClips (myExportOptions e), start_path_obs e))) H2.
  cbn in H2. injection H2 as Hts2 Hte2 Hs2 Hc2 Hp2.
  assert (Hanim2 : SYSisEqual (hou env) (myStartTime e2) (myEndTime e2) = false)
    by (rewrite Hts2, Hte2, Hts1, Hte1; exact Hanim).
  unfold export_in_take in H3. apply bind_Some in H3. destruct H3 as (single & e2a & Hprep & H3).
  pose proof (prepare_scene_result env e2 e2a single Hprep) as Hsingle.
  rewrite Hanim2 in Hsingle. subst single.
  pose proof (prepare_scene_animated env e2 e2a false Hanim2 Hprep) as Hmode.
  frame_of (keeps (fun e => (scene_obs anim_obs e, currentTake e,
                             getExportClips (myExportOptions e), start_path_obs e))) Hprep.
  cbn in Hprep. injection Hprep as Hs2a Hk2a Hc2a Hp2a.
  unfold bind at 1 in H3. cbn [gets] in H3. fold (start_path_obs e2a) in H3.
  rewrite Hp2a, Hp2, <- Hp1, Hfind in H3.
  destruct (export_scene_reached env false n e2a e3 Hgeom H3) as (e2b & Hpass & Hfin).
  frame_of (keeps (fun e => (anim_inputs e, is_some (myScene e)))) Hpass.
  cbn in Hpass. injection Hpass as Hs2b Hm2b Hk2b Hc2b Hsome.
  destruct (finish_scene_inv env false n _ e2b e3 Hfin)
    as (ea & eb & ec & ed & Ha & Hb & Hc & Hd & Hu).
  frame_of (keeps (fun e => (anim_inputs e, is_some (myScene e)))) Ha.
  cbn in Ha. injection Ha as Hsa Hma Hka Hca Hsomea.
  cbn [negb when] in Hb.
  frame_of (keeps (scene_obs anim_obs)) Hc. frame_of (keeps (scene_obs anim_obs)) Hd.
  frame_of (keeps (scene_obs anim_obs)) Hu. frame_of (keeps (scene_obs anim_obs)) H4.
  cbn in Hc, Hd, Hu, H4.
  assert (Hfinal : scene_obs anim_obs (set_myBoss None e4) = scene_obs anim_obs eb)
    by (unfold scene_obs in *; cbn; congruence).
  rewrite Hfinal.
  assert (Hsc2 : scene_obs anim_obs ea = Some (AnimLayers sc, AnimStacks sc)).
  { rewrite Hsa, Hs2b, Hs2a, Hs2, Hs1. unfold scene_obs. cbn. rewrite Hsc. reflexivity. }
  assert (Hmodea : scene_obs (fun sc => TimeMode (GlobalSettings sc)) ea
                   = Some (time_mode_of (hou env) (getSamplesPerSec (hou env)))).
  { rewrite Hma, Hm2b. unfold scene_obs, time_obs in *.
    destruct (myScene e2a); [|discriminate]. cbn in *. congruence. }
  destruct (myScene ea) as [sca|] eqn:Esca;
    [|unfold scene_obs in Hsc2; rewrite Esca in Hsc2; discriminate].
  rewrite (export_animation_stacks env n ea eb sca Esca Hb).
  unfold scene_obs in Hsc2, Hmodea. rewrite Esca in Hsc2, Hmodea. cbn in Hsc2, Hmodea.
  unfold anim_obs in Hsc2. injection Hsc2 as -> ->. injection Hmodea as ->.
  rewrite Hka, Hk2b, Hk2a, Htake, Hca, Hc2b, Hc2a, Hc2.
  unfold export_take. cbn in Hk1, Hc1, Hn1. rewrite Hk1, Hc1, Hn1. reflexivity.
Qed.

Lemma clip_stacks_have_time_spans (layer : string) (mode : EMode)
    (clips : list ROP_FBXExportClip) :
  Forall has_time_spans (map (stack_of_clip layer mode) clips).
Proof.
  induction clips as [|c rest IH]; cbn; constructor; [|exact IH].
  split; discriminate.
Qed.

(** C7, amended.  A [doExport] that reaches the animation pass (an
    animated export, not interrupted, whose start node is found and
    whose geometry pass is not cancelled) creates exactly one animation
    layer, "Base Layer", and these stacks, each with that layer as its
    member: with clips in the options, one stack per clip, in their
    order, named after the clip, with the local and the reference time
    span both set to the frame range of the clip in the time mode of the
    scene; without clips, a single stack named after the take that is
    current during the export, which is given no time span. *)
Theorem animation_layer_and_stacks (env : Env) (e : Exporter) (path : string)
    (n : OP_Node) (sc : FbxScene) :
  alive e ->
  myScene e = Some sc ->
  wasInterrupted (hou env) = false ->
  SYSisEqual (hou env) (myStartTime e) (myEndTime e) = false ->
  resolved_start_path env (myExportOptions e) = Some path ->
  findNode (hou env) path = Some n ->
  geom_getDidCancel (geom_visitScene (rop env) n) = false ->
  let mode := time_mode_of (hou env) (getSamplesPerSec (hou env)) in
  let clips := getExportClips (myExportOptions e) in
  exists e',
    doExport env e = Some (tt, e')
    /\ scene_obs AnimLayers e' = Some (AnimLayers sc ++ ["Base Layer"])
    /\ scene_obs AnimStacks e'
       = Some (AnimStacks sc ++ stacks_for "Base Layer" mode (export_take env e) clips)
    /\ (clips <> [] ->
        stacks_for "Base Layer" mode (export_take env e) clips
        = map (stack_of_clip "Base Layer" mode) clips
        /\ Forall has_time_spans (map (stack_of_clip "Base Layer" mode) clips))
    /\ (clips = [] ->
        stacks_for "Base Layer" mode (export_take env e) clips
        = [stack_of_take "Base Layer" (export_take env e)]
        /\ LocalTimeSpan (stack_of_take "Base Layer" (export_take env e)) = None
        /\ ReferenceTimeSpan (stack_of_take "Base Layer" (export_take env e)) = None).
Proof.
  intros He Hsc Hint Hanim Hpath Hfind Hgeom mode clips.
  assert (Hb : bundles_resolve env e).
  { intros Hbundles. unfold resolved_start_path in Hpath. rewrite Hbundles in Hpath.
    destruct (bundle_top_network env (myExportOptions e)); [congruence | discriminate]. }
  destruct (doExport_returns env e He Hb) as (e' & H & _).
  exists e'. split; [exact H|].
  pose proof (doExport_animation env e e' path n sc He Hsc Hint Hanim Hpath Hfind Hgeom H)
    as Hobs.
  unfold scene_obs, anim_obs in *. destruct (myScene e') as [sc'|]; [|discriminate].
  cbn in *. injection Hobs as -> ->.
  split; [reflexivity|]. split; [reflexivity|]. split.
  - intros Hne. split; [|apply clip_stacks_have_time_spans].
    unfold stacks_for. fold clips. destruct clips; [congruence | reflexivity].
  - intros ->. repeat split.
Qed.

(** One second of the sample scene with the clips "walk" and "run". *)
Lemma animation_layer_and_stacks_witness :
  let e := Sample.session Sample.env 0%float 1%float clip_options in
  exists e',
    doExport Sample.env e = Some (tt, e')
    /\ scene_obs AnimLayers e' = Some ["Base Layer"]
    /\ scene_obs AnimStacks e'
       = Some (map (stack_of_clip "Base Layer" eFrames24) (getExportClips clip_options)).
Proof.
  intros e.
  destruct (animation_layer_and_stacks Sample.env e "/obj" Sample.obj
              (FbxScene_Create Sample.fbxsdk))
    as (e' & H & Hl & Hs & _).
  - unfold alive. cbn. auto.
  - reflexivity.
  - reflexivity.
  - vm_compute. reflexivity.
  - reflexivity.
  - reflexivity.
  - reflexivity.
  - exists e'. split; [exact H|]. split; [exact Hl|].
    rewrite Hs. vm_compute. reflexivity.
Defined.

(** Against C7 as stated: one second of the sample scene without clips.
    The one stack, "Main", has no local and no reference time span. *)
Lemma animation_stacks_claim_fails :
  ~ animation_stacks_claim Sample.env
      (Sample.session Sample.env 0%float 1%float Sample.options).
Proof.
  intros Hclaim.
  destruct (doExport Sample.env (Sample.session Sample.env 0%float 1%float Sample.options))
    as [[[] e']|] eqn:E; [|vm_compute in E; discriminate E].
  destruct (myScene e') as [sc'|] eqn:Esc.
  - destruct (Hclaim e' sc' E Esc) as (_ & Hstacks & Hspans).
    rewrite Hstacks in Hspans.
    change (getExportClips (myExportOptions (Sample.session Sample.env 0%float 1%float
                                               Sample.options)))
      with (@nil ROP_FBXExportClip) in Hspans.
    cbn [stacks_for] in Hspans.
    apply Forall_inv in Hspans. destruct Hspans as (Hlocal & _).
    apply Hlocal. reflexivity.
  - vm_compute in E. injection E as <-. discriminate Esc.
Qed.

(** * doExport: the unit system *)

Lemma doExport_no_unit_request (env : Env) :
  respects (both (given unit_request_obs (fun r => fst r = false))
                 (both (keeps (scene_obs unit_obs)) (keeps unit_calls)))
           (doExport env).
Proof. respects_auto. Qed.

Lemma setup_unit_system_converts (env : Env) (e e' : Exporter) :
  is_some (myScene e) = true ->
  getConvertUnits (myExportOptions e) = true ->
  setup_unit_system env e = Some (tt, e') ->
  scene_obs unit_obs e' = Some (hou_units env, Some (hou_units env))
  /\ unit_calls e'
     = unit_calls e ++ unit_conversion_calls (getconvertUnitTo (myExportOptions e)).
Proof.
  intros Hsc Hflag. destruct (myScene e) as [sc|] eqn:Esc; [|discriminate].
  unfold setup_unit_system, modify_settings, modify_scene, call, bind, deref, gets, modify.
  rewrite Hflag. cbn. rewrite Esc. cbn.
  unfold unit_conversion_calls, unit_calls.
  destruct (unit_of (getconvertUnitTo (myExportOptions e))); cbn;
    intros H; injection H as <-; cbn; split; try reflexivity.
  - rewrite filter_app. reflexivity.
  - rewrite app_nil_r. reflexivity.
Qed.

(** The unit records and the unit conversions after a [doExport] that
    reaches the end of its scene block. *)
Lemma doExport_units (env : Env) (e e' : Exporter) (path : string) (n : OP_Node) :
  alive e ->
  getConvertUnits (myExportOptions e) = true ->
  wasInterrupted (hou env) = false ->
  resolved_start_path env (myExportOptions e) = Some path ->
  findNode (hou env) path = Some n ->
  geom_getDidCancel (geom_visitScene (rop env) n) = false ->
  doExport env e = Some (tt, e') ->
  scene_obs unit_obs e' = Some (hou_units env, Some (hou_units env))
  /\ unit_calls e'
     = unit_calls e ++ unit_conversion_calls (getconvertUnitTo (myExportOptions e)).
Proof.
  intros He Hflag Hint Hpath Hfind Hgeom H.
  destruct (doExport_inv env e e' Hint H)
    as (e1 & init_take & e2 & e3 & e4 & H1 & H2 & H3 & H4 & ->).
  pose proof (bundle_scope_resolves env (set_myBoss (Some TheInterrupt) e) e1
                (proj1 (proj2 (proj2 He))) H1) as Hp1.
  cbn [myExportOptions set_myBoss] in Hp1. rewrite Hpath in Hp1. injection Hp1 as Hp1.
  frame_of (keeps (fun e => (unit_request_obs e, unit_calls e, is_some (myScene e)))) H1.
  cbn in H1. injection H1 as Hf1 Hu1 Hc1 Hs1.
  frame_of (keeps (fun e => (unit_request_obs e, unit_calls e, is_some (myScene e),
                             start_path_obs e))) H2.
  cbn in H2. injection H2 as Hf2 Hu2 Hc2 Hs2 Hp2.
  unfold export_in_take in H3. apply bind_Some in H3.
  destruct H3 as (single & e2a & Hprep & H3).
  frame_of (keeps (fun e => (unit_request_obs e, unit_calls e, is_some (myScene e),
                             start_path_obs e))) Hprep.
  cbn in Hprep. injection Hprep as Hf2a Hu2a Hc2a Hs2a Hp2a.
  unfold bind at 1 in H3. cbn [gets] in H3. fold (start_path_obs e2a) in H3.
  rewrite Hp2a, Hp2, <- Hp1, Hfind in H3.
  destruct (export_scene_reached env single n e2a e3 Hgeom H3) as (e2b & Hpass & Hfin).
  frame_of (keeps (fun e => (unit_request_obs e, unit_calls e, is_some (myScene e)))) Hpass.
  cbn in Hpass. injection Hpass as Hf2b Hu2b Hc2b Hs2b.
  destruct (finish_scene_inv env single n _ e2b e3 Hfin)
    as (ea & eb & ec & ed & Ha & Hb & Hc & Hd & Hu).
  frame_of (keeps (fun e => (unit_request_obs e, unit_calls e, is_some (myScene e)))) Ha.
  frame_of (keeps (fun e => (unit_request_obs e, unit_calls e, is_some (myScene e)))) Hb.
  frame_of (keeps (fun e => (unit_request_obs e, unit_calls e, is_some (myScene e)))) Hc.
  frame_of (keeps (fun e => (unit_request_obs e, unit_calls e, is_some (myScene e)))) Hd.
  cbn in Ha, Hb, Hc, Hd.
  injection Ha as Hfa Hua Hca Hsa. injection Hb as Hfb Hub Hcb Hsb.
  injection Hc as Hfc Huc Hcc Hsc. injection Hd as Hfd Hud Hcd Hsd.
  frame_of (keeps (fun e => (scene_obs unit_obs e, unit_calls e))) H4.
  cbn in H4. injection H4 as Ho4 Hc4.
  assert (Hflagd : getConvertUnits (myExportOptions ed) = true) by congruence.
  assert (Hscd : is_some (myScene ed) = true).
  { destruct He as (_ & Hsome & _). cbn in Hs1. congruence. }
  destruct (setup_unit_system_converts env ed e3 Hscd Hflagd Hu) as (Hobs & Hcalls).
  split.
  - unfold scene_obs in *. cbn. rewrite Ho4. exact Hobs.
  - unfold unit_calls in *. cbn in *. rewrite Hc4, Hcalls. congruence.
Qed.

(** C8, amended.  Without a request for unit conversion [doExport]
    leaves the unit records of the scene as they were and rescales
    nothing.  With one, a [doExport] that reaches the end of its scene
    block (not interrupted, start node found, geometry pass not
    cancelled) sets both the current and the original unit of the scene
    to the unit of the host (its unit length times 100, in centimeters)
    and then asks the SDK to convert the scene to the requested unit,
    millimeter through mile, whether or not that is the unit the scene
    already has; for a unit code that is none of the eight, it asks for
    no conversion. *)
Theorem unit_conversion_always_requested (env : Env) (e : Exporter) :
  alive e -> bundles_resolve env e ->
  exists e',
    doExport env e = Some (tt, e')
    /\ (getConvertUnits (myExportOptions e) = false ->
        scene_obs unit_obs e' = scene_obs unit_obs e /\ unit_calls e' = unit_calls e)
    /\ (getConvertUnits (myExportOptions e) = true ->
        wasInterrupted (hou env) = false ->
        forall path n,
          resolved_start_path env (myExportOptions e) = Some path ->
          findNode (hou env) path = Some n ->
          geom_getDidCancel (geom_visitScene (rop env) n) = false ->
          scene_obs unit_obs e' = Some (hou_units env, Some (hou_units env))
          /\ unit_calls e'
             = unit_calls e
               ++ unit_conversion_calls (getconvertUnitTo (myExportOptions e))).
Proof.
  intros He Hb. destruct (doExport_returns env e He Hb) as (e' & H & _).
  exists e'. split; [exact H|]. split.
  - intros Hflag.
    destruct (doExport_no_unit_request env e tt e') as (_ & Hobs & Hcalls).
    + cbn. auto.
    + exact H.
    + split; [exact Hobs | exact Hcalls].
  - intros Hflag Hint path n Hpath Hfind Hgeom.
    eapply doExport_units; eassumption.
Qed.

(** The sample scene, whose host unit is the centimeter, asked to
    convert to centimeters: the conversion is requested. *)
Lemma unit_conversion_always_requested_witness :
  let e := Sample.session Sample.env 0%float 0%float cm_options in
  exists e',
    doExport Sample.env e = Some (tt, e')
    /\ scene_obs unit_obs e' = Some (cm, Some cm)
    /\ unit_calls e' = [Unit_ConvertScene cm].
Proof.
  intros e.
  destruct (unit_conversion_always_requested Sample.env e) as (e' & H & _ & Hconv).
  - unfold alive. cbn. auto.
  - intros Hb. discriminate Hb.
  - destruct (Hconv eq_refl eq_refl "/obj" Sample.obj eq_refl eq_refl eq_refl)
      as (Hobs & Hcalls).
    exists e'. split; [exact H|]. split.
    + rewrite Hobs. vm_compute. reflexivity.
    + rewrite Hcalls. reflexivity.
Defined.

(** Against C8 as stated: the same export.  The fresh scene is in
    centimeters, the host unit is the centimeter and centimeters are
    asked for, and [ConvertScene] is called all the same. *)
Lemma unit_short_circuit_claim_fails :
  ~ unit_short_circuit_claim Sample.env
      (Sample.session Sample.env 0%float 0%float cm_options).
Proof.
  intros Hclaim.
  destruct (doExport Sample.env (Sample.session Sample.env 0%float 0%float cm_options))
    as [[[] e']|] eqn:E; [|vm_compute in E; discriminate E].
  specialize (Hclaim e' (FbxScene_Create Sample.fbxsdk) cm eq_refl E eq_refl eq_refl).
  assert (Hcalls : unit_calls e' = [Unit_ConvertScene cm])
    by (vm_compute in E; injection E as <-; reflexivity).
  rewrite Hcalls in Hclaim.
  assert (Hno : [Unit_ConvertScene cm] = []); [|discriminate Hno].
  apply Hclaim; vm_compute; reflexivity.
Qed.

(** * doExport: the top network of the bundles *)

Lemma OP_Node_eqb_eq (a b : OP_Node) : OP_Node_eqb a b = true <-> a = b.
Proof.
  unfold OP_Node_eqb. destruct (list_eq_dec string_dec a b); split; congruence.
Qed.

Lemma OP_Node_eqb_refl (a : OP_Node) : OP_Node_eqb a a = true.
Proof. apply OP_Node_eqb_eq. reflexivity. Qed.

Lemma is_inside_length (n t : OP_Node) :
  is_inside n t = true -> List.length t < List.length n.
Proof.
  induction n as [|x p IH]; cbn; [discriminate|].
  intros H. apply orb_true_iff in H. destruct H as [H|H].
  - apply OP_Node_eqb_eq in H. subst. lia.
  - apply IH in H. lia.
Qed.

Lemma is_inside_parent (x : string) (p : OP_Node) : is_inside (x :: p) p = true.
Proof. cbn. rewrite OP_Node_eqb_refl. reflexivity. Qed.

Lemma is_inside_up (n : OP_Node) (x : string) (p : OP_Node) :
  is_inside n (x :: p) = true -> is_inside n p = true.
Proof.
  induction n as [|y n' IH]; cbn; [discriminate|].
  intros H. apply orb_true_iff in H. apply orb_true_iff. right. destruct H as [H|H].
  - apply OP_Node_eqb_eq in H. subst. apply is_inside_parent.
  - apply IH. exact H.
Qed.

Lemma is_inside_or_self_up (n : OP_Node) (x : string) (p : OP_Node) :
  is_inside_or_self n (x :: p) = true -> is_inside n p = true.
Proof.
  unfold is_inside_or_self. intros H. apply orb_true_iff in H. destruct H as [H|H].
  - apply OP_Node_eqb_eq in H. subst. apply is_inside_parent.
  - eapply is_inside_up. exact H.
Qed.

Section Containment.

Variable h : Houdini.
Variable obj : OP_Node.
Hypothesis sound : containment_sound h.
Hypothesis complete : containment_complete h.

Lemma contained_up (n : OP_Node) (x : string) (p : OP_Node) :
  getIsContainedBy h n (Some (x :: p)) = true -> getIsContainedBy h n (Some p) = true.
Proof. intros H. apply complete. eapply is_inside_or_self_up. apply sound. exact H. Qed.

Lemma contains_all_up (seen : list OP_Node) (x : string) (p : OP_Node) :
  contains_all h (x :: p) seen = true -> contains_all h p seen = true.
Proof.
  unfold contains_all. rewrite !forallb_forall. intros H n Hn.
  eapply contained_up. apply H. exact Hn.
Qed.

Lemma inside_object_network_contained (n : OP_Node) :
  inside_object_network h obj n -> getIsContainedBy h n (Some obj) = true.
Proof.
  intros (p & Hp & Hc). destruct n as [|x p']; [discriminate|]. injection Hp as ->.
  apply complete. cbn. apply sound in Hc. exact Hc.
Qed.

Lemma spec_walk_up_hit (seen : list OP_Node) (top : OP_Node) :
  contains_all h top seen = true -> spec_walk_up h seen top = Some top.
Proof. intros H. destruct top; cbn; rewrite H; reflexivity. Qed.

(** One turn of the loop: the climb of [doExport] and the walk of the
    specification reach the same network. *)
Lemma climb_refines (seen : list OP_Node) (n : OP_Node) :
  getIsContainedBy h n (Some obj) = true ->
  forall t,
    is_inside_or_self t obj = true ->
    contains_all h t seen = true ->
    exists t',
      climb_to_container h (Some obj) n t = Some (Some t')
      /\ spec_walk_up h (seen ++ [n]) t = Some t'
      /\ is_inside_or_self t' obj = true
      /\ contains_all h t' (seen ++ [n]) = true.
Proof.
  intros Hn. induction t as [|x p IH]; intros Ht Hseen.
  - unfold is_inside_or_self in Ht. cbn in Ht. rewrite orb_false_r in Ht.
    pose proof Ht as Hobj. apply OP_Node_eqb_eq in Hobj. subst obj.
    exists []. cbn. unfold contains_all in *. rewrite forallb_app, Hseen. cbn. rewrite Hn.
    cbn. auto.
  - destruct (getIsContainedBy h n (@Some OP_Node (x :: p))) eqn:Ec.
    + assert (Hall : contains_all h (x :: p) (seen ++ [n]) = true).
      { unfold contains_all in *. rewrite forallb_app, Hseen. cbn. rewrite Ec.
        reflexivity. }
      exists (x :: p). cbn [climb_to_container spec_walk_up]. rewrite Ec, Hall.
      rewrite andb_false_r. auto.
    + assert (Hnone : contains_all h (x :: p) (seen ++ [n]) = false).
      { unfold contains_all. rewrite forallb_app. cbn. rewrite Ec.
        apply andb_false_r. }
      assert (Hne : OP_Node_eqb (x :: p) obj = false).
      { destruct (OP_Node_eqb (x :: p) obj) eqn:E; [|reflexivity].
        apply OP_Node_eqb_eq in E. subst obj. congruence. }
      assert (Hp : is_inside_or_self p obj = true).
      { unfold is_inside_or_self in Ht. rewrite Hne in Ht. cbn in Ht. exact Ht. }
      destruct (IH Hp (contains_all_up seen x p Hseen)) as (t' & H1 & H2 & H3 & H4).
      exists t'. cbn [climb_to_container spec_walk_up ptr_eqb].
      rewrite Hne, Ec, Hnone. cbn. auto.
Qed.

(** The turns after the first. *)
Lemma turns_refine (nodes : list OP_Node) :
  Forall (inside_object_network h obj) nodes ->
  forall seen t,
    seen <> [] ->
    is_inside_or_self t obj = true ->
    contains_all h t seen = true ->
    exists t',
      top_network_after h (Some obj) nodes (Some t) = Some (Some t')
      /\ spec_common_network h seen (Some t) nodes = Some t'
      /\ is_inside_or_self t' obj = true.
Proof.
  induction 1 as [|n rest Hn Hrest IH]; intros seen t Hseen Ht Hall.
  - exists t. cbn. auto.
  - destruct (climb_refines seen n (inside_object_network_contained n Hn) t Ht Hall)
      as (t1 & H1 & H2 & H3 & H4).
    destruct (IH (seen ++ [n]) t1) as (t' & H5 & H6 & H7); try assumption.
    { destruct seen; discriminate. }
    exists t'. cbn [top_network_after update_top_network spec_common_network].
    rewrite H1. destruct seen as [|s0 seen0]; [congruence|]. rewrite H2. auto.
Qed.

(** On nodes inside the object network, the loop of [doExport] finds
    the start network of the specification. *)
Lemma top_network_refines (nodes : list OP_Node) :
  Forall (inside_object_network h obj) nodes ->
  match top_network_after h (Some obj) nodes None with
  | Some (Some t) => Some t
  | Some None => Some obj
  | None => None
  end = Some (spec_start_network h obj nodes).
Proof.
  intros Hall. destruct Hall as [|first rest Hfirst Hrest]; [reflexivity|].
  pose proof Hfirst as (p0 & Hp0 & Hc0).
  destruct first as [|x p]; [discriminate|]. injection Hp0 as ->.
  destruct (turns_refine rest Hrest [x :: p0] p0) as (t' & H1 & H2 & H3).
  - discriminate.
  - apply sound. exact Hc0.
  - unfold contains_all. cbn. rewrite (complete _ _ (is_inside_parent x p0)). reflexivity.
  - cbn [top_network_after update_top_network getParent]. rewrite Hc0. cbn [negb].
    rewrite H1. unfold spec_start_network.
    cbn [spec_common_network app getParent].
    rewrite spec_walk_up_hit
      by (unfold contains_all; cbn [forallb];
          rewrite (complete _ _ (is_inside_parent x p0)); reflexivity).
    unfold is_inside_or_self in H3. apply orb_true_iff in H3. destruct H3 as [H3|H3].
    + apply OP_Node_eqb_eq in H3. subst t'. unfold OP_Node in *. rewrite H2.
      destruct (getIsContainedBy h obj (Some obj)); reflexivity.
    + pose proof (complete _ _ H3) as Hc. unfold OP_Node in *. rewrite H2, Hc.
      reflexivity.
Qed.

End Containment.

Lemma climb_stop (h : Houdini) (obj_net : option OP_Node) (n top : OP_Node) :
  getIsContainedBy h n (Some top) = true ->
  climb_to_container h obj_net n top = Some (Some top).
Proof. intros H. destruct top; cbn; rewrite H, andb_false_r; reflexivity. Qed.

(** The two cases the specification singles out. *)
Lemma two_networks (h : Houdini) (obj N1 : OP_Node) (a b n2 : string) :
  containment_sound h -> containment_complete h ->
  a <> n2 ->
  getIsContainedBy h N1 (Some obj) = true ->
  getIsContainedBy h (n2 :: N1) (Some obj) = true ->
  top_network_after h (Some obj) [a :: N1; b :: n2 :: N1] None = Some (Some N1)
  /\ top_network_after h (Some obj) [b :: n2 :: N1; a :: N1] None = Some (Some N1).
Proof.
  intros sound complete Hab H1 H2. split.
  - cbn [top_network_after update_top_network getParent]. rewrite H1.
    cbn [negb top_network_after update_top_network].
    rewrite climb_stop; [reflexivity|].
    apply complete. eapply is_inside_up. apply is_inside_parent.
  - cbn [top_network_after update_top_network getParent]. rewrite H2.
    cbn [negb top_network_after update_top_network climb_to_container ptr_eqb].
    assert (Hne : OP_Node_eqb (n2 :: N1) obj = false).
    { destruct (OP_Node_eqb (n2 :: N1) obj) eqn:E; [|reflexivity].
      apply OP_Node_eqb_eq in E. subst obj. apply sound in H1.
      unfold is_inside_or_self in H1. apply orb_true_iff in H1. destruct H1 as [H1|H1].
      - apply OP_Node_eqb_eq in H1. apply (f_equal (@List.length string)) in H1.
        cbn in H1. lia.
      - apply is_inside_length in H1. cbn in H1. lia. }
    assert (Hout : getIsContainedBy h (a :: N1) (@Some OP_Node (n2 :: N1)) = false).
    { destruct (getIsContainedBy h (a :: N1) (@Some OP_Node (n2 :: N1))) eqn:E;
        [|reflexivity].
      apply sound in E. unfold is_inside_or_self in E. apply orb_true_iff in E.
      destruct E as [E|E].
      - apply OP_Node_eqb_eq in E. congruence.
      - apply is_inside_length in E. cbn in E. lia. }
    rewrite Hne, Hout. cbn [negb andb].
    rewrite climb_stop; [reflexivity|]. apply complete. apply is_inside_parent.
Qed.

Lemma one_network (h : Houdini) (obj N1 : OP_Node) (nodes : list OP_Node) :
  containment_complete h ->
  getIsContainedBy h N1 (Some obj) = true ->
  nodes <> [] ->
  Forall (fun n => getParent n = Some N1) nodes ->
  top_network_after h (Some obj) nodes None = Some (Some N1).
Proof.
  intros complete H1 Hne Hall. destruct Hall as [|first rest Hfirst Hrest]; [congruence|].
  cbn [top_network_after update_top_network]. rewrite Hfirst, H1. cbn [negb].
  clear Hne Hfirst. change (top_network_after h (Some obj) rest (Some N1) = Some (Some N1)). induction Hrest as [|n rest Hn Hrest IH]; [reflexivity|].
  cbn [top_network_after update_top_network].
  destruct n as [|x p]; [discriminate|]. injection Hn as ->.
  rewrite climb_stop; [exact IH|]. apply complete. apply is_inside_parent.
Qed.

(** Where the specification and the bundle block agree: when every
    matched node has a parent network that the host reports as
    contained by [/obj], the block returns, with as start network the
    one the specification words: for each matched node in turn, parent
    links are walked upward until a network that contains all matched
    nodes so far, and the object root stands in when no bundle matches
    or no common network is narrower than it.  In particular, for a
    node under a network N1 and a node under a child network of N1, in
    either order, the start network is N1, and for nodes that are all
    directly under N1 it is N1. *)
Lemma start_network_of_nodes_inside (env : Env) (e : Exporter) (nm : ROP_FBXNodeManager)
    (obj : OP_Node) :
  myNodeManager e = Some nm ->
  findNode (hou env) "/obj" = Some obj ->
  containment_sound (hou env) ->
  containment_complete (hou env) ->
  let matched := matched_nodes (hou env)
                   (strip (hou env) (getBundlesString (myExportOptions e)) "@")
                   (getBundles (hou env)) in
  Forall (inside_object_network (hou env) obj) matched ->
  exists top e',
    export_bundles env e = Some (top, e')
    /\ start_path_obs e' = getFullPath (hou env) top
    /\ top = spec_start_network (hou env) obj matched
    /\ (matched = [] -> top = obj)
    /\ (forall N1 a b n2,
           a <> n2 ->
           matched = [a :: N1; b :: n2 :: N1] \/ matched = [b :: n2 :: N1; a :: N1] ->
           top = N1)
    /\ (forall N1,
           matched <> [] -> Forall (fun n => getParent n = Some N1) matched -> top = N1).
Proof.
  intros Hnm Hobj sound complete matched Hall.
  pose proof (top_network_refines (hou env) obj sound complete matched Hall) as Href.
  assert (Htop : bundle_top_network env (myExportOptions e)
                 = Some (spec_start_network (hou env) obj matched)).
  { unfold bundle_top_network. rewrite Hobj. exact Href. }
  rewrite (export_bundles_eq env e nm Hnm), Htop.
  eexists _, _. split; [reflexivity|]. split; [reflexivity|]. split; [reflexivity|].
  assert (Hcode : forall t, top_network_after (hou env) (Some obj) matched None = Some (Some t) ->
                            spec_start_network (hou env) obj matched = t).
  { intros t Ht. rewrite Ht in Href. congruence. }
  split; [|split].
  - intros Hnil. rewrite Hnil. reflexivity.
  - intros N1 a b n2 Hab Hshape. apply Hcode.
    assert (H1 : getIsContainedBy (hou env) N1 (Some obj) = true
                 /\ getIsContainedBy (hou env) (n2 :: N1) (Some obj) = true).
    { destruct Hshape as [Hs|Hs]; rewrite Hs in Hall;
        inversion Hall as [|? ? (p1 & Hp1 & Hc1) Hall']; subst;
        inversion Hall' as [|? ? (p2 & Hp2 & Hc2) _]; subst;
        cbn in Hp1, Hp2; injection Hp1 as <-; injection Hp2 as <-; auto. }
    destruct H1 as (H1 & H2).
    destruct (two_networks (hou env) obj N1 a b n2 sound complete Hab H1 H2) as (Ha & Hb).
    destruct Hshape as [-> | ->]; assumption.
  - intros N1 Hne Hsame. apply Hcode. apply one_network; try assumption.
    destruct matched as [|first rest] eqn:Em; [congruence|].
    inversion Hall as [|? ? (p & Hp & Hc) _]; subst.
    inversion Hsame as [|? ? Hp' _]; subst. congruence.
Qed.

Lemma sample_containment (chars : list OP_Node) :
  containment_sound (Sample.houdini_with chars)
  /\ containment_complete (Sample.houdini_with chars).
Proof.
  split.
  - intros n t H. cbn in H. unfold is_inside_or_self. rewrite H. apply orb_true_r.
  - intros n t H. exact H.
Qed.

(** The bundle of [geoB], under [subnet2], and [geoA], under [subnet1]:
    the start network is [subnet1]. *)
Lemma start_network_of_nodes_inside_witness :
  let env := Sample.env_with [Sample.geoB; Sample.geoA] in
  let e := Sample.session env 0%float 0%float Sample.bundle_options in
  exists e',
    export_bundles env e = Some (Sample.subnet1, e')
    /\ start_path_obs e' = "/obj/subnet1".
Proof.
  intros env e.
  destruct (start_network_of_nodes_inside env e new_ROP_FBXNodeManager Sample.obj)
    as (top & e' & H & Hpath & _ & _ & Hex & _).
  - reflexivity.
  - reflexivity.
  - apply sample_containment.
  - apply sample_containment.
  - repeat constructor; eexists; split; reflexivity.
  - assert (Htop : top = Sample.subnet1).
    { apply (Hex Sample.subnet1 "geoA" "geoB" "subnet2"); [discriminate|].
      right. reflexivity. }
    subst top. exists e'. split; [exact H|]. rewrite Hpath. reflexivity.
Defined.

(** The bundle of [/shop/mat1] and [/obj/subnet1/geoA], in this order.
    No network narrower than the object root contains both, and the
    words of the specification give the object root; [doExport], which
    passes over a first node outside the object network, takes
    [/obj/subnet1]. *)
Lemma bundle_network_claim_fails :
  ~ bundle_network_claim (Sample.env_with [Sample.mat1; Sample.geoA]) Sample.bundle_options.
Proof.
  intros Hclaim. specialize (Hclaim Sample.obj eq_refl).
  vm_compute in Hclaim. discriminate Hclaim.
Qed.

(** A first node whose parent network the host does not report as
    contained by [/obj] leaves [top_network] null, and the loop goes on
    as if it had not met the node: so it is for a node outside the
    object network, and for a node directly under [/obj] on a host for
    which a network does not contain itself. *)
Lemma first_node_passed_over (h : Houdini) (obj_net : option OP_Node)
    (first p : OP_Node) (rest : list OP_Node) :
  getParent first = Some p ->
  getIsContainedBy h p obj_net = false ->
  top_network_after h obj_net (first :: rest) None = top_network_after h obj_net rest None.
Proof.
  intros Hp Hout. cbn [top_network_after update_top_network]. rewrite Hp, Hout. reflexivity.
Qed.

(** C6.  The bundle of [/obj/subnet1] and [/obj/subnet1/subnet2/geoB],
    in this order, on the sample host.  The specification gives the
    global object root as start network: no narrower network contains
    both nodes.  The bundle block of [doExport] resolves the start
    network to [/obj/subnet1/subnet2], which does not contain the
    matched node [/obj/subnet1], and the geometry pass visits the scene
    from there; with the two nodes in the other order it resolves it to
    [/obj]. *)
Theorem bundle_start_network_leaves_node_out :
  let matched := [Sample.subnet1; Sample.geoB] in
  let env := Sample.env_with matched in
  let e := Sample.session env 0%float 0%float Sample.bundle_options in
  matched_nodes (hou env) (strip (hou env) (getBundlesString (myExportOptions e)) "@")
    (getBundles (hou env)) = matched
  /\ (exists e', export_bundles env e = Some (Sample.subnet2, e')
                 /\ start_path_obs e' = "/obj/subnet1/subnet2")
  /\ (exists e', doExport env e = Some (tt, e')
                 /\ filter is_visit_call (calls_since e e')
                    = [Geom_visitScene Sample.subnet2; performPostActions])
  /\ getIsContainedBy (hou env) Sample.subnet1 (Some Sample.subnet2) = false
  /\ is_inside_or_self Sample.subnet1 Sample.subnet2 = false
  /\ spec_start_network (hou env) Sample.obj matched = Sample.obj
  /\ ~ bundle_network_claim env Sample.bundle_options
  /\ bundle_top_network (Sample.env_with [Sample.geoB; Sample.subnet1]) Sample.bundle_options
     = Some Sample.obj.
Proof.
  intros matched env e.
  split; [vm_compute; reflexivity|].
  split.
  { exists (match export_bundles env e with
            | Some (_, e') => e'
            | None => e
            end).
    split; vm_compute; reflexivity. }
  split.
  { exists (match doExport env e with
            | Some (_, e') => e'
            | None => e
            end).
    split; vm_compute; reflexivity. }
  split; [vm_compute; reflexivity|].
  split; [vm_compute; reflexivity|].
  split; [vm_compute; reflexivity|].
  split; [|vm_compute; reflexivity].
  intros Hclaim. specialize (Hclaim Sample.obj eq_refl).
  vm_compute in Hclaim. discriminate Hclaim.
Qed.

(** * Further properties of the code *)

(** Taking one [bind] of a run apart; a value read from the exporter is
    put in its place. *)
Ltac bind_step H :=
  apply bind_Some in H;
  let a := fresh "a" in
  let e1 := fresh "e" in
  let Hrun := fresh "Hrun" in
  destruct H as (a & e1 & Hrun & H);
  try (unfold gets in Hrun; injection Hrun as <- <-).

(** ** initializeExport with an output name *)

(** X1.  [initializeExport] with an output name never crashes and
    returns true exactly when the SDK manager could be created.  On
    both paths it has deleted the queued strings, cleared the error
    sink, stored the time range and the options (the defaults when the
    options pointer is null) and allocated a node manager and an action
    manager; it destroys nothing the exporter held.  When the manager
    cannot be created it returns before the scene, the output file
    name, the cancel flag and the world_root pointer are set: they stay
    as they were. *)
Theorem initializeExport_outcome (env : Env) (name : string) (tstart tend : fpreal)
    (options : option ROP_FBXExportOptions) (e : Exporter) :
  exists e',
    initializeExport env (Some name) tstart tend options e
    = Some (is_some (FbxManager_Create (sdk env)), e')
    /\ myErrorManager e' = []
    /\ myStartTime e' = tstart /\ myEndTime e' = tend
    /\ myExportOptions e'
       = match options with
         | Some o => o
         | None => ROP_FBXExportOptions_reset (rop env)
         end
    /\ myNodeManager e' = Some new_ROP_FBXNodeManager
    /\ myActionManager e' = Some TheActionManager
    /\ mySDKManager e' = FbxManager_Create (sdk env)
    /\ myStringsToDeallocate e' = []
    /\ calls e' = calls e ++ map delete_string (myStringsToDeallocate e) ++ [FBXwrapAllocators]
    /\ (FbxManager_Create (sdk env) = None ->
        myScene e' = myScene e /\ myOutputFile e' = myOutputFile e
        /\ myDidCancel e' = myDidCancel e
        /\ myDummyRootNullNode e' = myDummyRootNullNode e)
    /\ (FbxManager_Create (sdk env) <> None ->
        myScene e' = Some (FbxScene_Create (sdk env)) /\ myOutputFile e' = name
        /\ myDidCancel e' = false /\ myDummyRootNullNode e' = None).
Proof.
  unfold initializeExport, deallocateQueuedStrings, call, bind, gets, modify, ret.
  cbn. destruct (FbxManager_Create (sdk env)) as [mgr|] eqn:E; cbn.
  - eexists. split; [reflexivity|]. cbn. rewrite <- app_assoc.
    repeat split; try reflexivity; try assumption; try discriminate.
  - eexists. split; [reflexivity|]. cbn. rewrite <- app_assoc.
    repeat split; try reflexivity; try assumption; try congruence.
Qed.

(** ** The queue of strings *)

Lemma queue_strings_queues (ps : list nat) :
  forall e, queue_strings ps e
            = Some (tt, set_myStringsToDeallocate (myStringsToDeallocate e ++ ps) e).
Proof.
  induction ps as [|p rest IH]; intros e; cbn [queue_strings].
  - unfold ret. rewrite app_nil_r. destruct e; reflexivity.
  - unfold bind, queueStringToDeallocate, modify. rewrite IH. cbn.
    rewrite <- app_assoc. reflexivity.
Qed.

(** X2.  Strings queued with [queueStringToDeallocate] are deleted by
    the next [deallocateQueuedStrings], each once and in the order they
    were queued, after those the queue already held; the queue is empty
    afterwards, so that a second [deallocateQueuedStrings] deletes
    nothing. *)
Theorem queued_strings_deleted_once (ps : list nat) (e : Exporter) :
  exists e1,
    (queue_strings ps ;; deallocateQueuedStrings) e = Some (tt, e1)
    /\ calls e1 = calls e ++ map delete_string (myStringsToDeallocate e ++ ps)
    /\ myStringsToDeallocate e1 = []
    /\ deallocateQueuedStrings e1 = Some (tt, e1).
Proof.
  unfold bind at 1. rewrite queue_strings_queues.
  unfold deallocateQueuedStrings, bind, gets, modify. cbn.
  eexists. split; [reflexivity|]. cbn. repeat split.
  rewrite app_nil_r. reflexivity.
Qed.

(** ** finishExport *)

(** X3.  With a manager and a version string that can be split,
    [finishExport] returns true exactly when the export was not
    cancelled, the writer could be initialized on the output file and
    its [Export] succeeded.  It records an error, one critical error
    that carries the error string of the writer, exactly when [Export]
    was called and failed. *)
Theorem finishExport_result (env : Env) (e : Exporter) (fmt : Z) :
  is_some (mySDKManager e) = true ->
  writer_format env (myExportOptions e) = Some fmt ->
  let initialized := Exporter_Initialize (sdk env) (myOutputFile e) fmt in
  let written := Exporter_Export (sdk env) (myScene e) in
  exists e',
    finishExport env e = Some (negb (myDidCancel e) && initialized && written, e')
    /\ myErrorManager e'
       = myErrorManager e
         ++ (if negb (myDidCancel e) && initialized && negb written
             then [export_failed_error env] else []).
Proof.
  intros Hmgr Hfmt initialized written. unfold finishExport.
  unfold bind at 1. cbn [gets].
  destruct (myDidCancel e) eqn:Hc; cbn [negb andb].
  - unfold bind at 1, ret at 1. unfold bind. rewrite release_all_eq.
    eexists. split; [reflexivity|]. cbn. rewrite app_nil_r. reflexivity.
  - unfold bind at 1. rewrite (write_scene_eq env e fmt Hmgr Hfmt). cbv zeta.
    fold initialized. fold written.
    destruct initialized; cbn [negb andb].
    + unfold bind. rewrite release_all_eq. eexists. split; [reflexivity|].
      cbn. destruct written; reflexivity.
    + eexists. split; [reflexivity|]. cbn. rewrite app_nil_r. reflexivity.
Qed.

(** The sample session: the file is written. *)
Lemma finishExport_result_witness :
  exists e',
    finishExport Sample.env (exported Sample.env) = Some (true, e')
    /\ myErrorManager e' = [].
Proof.
  destruct (finishExport_result Sample.env (exported Sample.env) 0%Z) as (e' & H & Herr).
  - vm_compute. reflexivity.
  - vm_compute. reflexivity.
  - exists e'. split; [exact H | exact Herr].
Defined.

(** X4.  On a live exporter that is not cancelled and whose writer can
    be initialized, [finishExport] makes these calls and no other, in
    this order: the writer is created, given the file version when
    there is one, initialized on the output file with the format found,
    told whether to embed media, asked to export and destroyed, whether
    or not the export succeeded; then the scene and the manager are
    destroyed, the queued strings deleted, and the node manager and the
    action manager deleted.  The four pointers are null afterwards. *)
Theorem finishExport_writer_protocol (env : Env) (e : Exporter) (fmt : Z) :
  alive e ->
  writer_format env (myExportOptions e) = Some fmt ->
  myDidCancel e = false ->
  Exporter_Initialize (sdk env) (myOutputFile e) fmt = true ->
  exists e',
    finishExport env e = Some (Exporter_Export (sdk env) (myScene e), e')
    /\ calls e'
       = calls e
         ++ [FbxExporter_Create] ++ writer_version_calls (myExportOptions e)
         ++ [FbxExporter_Initialize (myOutputFile e) fmt;
             SetBoolProp_EXP_FBX_EMBEDDED (getEmbedMedia (myExportOptions e));
             FbxExporter_Export; FbxExporter_Destroy;
             FbxScene_Destroy; FbxManager_Destroy]
         ++ map delete_string (myStringsToDeallocate e)
         ++ [delete_NodeManager; delete_ActionManager]
    /\ mySDKManager e' = None /\ myScene e' = None
    /\ myNodeManager e' = None /\ myActionManager e' = None
    /\ myStringsToDeallocate e' = [].
Proof.
  intros (Hmgr & Hsc & Hnm & Ham) Hfmt Hc Hinit. unfold finishExport.
  unfold bind at 1. cbn [gets]. rewrite Hc. cbn [negb].
  unfold bind at 1. rewrite (write_scene_eq env e fmt Hmgr Hfmt). cbv zeta.
  rewrite Hinit. cbn [negb].
  unfold bind. rewrite release_all_eq. eexists. split; [reflexivity|].
  unfold after_release, release_calls. cbn. rewrite Hmgr, Hsc, Hnm, Ham. cbn.
  repeat split. rewrite <- !app_assoc. cbn. rewrite <- !app_assoc. reflexivity.
Qed.

(** The writer calls of the sample session. *)
Lemma finishExport_writer_protocol_witness :
  exists e',
    finishExport Sample.env (exported Sample.env) = Some (true, e')
    /\ filter is_writer_call (calls_since (exported Sample.env) e')
       = [FbxExporter_Create; SetFileExportVersion "FBX201800";
          FbxExporter_Initialize "out.fbx" 0;
          SetBoolProp_EXP_FBX_EMBEDDED false; FbxExporter_Export; FbxExporter_Destroy].
Proof.
  destruct (finishExport_writer_protocol Sample.env (exported Sample.env) 0%Z)
    as (e' & H & Hcalls & _).
  - unfold alive. repeat split; vm_compute; reflexivity.
  - vm_compute. reflexivity.
  - vm_compute. reflexivity.
  - vm_compute. reflexivity.
  - exists e'. split.
    + exact H.
    + rewrite (calls_since_app _ _ _ Hcalls). vm_compute. reflexivity.
Defined.

Lemma filter_delete_strings (p : Call -> bool) (strings : list nat) :
  (forall n, p (delete_string n) = false) ->
  filter p (map delete_string strings) = [].
Proof.
  intros Hp. induction strings as [|n rest IH]; cbn; [reflexivity|].
  rewrite Hp. exact IH.
Qed.

Lemma release_calls_no_writer (e : Exporter) : filter is_writer_call (release_calls e) = [].
Proof.
  unfold release_calls. rewrite !filter_app.
  rewrite (filter_delete_strings is_writer_call) by reflexivity.
  destruct (is_some (myScene e)), (is_some (mySDKManager e)),
    (is_some (myNodeManager e)), (is_some (myActionManager e)); reflexivity.
Qed.

Lemma after_release_twice (e : Exporter) : after_release (after_release e) = after_release e.
Proof.
  unfold after_release, release_calls. cbn. rewrite app_nil_r. reflexivity.
Qed.

(** X5.  On a cancelled exporter [finishExport] returns false without
    touching the writer: it only releases what the exporter holds, and
    leaves the error sink alone.  Called again, it returns false and
    changes nothing. *)
Theorem finishExport_cancelled (env : Env) (e : Exporter) :
  myDidCancel e = true ->
  exists e',
    finishExport env e = Some (false, e')
    /\ filter is_writer_call (calls_since e e') = []
    /\ calls e' = calls e ++ release_calls e
    /\ mySDKManager e' = None /\ myScene e' = None
    /\ myNodeManager e' = None /\ myActionManager e' = None
    /\ myStringsToDeallocate e' = []
    /\ myErrorManager e' = myErrorManager e
    /\ finishExport env e' = Some (false, e').
Proof.
  intros Hc.
  assert (Hfin : forall e0, myDidCancel e0 = true ->
                            finishExport env e0 = Some (false, after_release e0)).
  { intros e0 H0. unfold finishExport. unfold bind at 1. cbn [gets]. rewrite H0.
    cbn [negb]. unfold bind at 1, ret at 1. unfold bind. rewrite release_all_eq.
    reflexivity. }
  exists (after_release e). split; [apply Hfin, Hc|].
  split; [|split; [reflexivity|]].
  - rewrite (calls_since_app e (after_release e) (release_calls e)) by reflexivity.
    apply release_calls_no_writer.
  - repeat (split; [reflexivity|]).
    rewrite Hfin by exact Hc. rewrite after_release_twice. reflexivity.
Qed.

(** The sample session, cancelled after [doExport]. *)
Lemma finishExport_cancelled_witness :
  exists e',
    finishExport Sample.env (set_myDidCancel true (exported Sample.env)) = Some (false, e')
    /\ calls_since (exported Sample.env) e'
       = [FbxScene_Destroy; FbxManager_Destroy; delete_string 7;
          delete_NodeManager; delete_ActionManager].
Proof.
  destruct (finishExport_cancelled Sample.env (set_myDidCancel true (exported Sample.env)))
    as (e' & H & _ & Hcalls & _).
  - reflexivity.
  - exists e'. split; [exact H|].
    apply calls_since_app. rewrite Hcalls. vm_compute. reflexivity.
Defined.

(** ** The version string *)

Lemma prefix_empty (s : string) : prefix "" s = true.
Proof. destruct s; reflexivity. Qed.

(** Looking for the first bar: past a text that has none. *)
Lemma index_bar_append (name rest : string) :
  index 0 "|" name = None ->
  index 0 "|" (name ++ "|" ++ rest) = Some (String.length name).
Proof.
  induction name as [|c name IH]; intros Hnone.
  - cbn. rewrite prefix_empty. reflexivity.
  - cbn [append String.length]. cbn [index] in *.
    cbn [prefix] in *.
    match goal with
    | |- context [Ascii.ascii_dec ?a c] => destruct (Ascii.ascii_dec a c)
    end.
    + rewrite prefix_empty in Hnone. discriminate.
    + destruct (index 0 "|" name); [discriminate|].
      cbn [append] in IH. rewrite IH by reflexivity. reflexivity.
Qed.

Lemma length_append (s1 s2 : string) :
  String.length (s1 ++ s2) = String.length s1 + String.length s2.
Proof. induction s1 as [|c s1 IH]; cbn; [reflexivity | rewrite IH; reflexivity]. Qed.

(** X6.  A version string that ends in its first bar, after a name
    that is not empty, makes [finishExport] crash on an export that is
    not cancelled: [substr(sep_pos + 2)] starts past the end of the
    string and throws, before the writer is initialized and before
    anything is released. *)
Theorem finishExport_bar_at_end (env : Env) (e : Exporter) (name : string) :
  myDidCancel e = false ->
  name <> "" ->
  index 0 "|" name = None ->
  getVersion (myExportOptions e) = (name ++ "|")%string ->
  finishExport env e = None.
Proof.
  intros Hc Hname Hbar Hv.
  assert (Hp : parse_version (getVersion (myExportOptions e)) = None).
  { rewrite Hv. unfold parse_version.
    change (name ++ "|")%string with (name ++ "|" ++ "")%string.
    rewrite (index_bar_append name "" Hbar).
    destruct name as [|c name]; [congruence|]. cbn [String.length].
    rewrite length_append. cbn [String.length append].
    match goal with
    | |- (if (?a <? ?b)%nat then _ else _) = _ =>
        destruct (Nat.ltb_spec a b); [reflexivity | lia]
    end. }
  unfold finishExport. unfold bind at 1. cbn [gets]. rewrite Hc. cbn [negb].
  unfold bind at 1, write_scene. unfold bind at 1, call, modify.
  unfold bind at 1. cbn [gets]. unfold bind at 1, lift.
  cbn [myExportOptions set_calls]. rewrite Hp. reflexivity.
Qed.

(** The version string "FBX|". *)
Lemma finishExport_bar_at_end_witness :
  finishExport Sample.env
    (set_myExportOptions
       {| isExportingBundles := false; getBundlesString := "";
          getStartNodePath := "/obj"; getExportTakeName := "";
          getExportDeformsAsVC := false; getExportClips := [];
          getConvertAxisSystem := false; getAxisSystem := ROP_FBXAxisSystem_Current;
          getConvertUnits := false; getconvertUnitTo := UNIT_CM;
          getVersion := "FBX|"; getExportInAscii := false;
          getEmbedMedia := false |}
       (exported Sample.env)) = None.
Proof.
  apply (finishExport_bar_at_end Sample.env _ "FBX").
  - vm_compute. reflexivity.
  - discriminate.
  - reflexivity.
  - reflexivity.
Defined.

(** ** The writer format *)

Lemma length_substring (s : string) : forall n,
  String.length (substring 0 n s) = Nat.min n (String.length s).
Proof.
  induction s as [|c s IH]; intros [|n]; cbn; try reflexivity.
  rewrite IH. reflexivity.
Qed.

(** The test of [finishExport] on a description is [prefix]. *)
Lemma writer_test_prefix (name desc : string) :
  (String.length name <=? String.length desc)%nat
  && String.eqb name (substring 0 (String.length name) desc)
  = prefix name desc.
Proof.
  destruct (prefix name desc) eqn:E.
  - apply prefix_correct in E. rewrite E, String.eqb_refl, andb_true_r.
    apply Nat.leb_le. rewrite <- E at 1. rewrite length_substring. apply Nat.le_min_r.
  - apply andb_false_iff. right. apply String.eqb_neq. intros H.
    symmetry in H. apply prefix_correct in H. congruence.
Qed.

Lemma find_writer_format_spec (name : string) (formats : list (bool * string)) :
  forall k, (0 <= k)%Z ->
    (find_writer_format name formats k = (-1)%Z
     /\ forallb (fun f => negb (writer_matches name f)) formats = true)
    \/ exists i f,
         find_writer_format name formats k = (k + Z.of_nat i)%Z
         /\ nth_error formats i = Some f
         /\ writer_matches name f = true
         /\ forallb (fun f => negb (writer_matches name f)) (firstn i formats) = true.
Proof.
  induction formats as [|[is_fbx desc] rest IH]; intros k Hk; cbn [find_writer_format].
  - left. split; reflexivity.
  - rewrite <- andb_assoc, writer_test_prefix.
    change (is_fbx && prefix name desc) with (writer_matches name (is_fbx, desc)).
    destruct (writer_matches name (is_fbx, desc)) eqn:E.
    + right. exists 0, (is_fbx, desc). rewrite Z.add_0_r. repeat split. exact E.
    + destruct (IH (k + 1)%Z ltac:(lia)) as [(H1 & H2) | (i & f & H1 & H2 & H3 & H4)].
      * left. cbn. rewrite E, H2. split; [exact H1 | reflexivity].
      * right. exists (S i), f. cbn [nth_error firstn forallb]. rewrite E, H4.
        repeat split; try assumption. rewrite H1. lia.
Qed.

(** X7.  The format [finishExport] finds for a writer name is the
    first FBX writer of the registry whose description starts with the
    name, and -1 exactly when there is none: a writer that is not an
    FBX writer is never chosen, whatever its description. *)
Theorem find_writer_format_first_match (name : string) (formats : list (bool * string)) :
  let found := find_writer_format name formats 0 in
  (found = (-1)%Z <-> forallb (fun f => negb (writer_matches name f)) formats = true)
  /\ (forall i, found = Z.of_nat i ->
        exists desc,
          nth_error formats i = Some (true, desc)
          /\ prefix name desc = true
          /\ forallb (fun f => negb (writer_matches name f)) (firstn i formats) = true)
  /\ (-1 <= found < Z.of_nat (List.length formats))%Z.
Proof.
  intros found. subst found.
  destruct (find_writer_format_spec name formats 0 ltac:(lia))
    as [(H1 & H2) | (i & f & H1 & H2 & H3 & H4)].
  - split; [split; auto|]. split; [intros i Hi; lia|]. rewrite H1. lia.
  - assert (Hlen : i < List.length formats) by (apply nth_error_Some; congruence).
    split; [|split].
    + split; [lia|]. intros Hall. exfalso.
      rewrite forallb_forall in Hall. apply nth_error_In in H2.
      specialize (Hall f H2). rewrite H3 in Hall. discriminate.
    + intros j Hj. assert (j = i) by lia. subst j.
      destruct f as [is_fbx desc]. unfold writer_matches in H3. cbn in H3.
      apply andb_true_iff in H3. destruct H3 as (-> & Hp).
      exists desc. repeat split; assumption.
    + lia.
Qed.

(** ** Version strings, from getVersions to finishExport *)

Lemma substring_append_left (a b : string) :
  substring 0 (String.length a) (a ++ b) = a.
Proof.
  induction a as [|c a IH]; cbn.
  - destruct b; reflexivity.
  - rewrite IH. reflexivity.
Qed.

Lemma substring_append_skip (a b : string) (n m : nat) :
  substring (String.length a + n) m (a ++ b) = substring n m b.
Proof. induction a as [|c a IH]; cbn; [reflexivity | exact IH]. Qed.

Lemma substring_all (s : string) : substring 0 (String.length s) s = s.
Proof. induction s as [|c s IH]; cbn; [reflexivity | rewrite IH; reflexivity]. Qed.

Lemma prefix_append (a b : string) : prefix a (a ++ b) = true.
Proof.
  apply prefix_correct. apply substring_append_left.
Qed.

Lemma index_bar_separator (name version : string) :
  index 0 "|" name = None ->
  index 0 "|" (name ++ " | " ++ version) = Some (S (String.length name)).
Proof.
  induction name as [|c name IH]; intros Hnone.
  - reflexivity.
  - cbn [append String.length]. cbn [index] in *. cbn [prefix] in *.
    match goal with
    | |- context [Ascii.ascii_dec ?a c] => destruct (Ascii.ascii_dec a c)
    end.
    + rewrite prefix_empty in Hnone. discriminate.
    + destruct (index 0 "|" name); [discriminate|].
      cbn [append] in IH. rewrite IH by reflexivity. reflexivity.
Qed.

Lemma parse_version_entry (name version : string) :
  index 0 "|" name = None ->
  parse_version (name ++ " | " ++ version) = Some (name, version).
Proof.
  intros Hbar. unfold parse_version. rewrite (index_bar_separator name version Hbar).
  rewrite !length_append. cbn [String.length].
  match goal with
  | |- (if (?a <? ?b)%nat then _ else _) = _ => destruct (Nat.ltb_spec a b); [lia|]
  end.
  f_equal. f_equal.
  - replace (S (String.length name) - 1) with (String.length name) by lia.
    apply substring_append_left.
  - replace (S (String.length name) + 2) with (String.length name + 3) by lia.
    rewrite substring_append_skip.
    match goal with
    | |- substring _ ?m _ = _ => replace m with (String.length version) by lia
    end.
    cbn. apply substring_all.
Qed.

Lemma version_entry_names (opts : ROP_FBXExportOptions) (name version : string) :
  index 0 "|" name = None ->
  getVersion opts = (name ++ " | " ++ version)%string ->
  writer_name opts
  = Some ((if (String.length name =? 0)%nat then "FBX" else name)
          ++ (if getExportInAscii opts then " ascii" else " binary"))%string
  /\ writer_version_calls opts
     = (if (String.length version =? 0)%nat then [] else [SetFileExportVersion version]).
Proof.
  intros Hbar Hv. unfold writer_name, writer_version_calls.
  rewrite Hv, (parse_version_entry name version Hbar). cbn [fst snd].
  split.
  - destruct (String.length name); reflexivity.
  - destruct (String.length version); reflexivity.
Qed.

(** X8.  A version string "name | version", with no bar in the name, is
    read by [finishExport] as that name and that version: the writer
    it looks for is the name, or "FBX" when the name is empty, followed
    by " ascii" or " binary" as the options say, and the file version
    is set on the writer unless the version is empty. *)
Theorem version_entry_read_back (opts : ROP_FBXExportOptions) (name version : string) :
  index 0 "|" name = None ->
  getVersion opts = (name ++ " | " ++ version)%string ->
  writer_name opts
  = Some ((if (String.length name =? 0)%nat then "FBX" else name)
          ++ (if getExportInAscii opts then " ascii" else " binary"))%string
  /\ writer_version_calls opts
     = (if (String.length version =? 0)%nat then [] else [SetFileExportVersion version]).
Proof.
  intros Hbar Hv. unfold writer_name, writer_version_calls.
  rewrite Hv, (parse_version_entry name version Hbar). cbn [fst snd].
  split.
  - destruct (String.length name); reflexivity.
  - destruct (String.length version); reflexivity.
Qed.

(** The version string of the sample options. *)
Lemma version_entry_read_back_witness :
  writer_name Sample.options = Some "FBX binary"
  /\ writer_version_calls Sample.options = [SetFileExportVersion "FBX201800"].
Proof.
  apply (version_entry_read_back Sample.options "FBX" "FBX201800"); reflexivity.
Defined.

(** ** getVersions *)

Lemma push_versions_eq (format_desc : string) (versions : list string) :
  forall out,
    push_versions format_desc versions out
    = out ++ map (version_entry format_desc) versions.
Proof.
  induction versions as [|v rest IH]; intros out; cbn.
  - rewrite app_nil_r. reflexivity.
  - rewrite IH, <- app_assoc. reflexivity.
Qed.

Lemma collect_versions_step (w : Z -> option (list string)) (f : bool * string)
    (rest : list (bool * string)) (k : Z) (out : list string) :
  collect_versions w (f :: rest) k out
  = collect_versions w rest (k + 1)%Z (out ++ format_entries w k f).
Proof.
  destruct f as [is_fbx desc]. cbn [collect_versions]. cbv zeta.
  unfold format_entries, listed_format. cbn [fst snd].
  destruct is_fbx; cbn [negb andb]; [|rewrite app_nil_r; reflexivity].
  destruct (is_some (index 0 "encrypted" desc)); cbn [negb andb];
    [rewrite app_nil_r; reflexivity|].
  destruct (is_some (index 0 "ascii" desc)); cbn [negb andb];
    [rewrite app_nil_r; reflexivity|].
  destruct (w k) as [versions|]; [|rewrite app_nil_r; reflexivity].
  rewrite push_versions_eq. reflexivity.
Qed.

Lemma collect_versions_in (w : Z -> option (list string)) (formats : list (bool * string))
    (s : string) :
  forall k out,
    In s (collect_versions w formats k out) <->
    In s out
    \/ exists i f versions v,
         nth_error formats i = Some f /\ listed_format f = true
         /\ w (k + Z.of_nat i)%Z = Some versions /\ In v versions
         /\ s = version_entry (snd f) v.
Proof.
  induction formats as [|f rest IH]; intros k out.
  - cbn. split; [auto|]. intros [H | (i & f & versions & v & H & _)]; [exact H|].
    destruct i; discriminate.
  - rewrite collect_versions_step, IH, in_app_iff. split.
    + intros [[H | H] | (i & f' & versions & v & H1 & H2 & H3 & H4 & H5)].
      * left. exact H.
      * right. unfold format_entries in H.
        destruct (listed_format f) eqn:El; [|destruct H].
        destruct (w k) as [versions|] eqn:Ew; [|destruct H].
        apply in_map_iff in H. destruct H as (v & <- & Hv).
        exists 0, f, versions, v. rewrite Z.add_0_r. repeat split; assumption.
      * right. exists (S i), f', versions, v. repeat split; try assumption.
        rewrite <- H3. f_equal. lia.
    + intros [H | (i & f' & versions & v & H1 & H2 & H3 & H4 & H5)].
      * left. left. exact H.
      * destruct i as [|i].
        -- cbn in H1. injection H1 as <-. left. right.
           unfold format_entries. rewrite H2. rewrite Z.add_0_r in H3. rewrite H3.
           apply in_map_iff. exists v. split; [symmetry; exact H5 | exact H4].
        -- right. exists i, f', versions, v. repeat split; try assumption.
           rewrite <- H3. f_equal. lia.
Qed.

Lemma getVersions_entries (env : Env) (GetWritableVersions : Z -> option (list string))
    (e : Exporter) :
  exists versions e',
    getVersions env GetWritableVersions [] e = Some (versions, e')
    /\ (FbxManager_Create (sdk env) <> None ->
        forall s,
          In s versions <->
          exists i format_desc format_versions version,
            nth_error (WriterFormats (sdk env)) i = Some (true, format_desc)
            /\ index 0 "encrypted" format_desc = None
            /\ index 0 "ascii" format_desc = None
            /\ GetWritableVersions (Z.of_nat i) = Some format_versions
            /\ In version format_versions
            /\ s = (format_name format_desc ++ " | " ++ version)%string).
Proof.
  unfold getVersions. cbv zeta. unfold call, bind, modify, ret.
  destruct (FbxManager_Create (sdk env)) as [mgr|].
  - eexists _, _. split; [reflexivity|]. intros _.
    intros s. rewrite collect_versions_in. split.
    + intros [[] | (i & [is_fbx desc] & versions & v & H1 & H2 & H3 & H4 & H5)].
      unfold listed_format in H2. cbn [fst snd] in *.
      apply andb_true_iff in H2. destruct H2 as (H2 & Ha).
      apply andb_true_iff in H2. destruct H2 as (-> & He).
      exists i, desc, versions, v.
      destruct (index 0 "encrypted" desc); [discriminate|].
      destruct (index 0 "ascii" desc); [discriminate|].
      repeat split; assumption.
    + intros (i & desc & versions & v & H1 & H2 & H3 & H4 & H5 & H6).
      right. exists i, (true, desc), versions, v. unfold listed_format. cbn [fst snd].
      rewrite H2, H3. repeat split; assumption.
  - eexists _, _. split; [reflexivity|]. congruence.
Qed.

(** X9.  [getVersions] forgets what the list held.  When the manager
    cannot be created the list stays empty and nothing is destroyed;
    otherwise the manager is destroyed at the end and the list holds
    exactly the entries "name | version" of the writable versions of
    the FBX writers that are neither encrypted nor ascii, where the
    name is the description up to the character before "binary". *)
Theorem getVersions_lists (env : Env) (GetWritableVersions : Z -> option (list string))
    (versions_out : list string) (e : Exporter) :
  exists versions e',
    getVersions env GetWritableVersions versions_out e = Some (versions, e')
    /\ getVersions env GetWritableVersions [] e = Some (versions, e')
    /\ (FbxManager_Create (sdk env) = None ->
        versions = [] /\ e' = set_calls (calls e ++ [FBXwrapAllocators]) e)
    /\ (FbxManager_Create (sdk env) <> None ->
        e' = set_calls (calls e ++ [FBXwrapAllocators; FbxManager_Destroy]) e
        /\ forall s,
             In s versions <->
             exists i format_desc format_versions version,
               nth_error (WriterFormats (sdk env)) i = Some (true, format_desc)
               /\ index 0 "encrypted" format_desc = None
               /\ index 0 "ascii" format_desc = None
               /\ GetWritableVersions (Z.of_nat i) = Some format_versions
               /\ In version format_versions
               /\ s = (format_name format_desc ++ " | " ++ version)%string).
Proof.
  destruct (getVersions_entries env GetWritableVersions e) as (versions & e' & H & Hall).
  exists versions, e'. split; [exact H|]. split; [exact H|].
  revert H. unfold getVersions. cbv zeta. unfold call, bind, modify, ret.
  destruct (FbxManager_Create (sdk env)) as [mgr|]; intros H; injection H as <- <-.
  - split; [discriminate|]. intros Hm. split.
    + cbn. rewrite <- app_assoc. reflexivity.
    + apply Hall. exact Hm.
  - split; [|congruence]. intros _. split; reflexivity.
Qed.

Lemma find_writer_format_found (name : string) (formats : list (bool * string)) (i : nat)
    (f : bool * string) :
  nth_error formats i = Some f ->
  writer_matches name f = true ->
  exists j desc,
    find_writer_format name formats 0 = Z.of_nat j
    /\ j <= i
    /\ nth_error formats j = Some (true, desc)
    /\ prefix name desc = true.
Proof.
  intros Hi Hm.
  destruct (find_writer_format_spec name formats 0 ltac:(lia))
    as [(_ & Hall) | (j & [is_fbx desc] & H1 & H2 & H3 & H4)].
  - rewrite forallb_forall in Hall. apply nth_error_In in Hi.
    specialize (Hall f Hi). rewrite Hm in Hall. discriminate.
  - unfold writer_matches in H3. cbn [fst snd] in H3.
    apply andb_true_iff in H3. destruct H3 as (-> & Hp).
    exists j, desc. repeat split; try assumption.
    destruct (Nat.le_gt_cases j i) as [Hle | Hgt]; [exact Hle|]. exfalso.
    rewrite forallb_forall in H4.
    assert (Hin : In f (firstn j formats)).
    { apply (nth_error_In _ i). rewrite nth_error_firstn.
      destruct (Nat.ltb_spec i j); [exact Hi | lia]. }
    specialize (H4 f Hin). rewrite Hm in H4. discriminate.
Qed.

(** X10.  From [getVersions] to [finishExport]: for an FBX writer
    described as a name, " binary" and the rest, the entry of each of
    its writable versions is in the list of [getVersions], and
    [finishExport], given that entry as the version of the options of a
    binary export, finds a writer: an FBX writer, at or before the one
    the entry was made from, whose description starts with the name
    and " binary". *)
Theorem offered_version_finds_writer (env : Env)
    (GetWritableVersions : Z -> option (list string)) (opts : ROP_FBXExportOptions)
    (i : nat) (name rest version : string) (format_versions : list string)
    (e : Exporter) :
  FbxManager_Create (sdk env) <> None ->
  nth_error (WriterFormats (sdk env)) i = Some (true, (name ++ " binary" ++ rest)%string) ->
  index 0 "binary" (name ++ " binary" ++ rest) = Some (S (String.length name)) ->
  index 0 "encrypted" (name ++ " binary" ++ rest) = None ->
  index 0 "ascii" (name ++ " binary" ++ rest) = None ->
  index 0 "|" name = None ->
  name <> "" ->
  GetWritableVersions (Z.of_nat i) = Some format_versions ->
  In version format_versions ->
  getVersion opts = (name ++ " | " ++ version)%string ->
  getExportInAscii opts = false ->
  (exists versions e',
      getVersions env GetWritableVersions [] e = Some (versions, e')
      /\ In (getVersion opts) versions)
  /\ exists j format_desc,
       writer_format env opts = Some (Z.of_nat j)
       /\ j <= i
       /\ nth_error (WriterFormats (sdk env)) j = Some (true, format_desc)
       /\ prefix (name ++ " binary") format_desc = true.
Proof.
  intros Hmgr Hi Hbin Henc Hasc Hbar Hname Hw Hin Hv Hascii. split.
  - destruct (getVersions_entries env GetWritableVersions e) as (versions & e' & H & Hall).
    exists versions, e'. split; [exact H|]. apply (Hall Hmgr).
    exists i, (name ++ " binary" ++ rest)%string, format_versions, version.
    repeat split; try assumption.
    rewrite Hv. unfold format_name. rewrite Hbin. rewrite substring_append_left. reflexivity.
  - unfold writer_format.
    destruct (version_entry_names opts name version Hbar Hv) as (Hn & _).
    rewrite Hn, Hascii. cbn [option_map].
    destruct name as [|c name]; [congruence|]. cbn [String.length Nat.eqb].
    destruct (find_writer_format_found (String c name ++ " binary")
                (WriterFormats (sdk env)) i _ Hi) as (j & desc & H1 & H2 & H3 & H4).
    + unfold writer_matches. cbn [fst snd andb].
      replace (String c name ++ " binary" ++ rest)%string
        with ((String c name ++ " binary") ++ rest)%string.
      * apply prefix_append.
      * clear. induction (String c name) as [|a s IH]; cbn; [reflexivity|].
        rewrite IH. reflexivity.
    + exists j, desc. rewrite H1. repeat split; assumption.
Qed.

(** The binary FBX writer of the sample registry. *)
Lemma offered_version_finds_writer_witness :
  (exists versions e',
      getVersions Sample.env sample_versions [] Sample.exporter = Some (versions, e')
      /\ In "FBX | FBX201800" versions)
  /\ exists j format_desc,
       writer_format Sample.env Sample.options = Some (Z.of_nat j)
       /\ j <= 0
       /\ nth_error (WriterFormats Sample.fbxsdk) j = Some (true, format_desc)
       /\ prefix "FBX binary" format_desc = true.
Proof.
  apply (offered_version_finds_writer Sample.env sample_versions Sample.options 0
           "FBX" " (*.fbx)" "FBX201800" ["FBX202000"; "FBX201800"] Sample.exporter).
  - discriminate.
  - reflexivity.
  - reflexivity.
  - reflexivity.
  - reflexivity.
  - reflexivity.
  - discriminate.
  - reflexivity.
  - right. left. reflexivity.
  - reflexivity.
  - reflexivity.
Defined.

(** ** doExport, interrupted before it starts *)

(** X11.  A [doExport] that is interrupted before it starts changes
    nothing in the exporter but the interrupt pointer, which it clears.
    It does not set the cancel flag: the [finishExport] that follows
    creates the writer and initializes it on the output file. *)
Theorem interrupted_export_still_written (env : Env) (e : Exporter) (fmt : Z) :
  wasInterrupted (hou env) = true ->
  is_some (mySDKManager e) = true ->
  writer_format env (myExportOptions e) = Some fmt ->
  myDidCancel e = false ->
  doExport env e = Some (tt, set_myBoss None e)
  /\ exists b e2,
       finishExport env (set_myBoss None e) = Some (b, e2)
       /\ In (FbxExporter_Initialize (myOutputFile e) fmt) (calls_since e e2).
Proof.
  intros Hint Hmgr Hfmt Hc. split.
  - unfold doExport. rewrite Hint. unfold bind, modify, ret. reflexivity.
  - unfold finishExport. unfold bind at 1. cbn [gets].
    change (myDidCancel (set_myBoss None e)) with (myDidCancel e). rewrite Hc. cbn [negb].
    unfold bind at 1. rewrite (write_scene_eq env (set_myBoss None e) fmt Hmgr Hfmt).
    cbv zeta.
    change (myOutputFile (set_myBoss None e)) with (myOutputFile e).
    change (calls (set_myBoss None e)) with (calls e).
    destruct (Exporter_Initialize (sdk env) (myOutputFile e) fmt); cbn [negb].
    + unfold bind. rewrite release_all_eq. eexists _, _. split; [reflexivity|].
      erewrite calls_since_app.
      2:{ unfold after_release. cbn. rewrite <- !app_assoc. reflexivity. }
      cbn. rewrite !in_app_iff. cbn. auto 10.
    + eexists _, _. split; [reflexivity|].
      erewrite calls_since_app by (cbn; reflexivity).
      cbn. rewrite !in_app_iff. cbn. auto 10.
Qed.

(** The sample session, interrupted. *)
Lemma interrupted_export_still_written_witness :
  let e := Sample.session interrupted_env 0%float 0%float Sample.options in
  doExport interrupted_env e = Some (tt, set_myBoss None e)
  /\ exists b e2,
       finishExport interrupted_env (set_myBoss None e) = Some (b, e2)
       /\ In (FbxExporter_Initialize "out.fbx" 0) (calls_since e e2).
Proof.
  intros e.
  apply (interrupted_export_still_written interrupted_env e 0%Z); vm_compute; reflexivity.
Defined.

(** ** doExport and the current take *)

Lemma export_in_take_keeps_take (env : Env) :
  respects (keeps (fun e => (currentTake e, take_calls e))) (export_in_take env).
Proof. respects_auto. Qed.

Lemma bundle_scope_keeps_take (env : Env) :
  respects (keeps (fun e => (currentTake e, take_calls e,
                             getExportTakeName (myExportOptions e))))
           (bundle_scope env).
Proof. respects_auto. Qed.

Lemma length_zero_empty (s : string) : (String.length s =? 0)%nat = true <-> s = "".
Proof. destruct s; cbn; split; intros H; congruence. Qed.

(** X12.  A [doExport] that is not interrupted at its start sets the
    export take and restores the take that was current, on every path
    through the export: with an export take name, the host is asked
    for that take and then, last, for the take that was current before;
    without one the host is not asked for any take. *)
Theorem export_take_restored (env : Env) (e : Exporter) :
  alive e -> bundles_resolve env e ->
  wasInterrupted (hou env) = false ->
  let name := getExportTakeName (myExportOptions e) in
  exists e',
    doExport env e = Some (tt, e')
    /\ (name = "" -> take_calls e' = take_calls e /\ currentTake e' = currentTake e)
    /\ (name <> "" ->
        take_calls e' = take_calls e ++ [Call_takeSet name; Call_takeSet (currentTake e)]
        /\ currentTake e'
           = takeSet (hou env) (takeSet (hou env) (currentTake e) name) (currentTake e)).
Proof.
  intros He Hb Hint name. destruct (doExport_returns env e He Hb) as (e' & H & _).
  exists e'. split; [exact H|].
  destruct (doExport_inv env e e' Hint H)
    as (e1 & init_take & e2 & e3 & e4 & H1 & H2 & H3 & H4 & ->).
  apply (bundle_scope_keeps_take env _ tt e1 I) in H1. cbn in H1.
  injection H1 as Hk1 Hc1 Hn1.
  apply (export_in_take_keeps_take env e2 tt e3 I) in H3. cbn in H3.
  injection H3 as Hk3 Hc3.
  unfold set_export_take, do_takeSet, call, bind, gets, modify, ret in H2.
  rewrite Hn1 in H2. fold name in H2.
  destruct (String.length name =? 0)%nat eqn:En.
  - apply length_zero_empty in En. injection H2 as <- <-.
    cbn in H4. injection H4 as <-. split; [|congruence].
    intros _. unfold take_calls in *. cbn. split; congruence.
  - assert (Hne : name <> "").
    { intros Heq. apply length_zero_empty in Heq. congruence. }
    injection H2 as <- <-. cbn in Hk3, Hc3.
    unfold restore_take, do_takeSet, call, bind, modify in H4. injection H4 as <-.
    split; [congruence|]. intros _. unfold take_calls in *. cbn.
    rewrite Hk3, Hk1. split; [|reflexivity].
    rewrite filter_app, Hc3, filter_app. cbn. rewrite Hc1, <- app_assoc. reflexivity.
Qed.

(** The sample session exporting "take2": "Main" is current again. *)
Lemma export_take_restored_witness :
  let e := Sample.session Sample.env 0%float 0%float
             {| isExportingBundles := false; getBundlesString := "";
                getStartNodePath := "/obj"; getExportTakeName := "take2";
                getExportDeformsAsVC := false; getExportClips := [];
                getConvertAxisSystem := false; getAxisSystem := ROP_FBXAxisSystem_Current;
                getConvertUnits := false; getconvertUnitTo := UNIT_CM;
                getVersion := "FBX | FBX201800"; getExportInAscii := false;
                getEmbedMedia := false |} in
  exists e',
    doExport Sample.env e = Some (tt, e')
    /\ take_calls e' = [Call_takeSet "take2"; Call_takeSet "Main"]
    /\ currentTake e' = "Main".
Proof.
  intros e.
  destruct (export_take_restored Sample.env e) as (e' & H & _ & Hset).
  - unfold alive. cbn. auto.
  - intros Hb. discriminate Hb.
  - reflexivity.
  - exists e'. split; [exact H|]. apply Hset. discriminate.
Defined.

(** ** The steps of doExport *)

Lemma export_in_take_steps (env : Env) (e e' : Exporter) :
  export_in_take env e = Some (tt, e') ->
  exists single e1,
    prepare_scene env e = Some (single, e1)
    /\ single = SYSisEqual (hou env) (myStartTime e) (myEndTime e)
    /\ start_path_obs e1 = start_path_obs e
    /\ export_from_start env single e1 = Some (tt, e').
Proof.
  intros H. unfold export_in_take in H. apply bind_Some in H.
  destruct H as (single & e1 & Hprep & H). exists single, e1.
  split; [exact Hprep|]. split; [eapply prepare_scene_result; exact Hprep|].
  split; [|exact H].
  frame_of (keeps start_path_obs) Hprep. exact Hprep.
Qed.

(** A [doExport] that was not interrupted at its start, step by step. *)
Lemma doExport_steps (env : Env) (e e' : Exporter) :
  alive e ->
  wasInterrupted (hou env) = false ->
  doExport env e = Some (tt, e') ->
  exists e1 init_take e2 single e2a e3 e4,
    bundle_scope env (set_myBoss (Some TheInterrupt) e) = Some (tt, e1)
    /\ set_export_take env e1 = Some (init_take, e2)
    /\ prepare_scene env e2 = Some (single, e2a)
    /\ single = SYSisEqual (hou env) (myStartTime e) (myEndTime e)
    /\ resolved_start_path env (myExportOptions e) = Some (start_path_obs e2a)
    /\ export_from_start env single e2a = Some (tt, e3)
    /\ restore_take env init_take e3 = Some (tt, e4)
    /\ e' = set_myBoss None e4.
Proof.
  intros He Hint H.
  destruct (doExport_inv env e e' Hint H)
    as (e1 & init_take & e2 & e3 & e4 & H1 & H2 & H3 & H4 & ->).
  destruct (export_in_take_steps env e2 e3 H3) as (single & e2a & Hp & Hs & Hpath & Hrest).
  exists e1, init_take, e2, single, e2a, e3, e4.
  pose proof (bundle_scope_resolves env (set_myBoss (Some TheInterrupt) e) e1
                (proj1 (proj2 (proj2 He))) H1) as Hp1.
  cbn [myExportOptions set_myBoss] in Hp1.
  pose proof H1 as K1. frame_of (keeps times_obs) K1. cbn in K1. injection K1 as Hts1 Hte1.
  pose proof H2 as K2. frame_of (keeps (fun e => (times_obs e, start_path_obs e))) K2.
  cbn in K2. injection K2 as Hts2 Hte2 Hp2.
  repeat split; try assumption.
  - rewrite Hs. congruence.
  - rewrite Hp1. congruence.
Qed.

Lemma export_from_start_found (env : Env) (single : bool) (e e' : Exporter) (n : OP_Node) :
  findNode (hou env) (start_path_obs e) = Some n ->
  export_from_start env single e = Some (tt, e') ->
  export_scene env single n e = Some (tt, e').
Proof.
  intros Hn H. unfold export_from_start, bind in H. cbn [gets] in H.
  fold (start_path_obs e) in H. rewrite Hn in H. exact H.
Qed.

(** ** doExport and the options *)

Lemma prepare_scene_deforms (env : Env) (e e' : Exporter) (single : bool) :
  prepare_scene env e = Some (single, e') ->
  getExportDeformsAsVC (myExportOptions e')
  = if single then false else getExportDeformsAsVC (myExportOptions e).
Proof.
  intros H. unfold prepare_scene in H.
  apply bind_Some in H. destruct H as ([] & e1 & H1 & H).
  frame_of (keeps (fun e => getExportDeformsAsVC (myExportOptions e))) H1. cbn in H1.
  unfold getExportingAnimation in H. unfold bind at 1 in H. cbn [gets] in H. cbv zeta in H.
  apply bind_Some in H. destruct H as ([] & e2 & H2 & H).
  apply bind_Some in H. destruct H as ([] & e3 & H3 & H). injection H as <- <-.
  frame_of (keeps (fun e => getExportDeformsAsVC (myExportOptions e))) H3. cbn in H3.
  rewrite H3. rewrite negb_involutive in *.
  destruct (SYSisEqual (hou env) (myStartTime e1) (myEndTime e1)); cbn in H2;
    injection H2 as <-; cbn; [reflexivity | exact H1].
Qed.

Lemma options_eq (o o' : ROP_FBXExportOptions) :
  options_but_two o' = options_but_two o ->
  getStartNodePath o' = getStartNodePath o ->
  getExportDeformsAsVC o' = getExportDeformsAsVC o ->
  o' = o.
Proof.
  destruct o, o'. unfold options_but_two. cbn. intros H -> ->.
  injection H as -> -> -> -> -> -> -> -> -> -> ->. reflexivity.
Qed.

Lemma doExport_keeps_options (env : Env) :
  respects (keeps (fun e => options_but_two (myExportOptions e))) (doExport env).
Proof. respects_auto. Qed.

(** X13.  Of its copy of the options, [doExport] writes two: the start
    node path, which a bundle export replaces by the path of the top
    network, and the flag to export deforms as vertex caches, which an
    export of a single frame clears.  Every other option is as it was
    given. *)
Theorem doExport_writes_two_options (env : Env) (e : Exporter) (path : string) :
  alive e ->
  wasInterrupted (hou env) = false ->
  resolved_start_path env (myExportOptions e) = Some path ->
  exists e',
    doExport env e = Some (tt, e')
    /\ myExportOptions e'
       = setExportDeformsAsVC
           (if SYSisEqual (hou env) (myStartTime e) (myEndTime e) then false
            else getExportDeformsAsVC (myExportOptions e))
           (setStartNodePath path (myExportOptions e)).
Proof.
  intros He Hint Hpath.
  assert (Hb : bundles_resolve env e).
  { intros Hbundles. unfold resolved_start_path in Hpath. rewrite Hbundles in Hpath.
    destruct (bundle_top_network env (myExportOptions e)); [congruence | discriminate]. }
  destruct (doExport_returns env e He Hb) as (e' & H & _).
  exists e'. split; [exact H|].
  pose proof (doExport_keeps_options env e tt e' I H) as Hrest. cbn in Hrest.
  destruct (doExport_steps env e e' He Hint H)
    as (e1 & init_take & e2 & single & e2a & e3 & e4
        & H1 & H2 & Hprep & Hsingle & Hstart & Hfrom & H4 & ->).
  rewrite Hpath in Hstart. injection Hstart as Hstart.
  pose proof (prepare_scene_deforms env e2 e2a single Hprep) as Hd.
  frame_of (keeps (fun e => getExportDeformsAsVC (myExportOptions e))) H1. cbn in H1.
  frame_of (keeps (fun e => getExportDeformsAsVC (myExportOptions e))) H2. cbn in H2.
  frame_of (keeps (fun e => (getExportDeformsAsVC (myExportOptions e), start_path_obs e)))
           Hfrom.
  cbn in Hfrom. injection Hfrom as Hd3 Hp3.
  frame_of (keeps (fun e => (getExportDeformsAsVC (myExportOptions e), start_path_obs e)))
           H4.
  cbn in H4. injection H4 as Hd4 Hp4.
  apply options_eq.
  - exact Hrest.
  - cbn. unfold start_path_obs in *. congruence.
  - cbn. rewrite Hd4, Hd3, Hd, <- Hsingle, H2, H1. reflexivity.
Qed.

(** One frame of the sample scene, asked with vertex caches. *)
Lemma doExport_writes_two_options_witness :
  let opts := setExportDeformsAsVC true Sample.options in
  let e := Sample.session Sample.env 0%float 0%float opts in
  exists e',
    doExport Sample.env e = Some (tt, e')
    /\ myExportOptions e' = Sample.options.
Proof.
  intros opts e.
  destruct (doExport_writes_two_options Sample.env e "/obj") as (e' & H & Ho).
  - unfold alive. cbn. auto.
  - reflexivity.
  - reflexivity.
  - exists e'. split; [exact H|]. rewrite Ho. vm_compute. reflexivity.
Defined.

(** ** doExport and the time settings *)

Lemma export_in_take_one_frame_times (env : Env) :
  respects (both (given times_obs (single_frame env))
                 (both (keeps (scene_obs time_settings_obs)) (keeps time_mode_calls)))
           (export_in_take env).
Proof. unfold single_frame. respects_auto. Qed.

Lemma doExport_one_frame_times (env : Env) :
  respects (both (given times_obs (single_frame env))
                 (both (keeps (scene_obs time_settings_obs)) (keeps time_mode_calls)))
           (doExport env).
Proof. pose proof (export_in_take_one_frame_times env). respects_auto. Qed.

Lemma set_time_mode_settings (env : Env) (e e' : Exporter) :
  set_time_mode env e = Some (tt, e') ->
  scene_obs time_settings_obs e'
  = Some (time_mode_of (hou env) (getSamplesPerSec (hou env)), getSamplesPerSec (hou env),
          Some (timeline_span env (myStartTime e) (myEndTime e)))
  /\ time_mode_calls e'
     = time_mode_calls e
       ++ [Call_SetGlobalTimeMode (time_mode_of (hou env) (getSamplesPerSec (hou env)))
             (getSamplesPerSec (hou env))].
Proof.
  unfold set_time_mode, modify_settings, modify_scene, call, bind, deref, gets, modify.
  cbn. destruct (myScene e) as [sc|]; [|discriminate]. cbn.
  intros H. injection H as <-. unfold time_mode_calls. cbn.
  rewrite filter_app. split; reflexivity.
Qed.

Lemma prepare_scene_times (env : Env) (e e' : Exporter) (single : bool) :
  SYSisEqual (hou env) (myStartTime e) (myEndTime e) = false ->
  prepare_scene env e = Some (single, e') ->
  scene_obs time_settings_obs e'
  = Some (time_mode_of (hou env) (getSamplesPerSec (hou env)), getSamplesPerSec (hou env),
          Some (timeline_span env (myStartTime e) (myEndTime e)))
  /\ time_mode_calls e'
     = time_mode_calls e
       ++ [Call_SetGlobalTimeMode (time_mode_of (hou env) (getSamplesPerSec (hou env)))
             (getSamplesPerSec (hou env))].
Proof.
  intros Hanim H. unfold prepare_scene in H.
  apply bind_Some in H. destruct H as ([] & e1 & H1 & H).
  frame_of (keeps (fun e => (times_obs e, time_mode_calls e))) H1. cbn in H1.
  injection H1 as Hts Hte Hcalls.
  unfold getExportingAnimation in H. unfold bind at 1 in H. cbn [gets] in H. cbv zeta in H.
  rewrite Hts, Hte, Hanim in H. cbn [negb when] in H.
  unfold bind at 1 in H. cbn [ret] in H.
  apply bind_Some in H. destruct H as ([] & e3 & H3 & H). injection H as _ <-.
  destruct (set_time_mode_settings env e1 e3 H3) as (Hs & Hc).
  rewrite Hs, Hc, Hts, Hte. unfold time_mode_calls in *. rewrite Hcalls.
  split; reflexivity.
Qed.

(** X14.  An animated export sets the time mode and the frame rate of
    the scene, makes them the global time mode of the SDK, once, and
    sets the time span of the timeline to the frames of the start and
    the end time.  An export of a single frame leaves the three
    settings as they were and does not touch the global time mode. *)
Theorem timeline_settings (env : Env) (e : Exporter) :
  alive e -> bundles_resolve env e ->
  wasInterrupted (hou env) = false ->
  let time_mode := time_mode_of (hou env) (getSamplesPerSec (hou env)) in
  let curr_fps := getSamplesPerSec (hou env) in
  exists e',
    doExport env e = Some (tt, e')
    /\ (SYSisEqual (hou env) (myStartTime e) (myEndTime e) = true ->
        scene_obs time_settings_obs e' = scene_obs time_settings_obs e
        /\ time_mode_calls e' = time_mode_calls e)
    /\ (SYSisEqual (hou env) (myStartTime e) (myEndTime e) = false ->
        scene_obs time_settings_obs e'
        = Some (time_mode, curr_fps, Some (timeline_span env (myStartTime e) (myEndTime e)))
        /\ time_mode_calls e'
           = time_mode_calls e ++ [Call_SetGlobalTimeMode time_mode curr_fps]).
Proof.
  intros He Hb Hint time_mode curr_fps.
  destruct (doExport_returns env e He Hb) as (e' & H & _).
  exists e'. split; [exact H|]. split.
  - intros Hone.
    destruct (doExport_one_frame_times env e tt e') as (_ & Hobs & Hcalls).
    + cbn. unfold single_frame. cbn. auto.
    + exact H.
    + split; [exact Hobs | exact Hcalls].
  - intros Hanim.
    destruct (doExport_steps env e e' He Hint H)
      as (e1 & init_take & e2 & single & e2a & e3 & e4
          & H1 & H2 & Hprep & Hsingle & Hstart & Hfrom & H4 & ->).
    frame_of (keeps (fun e => (times_obs e, time_mode_calls e))) H1. cbn in H1.
    injection H1 as Hts1 Hte1 Hc1.
    frame_of (keeps (fun e => (times_obs e, time_mode_calls e))) H2. cbn in H2.
    injection H2 as Hts2 Hte2 Hc2.
    assert (Hanim2 : SYSisEqual (hou env) (myStartTime e2) (myEndTime e2) = false)
      by (rewrite Hts2, Hte2, Hts1, Hte1; exact Hanim).
    destruct (prepare_scene_times env e2 e2a single Hanim2 Hprep) as (Hs & Hc).
    frame_of (keeps (fun e => (scene_obs time_settings_obs e, time_mode_calls e))) Hfrom.
    cbn in Hfrom. injection Hfrom as Hs3 Hc3.
    frame_of (keeps (fun e => (scene_obs time_settings_obs e, time_mode_calls e))) H4.
    cbn in H4. injection H4 as Hs4 Hc4.
    split.
    + unfold scene_obs in *. cbn. rewrite Hs4, Hs3, Hs, Hts2, Hte2, Hts1, Hte1. reflexivity.
    + unfold time_mode_calls in *. cbn. rewrite Hc4, Hc3, Hc, Hc2, Hc1. reflexivity.
Qed.

(** One second of the sample scene, at 24 frames per second. *)
Lemma timeline_settings_witness :
  let e := Sample.session Sample.env 0%float 1%float Sample.options in
  exists e',
    doExport Sample.env e = Some (tt, e')
    /\ scene_obs time_settings_obs e'
       = Some (eFrames24, 24%float,
               Some {| span_start := {| time_frame := 1; time_mode := eFrames24 |};
                       span_stop := {| time_frame := 49; time_mode := eFrames24 |} |})
    /\ time_mode_calls e' = [Call_SetGlobalTimeMode eFrames24 24%float].
Proof.
  intros e.
  destruct (timeline_settings Sample.env e) as (e' & H & _ & Hanim).
  - unfold alive. cbn. auto.
  - intros Hb. discriminate Hb.
  - reflexivity.
  - exists e'. split; [exact H|]. apply Hanim. vm_compute. reflexivity.
Defined.

(** ** doExport: the two passes and the cancel flag *)

Lemma geometry_pass_actions (env : Env) (n : OP_Node) (e e1 : Exporter) (v : GeomVisit) :
  geometry_pass env n e = Some (v, e1) ->
  v = geom_visitScene (rop env) n
  /\ myDidCancel e1 = geom_getDidCancel v
  /\ action_calls e1
     = action_calls e ++ [Geom_visitScene n]
       ++ (if geom_getCreateInstancesAction v then [CreateInstances_performAction] else [])
  /\ ambient_obs e1 = ambient_obs e.
Proof.
  intros H. destruct (geometry_pass_result env n e e1 v H) as (Hv & Hc).
  split; [exact Hv|]. split; [exact Hc|].
  unfold geometry_pass, visit_geometry in H. cbv zeta in H.
  apply bind_Some in H. destruct H as (v0 & e0 & H0 & H).
  apply bind_Some in H0. destruct H0 as ([] & ea & Ha & H0).
  injection Ha as <-.
  apply bind_Some in H0. destruct H0 as ([] & eb & Hb & H0). injection H0 as <- <-.
  frame_of (keeps (fun e => (action_calls e, ambient_obs e))) Hb. cbn in Hb.
  injection Hb as Hb1 Hb2.
  apply bind_Some in H. destruct H as ([] & ec & Hc1 & H). injection Hc1 as <-.
  apply bind_Some in H. destruct H as ([] & ed & Hd & H). injection H as _ <-.
  subst v. unfold action_calls, ambient_obs, scene_obs in *.
  destruct (geom_getCreateInstancesAction (geom_visitScene (rop env) n));
    cbn in Hd; injection Hd as <-; cbn.
  - rewrite filter_app, Hb1, filter_app. cbn. rewrite Hb2, <- app_assoc. auto.
  - rewrite Hb1, filter_app. cbn. rewrite Hb2. auto.
Qed.

Lemma export_animation_cancel (env : Env) (n : OP_Node) (e e' : Exporter) :
  export_animation env n e = Some (tt, e') ->
  myDidCancel e' = anim_getDidCancel (rop env) n
  /\ action_calls e' = action_calls e
  /\ ambient_obs e' = ambient_obs e
  /\ myActionManager e' = myActionManager e.
Proof.
  intros H. pose proof H as K.
  frame_of (keeps (fun e => (action_calls e, ambient_obs e, myActionManager e))) K.
  cbn in K. injection K as K1 K2 K3.
  split; [|auto].
  unfold export_animation in H. cbv zeta in H.
  do 10 bind_step H. injection H as <-. reflexivity.
Qed.

Lemma post_actions_step (e e' : Exporter) :
  (cancelled <- gets myDidCancel ;;
   when (negb cancelled) (_ <- deref myActionManager ;; call performPostActions)) e
  = Some (tt, e') ->
  myDidCancel e' = myDidCancel e
  /\ action_calls e'
     = action_calls e ++ (if myDidCancel e then [] else [performPostActions])
  /\ ambient_obs e' = ambient_obs e.
Proof.
  unfold bind, gets, when, deref, call, modify, ret.
  destruct (myDidCancel e) eqn:Ec; cbn.
  - intros H. injection H as <-. rewrite Ec, app_nil_r. auto.
  - destruct (myActionManager e); [|discriminate]. intros H. injection H as <-.
    unfold action_calls, ambient_obs. cbn. rewrite filter_app. auto.
Qed.

Lemma export_scene_actions (env : Env) (single : bool) (n : OP_Node) (e e' : Exporter) :
  export_scene env single n e = Some (tt, e') ->
  let v := geom_visitScene (rop env) n in
  myDidCancel e' = export_cancelled env single n
  /\ action_calls e'
     = action_calls e ++ [Geom_visitScene n]
       ++ (if geom_getCreateInstancesAction v then [CreateInstances_performAction] else [])
       ++ (if export_cancelled env single n then [] else [performPostActions])
  /\ ambient_obs e'
     = if geom_getDidCancel v then ambient_obs e
       else Some (Some (geom_getAccumAmbientColor v)).
Proof.
  intros H v. unfold export_scene in H.
  apply bind_Some in H. destruct H as (v0 & e1 & H1 & H).
  destruct (geometry_pass_actions env n e e1 v0 H1) as (-> & Hc1 & Ha1 & Hm1).
  fold v in Hc1, Ha1. unfold bind at 1 in H. cbn [gets] in H. rewrite Hc1 in H.
  unfold export_cancelled. fold v.
  destruct (geom_getDidCancel v) eqn:Eg; cbn [negb when orb] in *.
  - injection H as <-. rewrite app_nil_r. auto.
  - destruct (finish_scene_inv env single n _ e1 e' H)
      as (ea & eb & ec & ed & Ha & Hb & Hc & Hd & Hu).
    assert (Hamb : ambient_obs ea = Some (Some (geom_getAccumAmbientColor v))
                   /\ action_calls ea = action_calls e1 /\ myDidCancel ea = myDidCancel e1).
    { unfold modify_scene, bind, deref, modify in Ha.
      destruct (myScene e1); [|discriminate]. injection Ha as <-. auto. }
    destruct Hamb as (Hamb & Haa & Hca).
    assert (Hanim : myDidCancel eb = (negb single && anim_getDidCancel (rop env) n)
                    /\ action_calls eb = action_calls ea /\ ambient_obs eb = ambient_obs ea).
    { destruct single; cbn [negb when andb] in *.
      - injection Hb as <-. rewrite Hca, Hc1. auto.
      - destruct (export_animation_cancel env n ea eb Hb) as (K1 & K2 & K3 & _). auto. }
    destruct Hanim as (Hcb & Hab & Hmb).
    destruct (post_actions_step eb ec Hc) as (Hcc & Hac & Hmc).
    frame_of (keeps (fun e => (myDidCancel e, action_calls e, ambient_obs e))) Hd.
    frame_of (keeps (fun e => (myDidCancel e, action_calls e, ambient_obs e))) Hu.
    cbn in Hd, Hu. injection Hd as Hd1 Hd2 Hd3. injection Hu as Hu1 Hu2 Hu3.
    split; [congruence|]. split; [|congruence].
    unfold action_calls, ambient_obs in *.
    rewrite Hu2, Hd2, Hac, Hab, Haa, Ha1, Hcb, <- !app_assoc. reflexivity.
Qed.

Lemma resolved_bundles_resolve (env : Env) (e : Exporter) (path : string) :
  resolved_start_path env (myExportOptions e) = Some path -> bundles_resolve env e.
Proof.
  intros Hpath Hbundles. unfold resolved_start_path in Hpath. rewrite Hbundles in Hpath.
  destruct (bundle_top_network env (myExportOptions e)); [congruence | discriminate].
Qed.

Lemma doExport_passes (env : Env) (e e' : Exporter) (path : string) (n : OP_Node) :
  alive e ->
  wasInterrupted (hou env) = false ->
  resolved_start_path env (myExportOptions e) = Some path ->
  findNode (hou env) path = Some n ->
  doExport env e = Some (tt, e') ->
  let v := geom_visitScene (rop env) n in
  let cancelled :=
    export_cancelled env (SYSisEqual (hou env) (myStartTime e) (myEndTime e)) n in
  myDidCancel e' = cancelled
  /\ action_calls e'
     = action_calls e ++ [Geom_visitScene n]
       ++ (if geom_getCreateInstancesAction v then [CreateInstances_performAction] else [])
       ++ (if cancelled then [] else [performPostActions])
  /\ ambient_obs e'
     = if geom_getDidCancel v then ambient_obs e
       else Some (Some (geom_getAccumAmbientColor v)).
Proof.
  intros He Hint Hpath Hfind H v cancelled.
  destruct (doExport_steps env e e' He Hint H)
    as (e1 & init_take & e2 & single & e2a & e3 & e4
        & H1 & H2 & Hprep & Hsingle & Hstart & Hfrom & H4 & ->).
  rewrite Hpath in Hstart. injection Hstart as Hstart.
  rewrite Hstart in Hfind.
  pose proof (export_from_start_found env single e2a e3 n Hfind Hfrom) as Hscene.
  destruct (export_scene_actions env single n e2a e3 Hscene) as (Hc & Ha & Hm).
  fold v in Ha, Hm. rewrite Hsingle in Hc, Ha. fold cancelled in Hc, Ha.
  frame_of (keeps (fun e => (action_calls e, ambient_obs e))) H1. cbn in H1.
  injection H1 as Ha1 Hm1.
  frame_of (keeps (fun e => (action_calls e, ambient_obs e))) H2. cbn in H2.
  injection H2 as Ha2 Hm2.
  frame_of (keeps (fun e => (action_calls e, ambient_obs e))) Hprep. cbn in Hprep.
  injection Hprep as Ha3 Hm3.
  frame_of (keeps (fun e => (myDidCancel e, action_calls e, ambient_obs e))) H4. cbn in H4.
  injection H4 as Hc4 Ha4 Hm4.
  unfold action_calls, ambient_obs, scene_obs in *. cbn.
  split; [congruence|]. split.
  - rewrite Ha4, Ha, Ha3, Ha2, Ha1. reflexivity.
  - rewrite Hm4, Hm, Hm3, Hm2, Hm1. reflexivity.
Qed.

(** X15.  When the start node is found, [doExport] calls the geometry
    visitor on it once, performs the create-instances action when the
    visitor holds one, also when the visitor was cancelled, and
    performs the post-actions once unless a pass was cancelled.  The
    cancel flag it leaves says whether the geometry pass or, in an
    animated export, the animation pass was cancelled; the ambient
    colour is set from the visitor unless the geometry pass was
    cancelled. *)
Theorem passes_and_cancel_flag (env : Env) (e : Exporter) (path : string) (n : OP_Node) :
  alive e ->
  wasInterrupted (hou env) = false ->
  resolved_start_path env (myExportOptions e) = Some path ->
  findNode (hou env) path = Some n ->
  let v := geom_visitScene (rop env) n in
  let cancelled :=
    export_cancelled env (SYSisEqual (hou env) (myStartTime e) (myEndTime e)) n in
  exists e',
    doExport env e = Some (tt, e')
    /\ myDidCancel e' = cancelled
    /\ action_calls e'
       = action_calls e ++ [Geom_visitScene n]
         ++ (if geom_getCreateInstancesAction v then [CreateInstances_performAction] else [])
         ++ (if cancelled then [] else [performPostActions])
    /\ ambient_obs e'
       = if geom_getDidCancel v then ambient_obs e
         else Some (Some (geom_getAccumAmbientColor v)).
Proof.
  intros He Hint Hpath Hfind v cancelled.
  destruct (doExport_returns env e He (resolved_bundles_resolve env e path Hpath))
    as (e' & H & _).
  exists e'. split; [exact H|].
  exact (doExport_passes env e e' path n He Hint Hpath Hfind H).
Qed.

(** One second of the sample scene: nothing is cancelled. *)
Lemma passes_and_cancel_flag_witness :
  let e := Sample.session Sample.env 0%float 1%float Sample.options in
  exists e',
    doExport Sample.env e = Some (tt, e')
    /\ myDidCancel e' = false
    /\ action_calls e' = [Geom_visitScene Sample.obj; performPostActions]
    /\ ambient_obs e' = Some (Some (0%float, 0%float, 0%float)).
Proof.
  intros e.
  destruct (passes_and_cancel_flag Sample.env e "/obj" Sample.obj)
    as (e' & H & Hc & Ha & Hm).
  - unfold alive. cbn. auto.
  - reflexivity.
  - reflexivity.
  - reflexivity.
  - exists e'. split; [exact H|]. split; [exact Hc|]. split; [exact Ha | exact Hm].
Defined.

(** ** A cancelled export *)

Lemma filter_none (p : Call -> bool) (l : list Call) :
  forallb (fun c => negb (p c)) l = true -> filter p l = [].
Proof.
  intros H. apply length_zero_iff_nil. apply (count_calls_none p l H).
Qed.

(** X16.  When a pass of [doExport] is cancelled, the [finishExport]
    that follows returns false; from the start of [doExport] to the end
    of [finishExport] no call is made to the writer, the scene and the
    manager are destroyed once each, and the error sink is as
    [doExport] left it. *)
Theorem cancelled_export_not_written (env : Env) (e : Exporter) (path : string)
    (n : OP_Node) :
  alive e ->
  wasInterrupted (hou env) = false ->
  resolved_start_path env (myExportOptions e) = Some path ->
  findNode (hou env) path = Some n ->
  export_cancelled env (SYSisEqual (hou env) (myStartTime e) (myEndTime e)) n = true ->
  exists e' e'',
    doExport env e = Some (tt, e')
    /\ myDidCancel e' = true
    /\ finishExport env e' = Some (false, e'')
    /\ filter is_writer_call (calls_since e e'') = []
    /\ count_calls is_scene_destroy (calls_since e e'') = 1
    /\ count_calls is_manager_destroy (calls_since e e'') = 1
    /\ myScene e'' = None /\ mySDKManager e'' = None
    /\ myNodeManager e'' = None /\ myActionManager e'' = None
    /\ myErrorManager e'' = myErrorManager e'.
Proof.
  intros He Hint Hpath Hfind Hcancel.
  destruct (doExport_returns env e He (resolved_bundles_resolve env e path Hpath))
    as (e' & H & He').
  destruct (doExport_passes env e e' path n He Hint Hpath Hfind H) as (Hc & _).
  rewrite Hcancel in Hc.
  exists e', (after_release e'). split; [exact H|]. split; [exact Hc|].
  split.
  { unfold finishExport. unfold bind at 1. cbn [gets]. rewrite Hc. cbn [negb].
    unfold bind at 1, ret at 1. unfold bind. rewrite release_all_eq. reflexivity. }
  pose proof H as K.
  frame_of (both (avoids is_writer_call)
                 (both (avoids is_scene_destroy) (avoids is_manager_destroy))) K.
  destruct K as ((l & El & Fw) & (l1 & El1 & Fs) & (l2 & El2 & Fm)).
  assert (l1 = l) by (rewrite El in El1; apply app_inv_head in El1; congruence).
  assert (l2 = l) by (rewrite El in El2; apply app_inv_head in El2; congruence).
  subst l1 l2.
  assert (Hsince : calls_since e (after_release e') = l ++ release_calls e').
  { apply calls_since_app. unfold after_release. cbn. rewrite El, app_assoc. reflexivity. }
  rewrite Hsince.
  destruct He' as (Hmgr & Hsc & Hnm & Ham).
  split; [|split; [|split; [|repeat split]]].
  - rewrite filter_app, (filter_none _ _ Fw), release_calls_no_writer. reflexivity.
  - rewrite count_calls_app, (count_calls_none _ _ Fs).
    unfold release_calls. rewrite Hmgr, Hsc, Hnm, Ham. unfold count_calls.
    cbn. rewrite filter_app, (filter_delete_strings is_scene_destroy) by reflexivity.
    reflexivity.
  - rewrite count_calls_app, (count_calls_none _ _ Fm).
    unfold release_calls. rewrite Hmgr, Hsc, Hnm, Ham. unfold count_calls.
    cbn. rewrite filter_app, (filter_delete_strings is_manager_destroy) by reflexivity.
    reflexivity.
Qed.

(** The sample session with a geometry visitor that is cancelled. *)
Lemma cancelled_export_not_written_witness :
  let e := Sample.session cancelling_env 0%float 1%float Sample.options in
  exists e' e'',
    doExport cancelling_env e = Some (tt, e')
    /\ myDidCancel e' = true
    /\ finishExport cancelling_env e' = Some (false, e'')
    /\ filter is_writer_call (calls_since e e'') = [].
Proof.
  intros e.
  destruct (cancelled_export_not_written cancelling_env e "/obj" Sample.obj)
    as (e' & e'' & H & Hc & Hf & Hw & _).
  - unfold alive. cbn. auto.
  - reflexivity.
  - reflexivity.
  - reflexivity.
  - reflexivity.
  - exists e', e''. repeat split; assumption.
Defined.

(** ** doExport: the axis system, converted or labelled *)

Lemma setup_axis_system_outcome (env : Env) (e e' : Exporter) :
  setup_axis_system env e = Some (tt, e') ->
  let a := getAxisSystem (myExportOptions e) in
  let target := target_axis_of a (baseline_axis env) in
  if getConvertAxisSystem (myExportOptions e) && negb (is_Current a)
  then
    if FbxAxisSystem_eqb target (baseline_axis env)
    then e' = e
    else scene_obs axis_obs e' = Some (target, Some (baseline_axis env))
         /\ axis_calls e' = axis_calls e ++ [Axis_ConvertScene target]
  else
    scene_obs axis_obs e'
    = option_map (fun o => (axis_label env a, snd o)) (scene_obs axis_obs e)
    /\ axis_calls e' = axis_calls e.
Proof.
  unfold setup_axis_system. intros H. cbv zeta.
  unfold bind at 1, deref in H. destruct (myScene e) as [sc|] eqn:Esc; [|discriminate].
  unfold bind at 1 in H. cbn [gets] in H. cbv zeta in H.
  change (host_axis_system (hou env) (AxisSystem (GlobalSettings sc)))
    with (baseline_axis env) in H.
  destruct (getConvertAxisSystem (myExportOptions e)
            && negb (is_Current (getAxisSystem (myExportOptions e)))).
  - destruct (FbxAxisSystem_eqb
                (target_axis_of (getAxisSystem (myExportOptions e)) (baseline_axis env))
                (baseline_axis env)); cbn [negb when] in H.
    + injection H as <-. reflexivity.
    + unfold modify_settings, modify_scene, call, bind, deref, modify in H.
      rewrite Esc in H. cbn in H. injection H as <-.
      unfold axis_calls. cbn. rewrite filter_app. split; reflexivity.
  - unfold axis_label, axis_calls, scene_obs, axis_obs.
    destruct (getAxisSystem (myExportOptions e));
      unfold modify_settings, modify_scene, bind, deref, modify in H;
      rewrite Esc in H; injection H as <-; cbn; rewrite Esc; auto.
Qed.

(** A [doExport] whose geometry pass is not cancelled reaches the axis
    block, with the axis system of the scene and the options as they
    were, and leaves what the block has done. *)
Lemma doExport_axis_block (env : Env) (e e' : Exporter) (path : string) (n : OP_Node) :
  alive e ->
  wasInterrupted (hou env) = false ->
  resolved_start_path env (myExportOptions e) = Some path ->
  findNode (hou env) path = Some n ->
  geom_getDidCancel (geom_visitScene (rop env) n) = false ->
  doExport env e = Some (tt, e') ->
  exists ec ed,
    setup_axis_system env ec = Some (tt, ed)
    /\ scene_obs axis_obs ec = scene_obs axis_obs e
    /\ axis_calls ec = axis_calls e
    /\ axis_options_obs ec = axis_options_obs e
    /\ scene_obs axis_obs e' = scene_obs axis_obs ed
    /\ axis_calls e' = axis_calls ed.
Proof.
  intros He Hint Hpath Hfind Hgeom H.
  destruct (doExport_steps env e e' He Hint H)
    as (e1 & init_take & e2 & single & e2a & e3 & e4
        & H1 & H2 & Hprep & Hsingle & Hstart & Hfrom & H4 & ->).
  rewrite Hpath in Hstart. injection Hstart as Hstart. rewrite Hstart in Hfind.
  pose proof (export_from_start_found env single e2a e3 n Hfind Hfrom) as Hscene.
  destruct (export_scene_reached env single n e2a e3 Hgeom Hscene) as (e2b & Hpass & Hfin).
  destruct (finish_scene_inv env single n _ e2b e3 Hfin)
    as (ea & eb & ec & ed & Ha & Hb & Hc & Hd & Hu).
  exists ec, ed. split; [exact Hd|].
  frame_of (keeps (fun e => (scene_obs axis_obs e, axis_calls e, axis_options_obs e))) H1.
  frame_of (keeps (fun e => (scene_obs axis_obs e, axis_calls e, axis_options_obs e))) H2.
  frame_of (keeps (fun e => (scene_obs axis_obs e, axis_calls e, axis_options_obs e))) Hprep.
  frame_of (keeps (fun e => (scene_obs axis_obs e, axis_calls e, axis_options_obs e))) Hpass.
  frame_of (keeps (fun e => (scene_obs axis_obs e, axis_calls e, axis_options_obs e))) Ha.
  frame_of (keeps (fun e => (scene_obs axis_obs e, axis_calls e, axis_options_obs e))) Hb.
  frame_of (keeps (fun e => (scene_obs axis_obs e, axis_calls e, axis_options_obs e))) Hc.
  frame_of (keeps (fun e => (scene_obs axis_obs e, axis_calls e))) Hu.
  frame_of (keeps (fun e => (scene_obs axis_obs e, axis_calls e))) H4.
  cbn in H1, H2, Hprep, Hpass, Ha, Hb, Hc, Hu, H4.
  injection H1 as A1 B1 C1 D1. injection H2 as A2 B2 C2 D2.
  injection Hprep as A3 B3 C3 D3. injection Hpass as A4 B4 C4 D4.
  injection Ha as A5 B5 C5 D5. injection Hb as A6 B6 C6 D6.
  injection Hc as A7 B7 C7 D7. injection Hu as A8 B8. injection H4 as A9 B9.
  unfold axis_calls, axis_options_obs, scene_obs in *. cbn. cbn in A1.
  repeat split; congruence.
Qed.

(** X17.  When the options ask for an axis conversion to a system that
    is not the one of the host, a [doExport] that gets past its geometry
    pass records the axis system of the host as the original up axis
    and asks the SDK, once, to convert the scene to the target, which
    is then the axis system of the scene. *)
Theorem axis_conversion_performed (env : Env) (e : Exporter) (path : string) (n : OP_Node) :
  alive e ->
  wasInterrupted (hou env) = false ->
  resolved_start_path env (myExportOptions e) = Some path ->
  findNode (hou env) path = Some n ->
  geom_getDidCancel (geom_visitScene (rop env) n) = false ->
  getConvertAxisSystem (myExportOptions e) = true ->
  let target := target_axis_of (getAxisSystem (myExportOptions e)) (baseline_axis env) in
  FbxAxisSystem_eqb target (baseline_axis env) = false ->
  exists e',
    doExport env e = Some (tt, e')
    /\ scene_obs axis_obs e' = Some (target, Some (baseline_axis env))
    /\ axis_calls e' = axis_calls e ++ [Axis_ConvertScene target].
Proof.
  intros He Hint Hpath Hfind Hgeom Hconv target Hdiff.
  destruct (doExport_returns env e He (resolved_bundles_resolve env e path Hpath))
    as (e' & H & _).
  exists e'. split; [exact H|].
  destruct (doExport_axis_block env e e' path n He Hint Hpath Hfind Hgeom H)
    as (ec & ed & Hd & Hobs & Hcalls & Hopts & Hobs' & Hcalls').
  unfold axis_options_obs in Hopts. injection Hopts as Hc Ha.
  pose proof (setup_axis_system_outcome env ec ed Hd) as Hout. cbv zeta in Hout.
  rewrite Hc, Ha, Hconv in Hout. fold target in Hout.
  assert (Hcur : is_Current (getAxisSystem (myExportOptions e)) = false).
  { clear Hout. subst target.
    destruct (getAxisSystem (myExportOptions e)); try reflexivity.
    exfalso. cbn [target_axis_of] in Hdiff.
    assert (Hrefl : FbxAxisSystem_eqb (baseline_axis env) (baseline_axis env) = true)
      by (destruct (baseline_axis env) as [[] [] []]; reflexivity).
    congruence. }
  rewrite Hcur, Hdiff in Hout. cbn [negb andb] in Hout. destruct Hout as (Ho & Hcl).
  split; [congruence|]. rewrite Hcalls', Hcl, Hcalls. reflexivity.
Qed.

(** The sample host is Y-up; the options ask for Z-up. *)
Lemma axis_conversion_performed_witness :
  let e := Sample.session Sample.env 0%float 0%float zup_options in
  exists e',
    doExport Sample.env e = Some (tt, e')
    /\ scene_obs axis_obs e' = Some (MayaZUp, Some MayaYUp)
    /\ axis_calls e' = [Axis_ConvertScene MayaZUp].
Proof.
  intros e.
  destruct (axis_conversion_performed Sample.env e "/obj" Sample.obj)
    as (e' & H & Ho & Hc).
  - unfold alive. cbn. auto.
  - reflexivity.
  - reflexivity.
  - reflexivity.
  - reflexivity.
  - reflexivity.
  - reflexivity.
  - exists e'. split; [exact H|]. split; [exact Ho | exact Hc].
Defined.

(** X18.  Without a request for conversion, or with the axis system
    "current", a [doExport] that gets past its geometry pass only
    labels the scene with the axis system of the options (the one of
    the host for "current"): no conversion is asked for and the
    original up axis is as it was. *)
Theorem axis_system_labelled (env : Env) (e : Exporter) (path : string) (n : OP_Node)
    (sc : FbxScene) :
  alive e ->
  myScene e = Some sc ->
  wasInterrupted (hou env) = false ->
  resolved_start_path env (myExportOptions e) = Some path ->
  findNode (hou env) path = Some n ->
  geom_getDidCancel (geom_visitScene (rop env) n) = false ->
  getConvertAxisSystem (myExportOptions e) = false
  \/ getAxisSystem (myExportOptions e) = ROP_FBXAxisSystem_Current ->
  exists e',
    doExport env e = Some (tt, e')
    /\ scene_obs axis_obs e'
       = Some (axis_label env (getAxisSystem (myExportOptions e)),
               OriginalUpAxis (GlobalSettings sc))
    /\ axis_calls e' = axis_calls e.
Proof.
  intros He Hsc Hint Hpath Hfind Hgeom Hlabel.
  destruct (doExport_returns env e He (resolved_bundles_resolve env e path Hpath))
    as (e' & H & _).
  exists e'. split; [exact H|].
  destruct (doExport_axis_block env e e' path n He Hint Hpath Hfind Hgeom H)
    as (ec & ed & Hd & Hobs & Hcalls & Hopts & Hobs' & Hcalls').
  unfold axis_options_obs in Hopts. injection Hopts as Hc Ha.
  pose proof (setup_axis_system_outcome env ec ed Hd) as Hout. cbv zeta in Hout.
  rewrite Hc, Ha in Hout.
  assert (Htest : getConvertAxisSystem (myExportOptions e)
                  && negb (is_Current (getAxisSystem (myExportOptions e))) = false).
  { destruct Hlabel as [-> | ->]; [reflexivity | apply andb_false_r]. }
  rewrite Htest in Hout. destruct Hout as (Ho & Hcl).
  split; [|congruence].
  rewrite Hobs', Ho, Hobs. unfold scene_obs. rewrite Hsc. reflexivity.
Qed.

(** The sample scene labelled Z-up. *)
Lemma axis_system_labelled_witness :
  let e := Sample.session Sample.env 0%float 0%float zup_label_options in
  exists e',
    doExport Sample.env e = Some (tt, e')
    /\ scene_obs axis_obs e' = Some (Max, None)
    /\ axis_calls e' = [].
Proof.
  intros e.
  destruct (axis_system_labelled Sample.env e "/obj" Sample.obj
              (FbxScene_Create Sample.fbxsdk)) as (e' & H & Ho & Hc).
  - unfold alive. cbn. auto.
  - reflexivity.
  - reflexivity.
  - reflexivity.
  - reflexivity.
  - reflexivity.
  - left. reflexivity.
  - exists e'. split; [exact H|]. split; [exact Ho | exact Hc].
Defined.

(** ** The bundle block: the nodes it records *)

Lemma add_bundled_nodes_eq (nodes : list OP_Node) :
  forall nm,
    bundled_nodes (add_bundled_nodes nodes nm) = bundled_nodes nm ++ nodes
    /\ node_pairs (add_bundled_nodes nodes nm) = node_pairs nm.
Proof.
  unfold add_bundled_nodes.
  induction nodes as [|n rest IH]; intros nm; cbn.
  - rewrite app_nil_r. auto.
  - destruct (IH (addBundledNode n nm)) as (H1 & H2). rewrite H1, H2. cbn.
    rewrite <- app_assoc. auto.
Qed.

Lemma present_nodes_in (nodes : list (option OP_Node)) (n : OP_Node) :
  In n (present_nodes nodes) <-> In (Some n) nodes.
Proof.
  induction nodes as [|[m|] rest IH]; cbn.
  - tauto.
  - rewrite IH. split; intros [H | H]; auto; left; congruence.
  - rewrite IH. split; [auto|]. intros [H | H]; [discriminate | exact H].
Qed.

Lemma matched_nodes_in (h : Houdini) (bundle_names : string)
    (bundles : list (option OP_Bundle)) (n : OP_Node) :
  In n (matched_nodes h bundle_names bundles) <->
  exists bundle,
    In (Some bundle) bundles
    /\ multiMatch h (bundle_getName bundle) bundle_names = true
    /\ In (Some n) (bundle_nodes bundle).
Proof.
  induction bundles as [|[b|] rest IH]; cbn [matched_nodes].
  - cbn. split; [tauto | intros (b & [] & _)].
  - destruct (multiMatch h (bundle_getName b) bundle_names) eqn:Em; cbn [negb].
    + rewrite in_app_iff, IH, present_nodes_in. split.
      * intros [H | (b' & H1 & H2 & H3)].
        -- exists b. cbn. auto.
        -- exists b'. cbn. auto.
      * intros (b' & [H1 | H1] & H2 & H3).
        -- injection H1 as <-. left. exact H3.
        -- right. exists b'. auto.
    + rewrite IH. split.
      * intros (b' & H1 & H2 & H3). exists b'. cbn. auto.
      * intros (b' & [H1 | H1] & H2 & H3).
        -- injection H1 as <-. congruence.
        -- exists b'. auto.
  - rewrite IH. split.
    + intros (b' & H1 & H2 & H3). exists b'. cbn. auto.
    + intros (b' & [H1 | H1] & H2 & H3); [discriminate|]. exists b'. auto.
Qed.

(** X19.  The bundle block adds to the bundled nodes of the node
    manager, in order, the nodes that are not null of the bundles that
    are not null and whose name matches the bundle names; it leaves the
    node pairs alone and changes no option but the start node path,
    which becomes the full path of the top network, whatever it was. *)
Theorem bundled_nodes_recorded (env : Env) (e : Exporter) (nm : ROP_FBXNodeManager)
    (top : OP_Node) :
  myNodeManager e = Some nm ->
  bundle_top_network env (myExportOptions e) = Some top ->
  let bundle_names := strip (hou env) (getBundlesString (myExportOptions e)) "@" in
  let matched := matched_nodes (hou env) bundle_names (getBundles (hou env)) in
  exists e',
    export_bundles env e = Some (top, e')
    /\ option_map bundled_nodes (myNodeManager e') = Some (bundled_nodes nm ++ matched)
    /\ option_map node_pairs (myNodeManager e') = Some (node_pairs nm)
    /\ myExportOptions e'
       = setStartNodePath (getFullPath (hou env) top) (myExportOptions e)
    /\ (forall n,
          In n matched <->
          exists bundle,
            In (Some bundle) (getBundles (hou env))
            /\ multiMatch (hou env) (bundle_getName bundle) bundle_names = true
            /\ In (Some n) (bundle_nodes bundle)).
Proof.
  intros Hnm Htop bundle_names matched.
  pose proof (export_bundles_eq env e nm Hnm) as Heq. rewrite Htop in Heq.
  eexists. split; [exact Heq|]. cbn.
  fold bundle_names. fold matched.
  destruct (add_bundled_nodes_eq matched nm) as (H1 & H2). rewrite H1, H2.
  repeat split; try reflexivity; apply matched_nodes_in.
Qed.

(** The bundle of the sample scene. *)
Lemma bundled_nodes_recorded_witness :
  let e := Sample.session Sample.env 0%float 0%float Sample.bundle_options in
  exists e',
    export_bundles Sample.env e = Some (Sample.subnet1, e')
    /\ option_map bundled_nodes (myNodeManager e') = Some [Sample.geoA; Sample.geoB].
Proof.
  intros e.
  destruct (bundled_nodes_recorded Sample.env e new_ROP_FBXNodeManager Sample.subnet1)
    as (e' & H & Hn & _).
  - reflexivity.
  - vm_compute. reflexivity.
  - exists e'. split; [exact H|]. rewrite Hn. vm_compute. reflexivity.
Defined.

(** X20.  When no node of a bundle matches and the host has no node
    [/obj], the bundle block is left with a null top network and
    crashes asking it for its full path, and [doExport] with it. *)
Theorem bundle_export_needs_object_network (env : Env) (e : Exporter)
    (nm : ROP_FBXNodeManager) :
  myNodeManager e = Some nm ->
  wasInterrupted (hou env) = false ->
  isExportingBundles (myExportOptions e) = true ->
  findNode (hou env) "/obj" = None ->
  matched_nodes (hou env) (strip (hou env) (getBundlesString (myExportOptions e)) "@")
    (getBundles (hou env)) = [] ->
  export_bundles env e = None /\ doExport env e = None.
Proof.
  intros Hnm Hint Hb Hobj Hmatched.
  assert (Hcrash : forall e0, myNodeManager e0 = Some nm ->
                              myExportOptions e0 = myExportOptions e ->
                              export_bundles env e0 = None).
  { intros e0 H0 Ho. rewrite (export_bundles_eq env e0 nm H0). unfold bundle_top_network.
    rewrite Ho, Hmatched, Hobj. reflexivity. }
  split; [apply Hcrash; [exact Hnm | reflexivity]|].
  unfold doExport. rewrite Hint. unfold bind at 1. cbn [modify].
  unfold bind at 1. unfold bind at 1. unfold bundle_scope. unfold bind at 1. cbn [gets].
  cbn [myExportOptions set_myBoss]. rewrite Hb. cbn [when]. unfold bind at 1.
  rewrite (Hcrash (set_myBoss (Some TheInterrupt) e) Hnm eq_refl). reflexivity.
Qed.

(** A host without nodes and without bundles. *)
Lemma bundle_export_needs_object_network_witness :
  let e := Sample.session bare_env 0%float 0%float Sample.bundle_options in
  export_bundles bare_env e = None /\ doExport bare_env e = None.
Proof.
  intros e.
  apply (bundle_export_needs_object_network bare_env e new_ROP_FBXNodeManager);
    reflexivity.
Defined.

(** ** getFBXRootNode: the requests answered with the scene root *)

(** X21.  [getFBXRootNode] answers with the scene root, and changes
    nothing, whenever no subnet root is asked for, and whenever the
    asking node is the export node; when the start node path is "/", is
    not found, or is a node without a parent network or whose parent
    network is "/", it answers every request so, and no series of
    requests creates a world_root. *)
Theorem scene_root_requests (env : Env) (e : Exporter) :
  is_some (myScene e) = true ->
  let export_path := getStartNodePath (myExportOptions e) in
  (forall asking_node,
      getFBXRootNode env asking_node false e = Some (SceneRootNode, e))
  /\ (forall export_node create_subnet_root,
         findNode (hou env) export_path = Some export_node ->
         getFBXRootNode env (Some export_node) create_subnet_root e
         = Some (SceneRootNode, e))
  /\ (export_path = "/"
      \/ findNode (hou env) export_path = None
      \/ (exists export_node,
             findNode (hou env) export_path = Some export_node
             /\ (getParentNetwork export_node = None
                 \/ exists parent_net,
                      getParentNetwork export_node = Some parent_net
                      /\ getFullPath (hou env) parent_net = "/")) ->
      (forall asking_node create_subnet_root,
          getFBXRootNode env asking_node create_subnet_root e = Some (SceneRootNode, e))
      /\ forall reqs, run_root_requests env reqs e = Some (tt, e)).
Proof.
  intros Hsc export_path. split; [|split].
  - intros asking. apply getFBXRootNode_scene_root; [exact Hsc|].
    unfold subnet_root_export_node. fold export_path.
    destruct (String.eqb export_path "/"); [reflexivity|].
    destruct (findNode (hou env) export_path) as [n|]; [|reflexivity].
    destruct (ptr_eqb asking (Some n)); [reflexivity|].
    destruct (getParentNetwork n) as [p|]; [|reflexivity].
    destruct (String.eqb (getFullPath (hou env) p) "/"); reflexivity.
  - intros n create Hn. apply getFBXRootNode_scene_root; [exact Hsc|].
    unfold subnet_root_export_node. fold export_path. rewrite Hn.
    destruct (String.eqb export_path "/"); [reflexivity|].
    cbn [ptr_eqb]. rewrite OP_Node_eqb_refl. reflexivity.
  - intros Htop.
    assert (Hnone : forall asking create,
               subnet_root_export_node env e asking create = None).
    { intros asking create. unfold subnet_root_export_node. fold export_path.
      destruct Htop as [-> | [-> | (n & -> & [-> | (p & -> & ->)])]];
        try reflexivity.
      - destruct (String.eqb export_path "/"); reflexivity.
      - destruct (String.eqb export_path "/"); [reflexivity|].
        destruct (ptr_eqb asking (Some n)); reflexivity.
      - destruct (String.eqb export_path "/"); [reflexivity|].
        destruct (ptr_eqb asking (Some n)); reflexivity. }
    assert (Hroot : forall asking create,
               getFBXRootNode env asking create e = Some (SceneRootNode, e)).
    { intros asking create. apply getFBXRootNode_scene_root; [exact Hsc | apply Hnone]. }
    split; [exact Hroot|].
    induction reqs as [|[asking create] rest IH]; cbn [run_root_requests].
    + reflexivity.
    + unfold bind. rewrite Hroot. exact IH.
Qed.

(** The sample session exports [/obj], a child of the director. *)
Lemma scene_root_requests_witness :
  let e := Sample.session Sample.env 0%float 0%float Sample.options in
  getFBXRootNode Sample.env (Some Sample.geoA) false e = Some (SceneRootNode, e)
  /\ forall reqs, run_root_requests Sample.env reqs e = Some (tt, e).
Proof.
  intros e.
  destruct (scene_root_requests Sample.env e) as (H1 & _ & H3).
  - reflexivity.
  - split; [apply H1|]. apply H3.
    right. right. exists Sample.obj. split; [reflexivity|].
    right. exists Sample.root. split; reflexivity.
Defined.

(** ** The accessors after doExport *)

(** X22.  After [doExport], on every path, [GetBoss] answers null; the
    output file name, the time range, the manager and the action
    manager the accessors give are the ones before the export; the
    scene and the node manager are still there; the error sink has only
    grown; and the options are the ones before, up to the two
    [doExport] writes. *)
Theorem accessors_after_export (env : Env) (e : Exporter) :
  alive e -> bundles_resolve env e ->
  exists e',
    doExport env e = Some (tt, e')
    /\ GetBoss e' = Some (None, e')
    /\ getOutputFileName e' = Some (myOutputFile e, e')
    /\ getStartTime e' = Some (myStartTime e, e')
    /\ getEndTime e' = Some (myEndTime e, e')
    /\ getSDKManager e' = Some (mySDKManager e, e')
    /\ getActionManager e' = Some (myActionManager e, e')
    /\ (exists sc nm, getFBXScene e' = Some (Some sc, e')
                      /\ getNodeManager e' = Some (Some nm, e'))
    /\ (exists l, getErrorManager e' = Some (myErrorManager e ++ l, e'))
    /\ exists opts,
         getExportOptions e' = Some (opts, e')
         /\ options_but_two opts = options_but_two (myExportOptions e).
Proof.
  intros He Hb. destruct (doExport_returns env e He Hb) as (e' & H & He').
  exists e'. split; [exact H|].
  pose proof H as K.
  frame_of (keeps (fun e => (myOutputFile e, times_obs e, mySDKManager e,
                             myActionManager e))) K.
  cbn in K. injection K as K1 K2 K3 K4 K5.
  pose proof H as K6.
  frame_of (keeps (fun e => options_but_two (myExportOptions e))) K6. cbn beta in K6.
  assert (Hboss : myBoss e' = None).
  { unfold doExport in H. bind_step H. bind_step H. injection H as <-. reflexivity. }
  pose proof H as Herr. frame_of errors_grow Herr. cbn in Herr.
  destruct He' as (_ & Hsc & Hnm & _).
  unfold GetBoss, getOutputFileName, getStartTime, getEndTime, getSDKManager,
    getActionManager, getFBXScene, getNodeManager, getErrorManager, getExportOptions, gets.
  rewrite Hboss, K1, K2, K3, K4, K5.
  repeat (split; [reflexivity|]). split; [|split].
  - destruct (myScene e') as [sc|]; [|discriminate].
    destruct (myNodeManager e') as [nm|]; [|discriminate].
    exists sc, nm. split; reflexivity.
  - destruct Herr as (l & ->). exists l. reflexivity.
  - exists (myExportOptions e'). split; [reflexivity | exact K6].
Qed.

(** One second of the sample scene. *)
Lemma accessors_after_export_witness :
  let e := Sample.session Sample.env 0%float 1%float Sample.options in
  exists e',
    doExport Sample.env e = Some (tt, e')
    /\ GetBoss e' = Some (None, e')
    /\ getOutputFileName e' = Some ("out.fbx", e')
    /\ getStartTime e' = Some (0%float, e')
    /\ getEndTime e' = Some (1%float, e').
Proof.
  intros e.
  destruct (accessors_after_export Sample.env e) as (e' & H & H1 & H2 & H3 & H4 & _).
  - unfold alive. cbn. auto.
  - intros Hb. discriminate Hb.
  - exists e'. repeat split; assumption.
Defined.

(** ** doExport: the scene information *)

Lemma modify_scene_bind {B : Type} (f : FbxScene -> FbxScene) (k : unit -> M B)
    (e : Exporter) (sc : FbxScene) :
  myScene e = Some sc ->
  bind (modify_scene f) k e = k tt (set_myScene (Some (f sc)) e).
Proof.
  intros Hsc. unfold modify_scene, bind, deref, modify. rewrite Hsc. reflexivity.
Qed.

Lemma modify_scene_run (f : FbxScene -> FbxScene) (e : Exporter) (sc : FbxScene) :
  myScene e = Some sc ->
  modify_scene f e = Some (tt, set_myScene (Some (f sc)) e).
Proof.
  intros Hsc. unfold modify_scene, bind, deref, modify. rewrite Hsc. reflexivity.
Qed.

Lemma set_scene_info_entries (env : Env) (e e' : Exporter) (sc : FbxScene) :
  myScene e = Some sc ->
  set_scene_info env e = Some (tt, e') ->
  scene_obs SceneInfo e' = Some (SceneInfo sc ++ scene_info_entries env (myOutputFile e)).
Proof.
  intros Hsc. unfold set_scene_info, scene_info_entries, native_path. cbv zeta.
  rewrite (modify_scene_bind _ _ e sc Hsc).
  do 2 (erewrite modify_scene_bind by reflexivity).
  unfold bind at 1. cbn [gets].
  erewrite modify_scene_bind by reflexivity.
  destruct (String.eqb (expandString (hou env) "$JOB") ""); cbn [negb when];
    [unfold bind at 1; cbn [ret] | erewrite modify_scene_bind by reflexivity];
    (destruct (String.eqb (expandString (hou env) "$HIPFILE") ""); cbn [negb when];
     [unfold bind at 1; cbn [ret] | erewrite modify_scene_bind by reflexivity]);
    do 4 (erewrite modify_scene_bind by reflexivity);
    (erewrite modify_scene_run by reflexivity);
    intros H; injection H as <-; unfold scene_obs; cbn;
    rewrite <- ?app_assoc; reflexivity.
Qed.

(** X23.  A [doExport] that is not interrupted at its start adds the
    application information to the scene once, also when the start node
    is not found later: vendor, name and version, the output file name
    and the two dates, and the active project and the native file
    exactly when [$JOB] and [$HIPFILE] expand to something.  Compiled
    for Windows, it writes the file name, the project and the native
    file as [substitute] leaves them with a backslash for "/"; compiled
    for another platform, as they are. *)
Theorem scene_information_written (env : Env) (e : Exporter) (sc : FbxScene) :
  alive e -> bundles_resolve env e ->
  myScene e = Some sc ->
  wasInterrupted (hou env) = false ->
  exists e',
    doExport env e = Some (tt, e')
    /\ scene_obs SceneInfo e'
       = Some (SceneInfo sc ++ scene_info_entries env (myOutputFile e))
    /\ ((exists job, In ("Original|ApplicationActiveProject", job)
                        (scene_info_entries env (myOutputFile e)))
        <-> expandString (hou env) "$JOB" <> "")
    /\ ((exists hipfile, In ("Original|ApplicationNativeFile", hipfile)
                            (scene_info_entries env (myOutputFile e)))
        <-> expandString (hou env) "$HIPFILE" <> "")
    /\ In ("Original|FileName",
           if win32 env then substitute (hou env) (myOutputFile e) "/" backslash
           else myOutputFile e)
          (scene_info_entries env (myOutputFile e))
    /\ (forall job, In ("Original|ApplicationActiveProject", job)
                       (scene_info_entries env (myOutputFile e)) ->
                    job = if win32 env
                          then substitute (hou env) (expandString (hou env) "$JOB") "/" backslash
                          else expandString (hou env) "$JOB")
    /\ (forall hipfile, In ("Original|ApplicationNativeFile", hipfile)
                           (scene_info_entries env (myOutputFile e)) ->
                        hipfile = if win32 env
                                  then substitute (hou env) (expandString (hou env) "$HIPFILE")
                                         "/" backslash
                                  else expandString (hou env) "$HIPFILE").
Proof.
  intros He Hb Hsc Hint. destruct (doExport_returns env e He Hb) as (e' & H & _).
  exists e'. split; [exact H|]. split.
  - destruct (doExport_inv env e e' Hint H)
      as (e1 & init_take & e2 & e3 & e4 & H1 & H2 & H3 & H4 & ->).
    frame_of (keeps (fun e => (myScene e, myOutputFile e))) H1. cbn in H1.
    injection H1 as Hs1 Hf1.
    frame_of (keeps (fun e => (myScene e, myOutputFile e))) H2. cbn in H2.
    injection H2 as Hs2 Hf2.
    unfold export_in_take, prepare_scene in H3.
    apply bind_Some in H3. destruct H3 as (single & e2a & Hprep & H3).
    apply bind_Some in Hprep. destruct Hprep as ([] & ei & Hinfo & Hprep).
    assert (Hsc2 : myScene e2 = Some sc) by congruence.
    pose proof (set_scene_info_entries env e2 ei sc Hsc2 Hinfo) as Hentries.
    frame_of (keeps (scene_obs SceneInfo)) Hprep.
    frame_of (keeps (scene_obs SceneInfo)) H3.
    frame_of (keeps (scene_obs SceneInfo)) H4.
    cbn in Hprep, H3, H4. unfold scene_obs in *. cbn [myScene set_myBoss].
    rewrite H4, H3, Hprep, Hentries, Hf2, Hf1. reflexivity.
  - unfold scene_info_entries, native_path. cbv zeta. split; [|split; [|split; [|split]]].
    + destruct (String.eqb_spec (expandString (hou env) "$JOB") "") as [E | E].
      * split; [|congruence]. intros (job & Hin). exfalso.
        rewrite !in_app_iff in Hin. cbn in Hin.
        destruct (String.eqb (expandString (hou env) "$HIPFILE") ""); cbn in Hin;
          intuition congruence.
      * split; [intros _; exact E|]. intros _. eexists.
        rewrite !in_app_iff. cbn. right. left. left. reflexivity.
    + destruct (String.eqb_spec (expandString (hou env) "$HIPFILE") "") as [E | E].
      * split; [|congruence]. intros (hip & Hin). exfalso.
        rewrite !in_app_iff in Hin. cbn in Hin.
        destruct (String.eqb (expandString (hou env) "$JOB") ""); cbn in Hin;
          intuition congruence.
      * split; [intros _; exact E|]. intros _. eexists.
        rewrite !in_app_iff. cbn. right. right. left. left. reflexivity.
    + rewrite !in_app_iff. cbn. auto 10.
    + intros job Hin. rewrite !in_app_iff in Hin. cbn in Hin.
      destruct (String.eqb (expandString (hou env) "$JOB") ""),
        (String.eqb (expandString (hou env) "$HIPFILE") ""); cbn in Hin;
        intuition congruence.
    + intros hipfile Hin. rewrite !in_app_iff in Hin. cbn in Hin.
      destruct (String.eqb (expandString (hou env) "$JOB") ""),
        (String.eqb (expandString (hou env) "$HIPFILE") ""); cbn in Hin;
        intuition congruence.
Qed.

(** The sample session compiled for Windows, with a project, asked to
    export a node that does not exist to [C:/out/scene.fbx]. *)
Lemma scene_information_written_witness :
  let e := set_myOutputFile "C:/out/scene.fbx"
             (Sample.session windows_env 0%float 0%float
                (setStartNodePath "/nonexistent" Sample.options)) in
  exists e',
    doExport windows_env e = Some (tt, e')
    /\ scene_obs SceneInfo e'
       = Some [("Original|ApplicationVendor", "SideFX Software");
               ("Original|ApplicationName", "Houdini");
               ("Original|ApplicationVersion", "20.0.0");
               ("Original|FileName", "C:" ++ backslash ++ "out" ++ backslash ++ "scene.fbx");
               ("Original|ApplicationActiveProject", "C:" ++ backslash ++ "proj");
               ("LastSaved|ApplicationVendor", "SideFX Software");
               ("LastSaved|ApplicationName", "Houdini");
               ("LastSaved|ApplicationVersion", "20.0.0");
               ("Original|DateTime_GMT", "2022-01-01 00:00:00");
               ("LastSaved|DateTime_GMT", "2022-01-01 00:00:00")]%string.
Proof.
  intros e.
  destruct (scene_information_written windows_env e (FbxScene_Create Sample.fbxsdk))
    as (e' & H & Hinfo & _).
  - unfold alive. cbn. auto.
  - intros Hb. discriminate Hb.
  - reflexivity.
  - reflexivity.
  - exists e'. split; [exact H|]. rewrite Hinfo. vm_compute. reflexivity.
Defined.

(** ** The animation pass: its calls *)

Lemma getFBXRootNode_total (env : Env) (asking : option OP_Node) (create : bool) :
  total (getFBXRootNode env asking create).
Proof. total_auto. Qed.

(** X24.  The animation pass resets the animation visitor with the base
    layer, exports the animation of the world_root when there is one as
    the pass starts, on the start node and into the base layer, then
    visits the scene from the start node, in this order; the cancel
    flag it leaves is the one of the animation visitor. *)
Theorem animation_pass_calls (env : Env) (geom_node : OP_Node) (e : Exporter) :
  alive e ->
  exists e',
    export_animation env geom_node e = Some (tt, e')
    /\ anim_calls e'
       = anim_calls e ++ [Anim_reset "Base Layer"]
         ++ match myDummyRootNullNode e with
            | Some world_root =>
                [Anim_exportTRSAnimation geom_node "Base Layer" world_root]
            | None => []
            end
         ++ [Anim_visitScene geom_node]
    /\ myDidCancel e' = anim_getDidCancel (rop env) geom_node.
Proof.
  intros He.
  assert (Htotal : total (export_animation env geom_node)) by total_auto.
  destruct (Htotal e He) as ([] & e' & H & _).
  exists e'. split; [exact H|].
  destruct (export_animation_cancel env geom_node e e' H) as (Hc & _).
  split; [|exact Hc].
  unfold export_animation in H. cbv zeta in H.
  bind_step H. bind_step H.
  frame_of (keeps (fun e => (anim_calls e, myDummyRootNullNode e))) Hrun. cbn in Hrun.
  injection Hrun as Sa Sd.
  bind_step H. unfold deref in Hrun.
  destruct (myScene e0) as [sc|]; [|discriminate]. injection Hrun as <- <-.
  bind_step H. bind_step H.
  frame_of (keeps (fun e => (anim_calls e, myDummyRootNullNode e))) Hrun. cbn in Hrun.
  injection Hrun as Sa1 Sd1.
  bind_step H. bind_step H.
  rewrite Sd1, Sd in H. unfold anim_calls in *.
  destruct (myDummyRootNullNode e) as [d|].
  - bind_step H. bind_step H. bind_step H. frame_of (keeps anim_calls) Hrun. cbn in Hrun.
    unfold anim_calls in Hrun. injection H as <-. cbn [calls set_myDidCancel]. rewrite Hrun. cbn [calls set_calls].
    rewrite !filter_app. cbn [filter is_anim_call].
    rewrite Sa1, Sa, <- !app_assoc. reflexivity.
  - bind_step H. bind_step H. bind_step H. frame_of (keeps anim_calls) Hrun. cbn in Hrun.
    unfold anim_calls in Hrun. injection H as <-. cbn [calls set_myDidCancel]. rewrite Hrun. cbn [calls set_calls].
    rewrite !filter_app. cbn [filter is_anim_call].
    rewrite Sa1, Sa, <- !app_assoc. reflexivity.
Qed.

(** The sample session with an animation visitor that is cancelled. *)
Lemma animation_pass_calls_witness :
  let e := Sample.session anim_cancelling_env 0%float 1%float Sample.options in
  exists e',
    export_animation anim_cancelling_env Sample.obj e = Some (tt, e')
    /\ anim_calls e' = [Anim_reset "Base Layer"; Anim_visitScene Sample.obj]
    /\ myDidCancel e' = true.
Proof.
  intros e.
  destruct (animation_pass_calls anim_cancelling_env Sample.obj e) as (e' & H & Ha & Hc).
  - unfold alive. cbn. auto.
  - exists e'. split; [exact H|]. split; [exact Ha | exact Hc].
Defined.

(** ** doExport without a scene *)

(** X25.  On an exporter without a scene (a new one, or one whose
    [finishExport] has released it), a [doExport] that is not
    interrupted at its start crashes: it dereferences the null scene. *)
Theorem doExport_needs_scene (env : Env) (e : Exporter) :
  myScene e = None ->
  wasInterrupted (hou env) = false ->
  doExport env e = None.
Proof.
  intros Hsc Hint. destruct (doExport env e) as [[[] e']|] eqn:H; [|reflexivity].
  exfalso.
  destruct (doExport_inv env e e' Hint H)
    as (e1 & init_take & e2 & e3 & e4 & H1 & H2 & H3 & H4 & _).
  frame_of (keeps myScene) H1. frame_of (keeps myScene) H2. cbn in H1, H2.
  unfold export_in_take, prepare_scene, set_scene_info in H3.
  bind_step H3. bind_step Hrun. clear Hrun. bind_step Hrun0.
  unfold modify_scene in Hrun. bind_step Hrun. unfold deref in Hrun1.
  rewrite H2, H1, Hsc in Hrun1. discriminate.
Qed.

(** A new exporter. *)
Lemma doExport_needs_scene_witness :
  doExport Sample.env Sample.exporter = None.
Proof.
  apply doExport_needs_scene; reflexivity.
Defined.

(** ** The bundle block: the top network is an ancestor *)

Lemma is_inside_or_self_refl (t : OP_Node) : is_inside_or_self t t = true.
Proof. unfold is_inside_or_self. rewrite OP_Node_eqb_refl. reflexivity. Qed.

Lemma is_inside_or_self_parent (x : string) (p t : OP_Node) :
  is_inside_or_self p t = true -> is_inside_or_self (x :: p) t = true.
Proof.
  unfold is_inside_or_self. intros H. apply orb_true_iff. right.
  cbn [is_inside]. exact H.
Qed.

Lemma climb_to_container_up (h : Houdini) (obj_net : option OP_Node) (n : OP_Node) :
  forall t t',
    climb_to_container h obj_net n t = Some (Some t') ->
    is_inside_or_self t t' = true.
Proof.
  induction t as [|x p IH]; intros t' H; cbn [climb_to_container] in H.
  - match type of H with
    | (if ?b then _ else _) = _ => destruct b
    end.
    + match type of H with
      | (if ?b then _ else _) = _ => destruct b; discriminate
      end.
    + injection H as <-. apply is_inside_or_self_refl.
  - match type of H with
    | (if ?b then _ else _) = _ => destruct b
    end.
    + apply is_inside_or_self_parent. apply IH. exact H.
    + injection H as <-. apply is_inside_or_self_refl.
Qed.

Lemma is_inside_or_self_trans (a b c : OP_Node) :
  is_inside_or_self a b = true -> is_inside_or_self b c = true ->
  is_inside_or_self a c = true.
Proof.
  induction a as [|x p IH]; intros Hab Hbc.
  - unfold is_inside_or_self in Hab. cbn in Hab. rewrite orb_false_r in Hab.
    apply OP_Node_eqb_eq in Hab. subst b. exact Hbc.
  - unfold is_inside_or_self in Hab. apply orb_true_iff in Hab. destruct Hab as [Hab | Hab].
    + apply OP_Node_eqb_eq in Hab. subst b. exact Hbc.
    + apply is_inside_or_self_parent. apply IH; [|exact Hbc].
      cbn [is_inside] in Hab. exact Hab.
Qed.

Lemma top_network_after_origin (h : Houdini) (obj_net : option OP_Node)
    (nodes : list OP_Node) :
  forall top t',
    top_network_after h obj_net nodes top = Some (Some t') ->
    (exists t, top = Some t /\ is_inside_or_self t t' = true)
    \/ exists n p,
         In n nodes /\ getParent n = Some p
         /\ getIsContainedBy h p obj_net = true
         /\ is_inside_or_self p t' = true.
Proof.
  induction nodes as [|n rest IH]; intros top t' H; cbn [top_network_after] in H.
  - injection H as ->. left. exists t'. split; [reflexivity | apply is_inside_or_self_refl].
  - destruct (update_top_network h obj_net top n) as [top1|] eqn:E; [|discriminate].
    destruct (IH top1 t' H) as [(t1 & -> & Ht1) | (m & p & Hin & Hp & Hc & Hup)].
    + destruct top as [t|]; cbn [update_top_network] in E.
      * left. exists t. split; [reflexivity|].
        eapply is_inside_or_self_trans; [|exact Ht1].
        eapply climb_to_container_up. exact E.
      * right. destruct (getParent n) as [p|] eqn:Ep; [|discriminate].
        destruct (getIsContainedBy h p obj_net) eqn:Ec; cbn [negb] in E; [|discriminate].
        injection E as <-. exists n, p. cbn [In]. auto.
    + right. exists m, p. cbn [In]. auto.
Qed.

(** X26.  The top network of a bundle export is the object network
    [/obj], or the parent network of a matched node whose parent the
    host reports as contained by [/obj], or a network above that
    parent: the loop only ever climbs parent links. *)
Theorem start_network_is_an_ancestor (env : Env) (e : Exporter) (nm : ROP_FBXNodeManager)
    (top : OP_Node) :
  myNodeManager e = Some nm ->
  bundle_top_network env (myExportOptions e) = Some top ->
  let obj_net := findNode (hou env) "/obj" in
  let matched := matched_nodes (hou env)
                   (strip (hou env) (getBundlesString (myExportOptions e)) "@")
                   (getBundles (hou env)) in
  exists e',
    export_bundles env e = Some (top, e')
    /\ start_path_obs e' = getFullPath (hou env) top
    /\ (obj_net = Some top
        \/ exists n p,
             In n matched /\ getParent n = Some p
             /\ getIsContainedBy (hou env) p obj_net = true
             /\ is_inside_or_self p top = true).
Proof.
  intros Hnm Htop obj_net matched.
  pose proof (export_bundles_eq env e nm Hnm) as Heq. rewrite Htop in Heq.
  eexists. split; [exact Heq|]. split; [reflexivity|].
  unfold bundle_top_network in Htop. fold obj_net in Htop. fold matched in Htop.
  destruct (top_network_after (hou env) obj_net matched None) as [[t|]|] eqn:E;
    [|left; exact Htop|discriminate].
  injection Htop as ->. right.
  destruct (top_network_after_origin (hou env) obj_net matched None top E)
    as [(t & Hnone & _) | Hright]; [discriminate | exact Hright].
Qed.

(** The bundle with a material and a geometry node. *)
Lemma start_network_is_an_ancestor_witness :
  let env := Sample.env_with [Sample.mat1; Sample.geoA] in
  let e := Sample.session env 0%float 0%float Sample.bundle_options in
  exists e',
    export_bundles env e = Some (Sample.subnet1, e')
    /\ start_path_obs e' = "/obj/subnet1".
Proof.
  intros env e.
  destruct (start_network_is_an_ancestor env e new_ROP_FBXNodeManager Sample.subnet1)
    as (e' & H & Hp & _).
  - reflexivity.
  - vm_compute. reflexivity.
  - exists e'. split; [exact H|]. rewrite Hp. vm_compute. reflexivity.
Defined.
